(** * Smart business report generator: the data-inference core

    A shallow embedding of the three Python modules that carry the
    algorithmic content of the repository:

    - [data_processor.py]: [validate_file], [clean_data],
      [detect_financial_structure];
    - [nlp_analyzer.py]: the field classifiers, the four insight generators
      and [analyze_data];
    - [visualizer.py]: the five chart builders and [create_visualizations].

    Python values are modelled as follows.  A [str] is a [string] whose
    characters are the code points 0..255 (Latin-1), with [lower], [strip]
    and [isdigit] as Python defines them on that range.  A [float] is an
    IEEE-754 binary64 number, written as a [spec_float] with the operations
    of the Standard Library's [SpecFloat] at precision 53 and exponent bound
    1024.  A [dict] is an association list in insertion order.  Exceptions
    are the [Raise] results of an error monad. *)

From Stdlib Require Import ZArith List String Ascii Bool Lia.
From Stdlib Require Import Permutation Sorted DecimalString.
From Stdlib Require Import Floats.SpecFloat.
Import ListNotations.

Local Open Scope string_scope.
Local Open Scope list_scope.

(** ** Exceptions and the error monad *)

Inductive exn : Type :=
| AttributeError
| TypeError
| ValueError
| KeyError
| OverflowError
| ZeroDivisionError
| StatisticsError.

Inductive result (A : Type) : Type :=
| Ok (a : A)
| Raise (e : exn).

Arguments Ok {A} a.
Arguments Raise {A} e.

Definition bind {A B : Type} (m : result A) (k : A -> result B) : result B :=
  match m with
  | Ok a => k a
  | Raise e => Raise e
  end.

Notation "x <- m ;; k" := (bind m (fun x => k))
  (at level 61, m at next level, right associativity).

Fixpoint mapM {A B : Type} (f : A -> result B) (l : list A) : result (list B) :=
  match l with
  | [] => Ok []
  | a :: l' => b <- f a ;; bs <- mapM f l' ;; Ok (b :: bs)
  end.

(** ** Python strings on the Latin-1 range *)

Module PyStr.

Definition code (c : ascii) : N := N_of_ascii c.

(** [str.isspace] for one character: TAB..CR, FS..US, SPACE, NEL, NBSP. *)
Definition is_space (c : ascii) : bool :=
  let n := code c in
  ((9 <=? n) && (n <=? 13) || (28 <=? n) && (n <=? 32)
   || (n =? 133) || (n =? 160))%N.

(** [str.isdigit] for one character: ASCII digits and the superscripts
    U+00B2, U+00B3, U+00B9. *)
Definition is_digit_char (c : ascii) : bool :=
  let n := code c in
  ((48 <=? n) && (n <=? 57) || (n =? 178) || (n =? 179) || (n =? 185))%N.

(** ASCII decimal digits, the only ones [float] and [int] accept here. *)
Definition is_decimal_char (c : ascii) : bool :=
  let n := code c in ((48 <=? n) && (n <=? 57))%N.

Definition lower_char (c : ascii) : ascii :=
  let n := code c in
  if ((65 <=? n) && (n <=? 90)
      || (192 <=? n) && (n <=? 222) && negb (n =? 215))%N
  then ascii_of_N (n + 32) else c.

Fixpoint smap (f : ascii -> ascii) (s : string) : string :=
  match s with
  | EmptyString => EmptyString
  | String c s' => String (f c) (smap f s')
  end.

Fixpoint sall (p : ascii -> bool) (s : string) : bool :=
  match s with
  | EmptyString => true
  | String c s' => p c && sall p s'
  end.

(** [s.lower()] *)
Definition lower (s : string) : string := smap lower_char s.

Fixpoint lstrip (s : string) : string :=
  match s with
  | EmptyString => EmptyString
  | String c s' => if is_space c then lstrip s' else s
  end.

Fixpoint rstrip (s : string) : string :=
  match s with
  | EmptyString => EmptyString
  | String c s' =>
      match rstrip s' with
      | EmptyString => if is_space c then EmptyString else String c EmptyString
      | r => String c r
      end
  end.

(** [s.strip()] *)
Definition strip (s : string) : string := rstrip (lstrip s).

(** [s.replace(a, b)] for one-character [a] and [b]. *)
Definition replace_char (a b : ascii) (s : string) : string :=
  smap (fun c => if Ascii.eqb c a then b else c) s.

(** [s.replace(a, '', 1)] for a one-character [a]. *)
Fixpoint remove_first (a : ascii) (s : string) : string :=
  match s with
  | EmptyString => EmptyString
  | String c s' => if Ascii.eqb c a then s' else String c (remove_first a s')
  end.

(** [s.isdigit()]: non-empty and every character a digit. *)
Definition isdigit (s : string) : bool :=
  match s with
  | EmptyString => false
  | _ => sall is_digit_char s
  end.

(** [sub in s] *)
Fixpoint contains (sub s : string) : bool :=
  prefix sub s ||
  match s with
  | EmptyString => false
  | String _ s' => contains sub s'
  end.

(** [any(term in s for term in terms)] *)
Definition contains_any (terms : list string) (s : string) : bool :=
  existsb (fun t => contains t s) terms.

(** The test [value.replace('.', '', 1).isdigit()] shared by the cleaner and
    the numeric classifier. *)
Definition looks_numeric (s : string) : bool := isdigit (remove_first "." s).

(** Lexicographic [<] by code point. *)
Fixpoint ltb (s t : string) : bool :=
  match s, t with
  | _, EmptyString => false
  | EmptyString, String _ _ => true
  | String a s', String b t' =>
      if (code a <? code b)%N then true
      else if (code a =? code b)%N then ltb s' t' else false
  end.

End PyStr.

(** ** Python floats: IEEE-754 binary64 *)

Module PyFloat.

Local Open Scope Z_scope.

Definition float : Type := spec_float.

Definition prec : Z := 53.
Definition emax : Z := 1024.

Definition add (x y : float) : float := SFadd prec emax x y.
Definition sub (x y : float) : float := SFsub prec emax x y.
Definition mul (x y : float) : float := SFmul prec emax x y.
Definition ltb (x y : float) : bool := SFltb x y.
Definition gtb (x y : float) : bool := SFltb y x.
Definition eqb (x y : float) : bool := SFeqb x y.
Definition abs (x : float) : float := SFabs x.

Definition is_nan (x : float) : bool :=
  match x with S754_nan => true | _ => false end.

Definition is_zero (x : float) : bool :=
  match x with S754_zero _ => true | _ => false end.

Definition is_inf (x : float) : bool :=
  match x with S754_infinity _ => true | _ => false end.

(** The float nearest to the integer [z]. *)
Definition of_Z (z : Z) : float := binary_normalize prec emax z 0 false.

(** The float nearest to [(-1)^neg * m * 10^e], for [0 <= m]: what a decimal
    literal or [float(str)] denotes. *)
Definition of_decimal (neg : bool) (m e : Z) : float :=
  if (m =? 0)%Z then S754_zero neg
  else if (0 <=? e)%Z then
    binary_normalize prec emax (cond_Zopp neg (m * 10 ^ e)) 0 neg
  else
    let '(q, e', l) := SFdiv_core_binary prec emax m 0 (10 ^ (- e)) 0 in
    binary_round_aux prec emax neg q e' l.

(** [x / y]; Python raises [ZeroDivisionError] on a zero divisor. *)
Definition div (x y : float) : result float :=
  if is_zero y then Raise ZeroDivisionError else Ok (SFdiv prec emax x y).

(** [x / n] for an integer [n]: the integer is converted first, and its
    float is zero exactly when the integer is. *)
Definition div_int (x : float) (n : Z) : result float :=
  if n =? 0 then Raise ZeroDivisionError else Ok (SFdiv prec emax x (of_Z n)).

(** [a / b] for two integers: the float nearest to the quotient, which for
    operands below [2^53] is the quotient of their floats. *)
Definition int_true_div (a b : Z) : result float := div_int (of_Z a) b.

(** *** [float(str)] *)

Definition digit_val (c : ascii) : Z := Z.of_N (PyStr.code c) - 48.

(** The rest of a [digitpart] once one digit is read: digits, each possibly
    preceded by one underscore.  Returns the accumulated value, the number of
    digits read and the unread suffix. *)
Fixpoint digits_tail (s : string) (acc cnt : Z) : Z * Z * string :=
  match s with
  | String c s' =>
      if PyStr.is_decimal_char c
      then digits_tail s' (10 * acc + digit_val c) (cnt + 1)
      else if Ascii.eqb c "_" then
        match s' with
        | String d s'' =>
            if PyStr.is_decimal_char d
            then digits_tail s'' (10 * acc + digit_val d) (cnt + 1)
            else (acc, cnt, s)
        | EmptyString => (acc, cnt, s)
        end
      else (acc, cnt, s)
  | EmptyString => (acc, cnt, s)
  end.

Definition digitpart (s : string) (acc cnt : Z) : option (Z * Z * string) :=
  match s with
  | String c s' =>
      if PyStr.is_decimal_char c
      then Some (digits_tail s' (10 * acc + digit_val c) (cnt + 1))
      else None
  | EmptyString => None
  end.

(** [number ::= [digitpart] "." digitpart | digitpart ["."]]: the digits as
    one integer, the number of fraction digits, the total number of digits
    and the unread suffix. *)
Definition number (s : string) : option (Z * Z * Z * string) :=
  match digitpart s 0 0 with
  | Some (m, n, String "." rest) =>
      match digitpart rest m n with
      | Some (m', n', rest') => Some (m', n' - n, n', rest')
      | None => Some (m, 0, n, rest)
      end
  | Some (m, n, rest) => Some (m, 0, n, rest)
  | None =>
      match s with
      | String "." rest =>
          match digitpart rest 0 0 with
          | Some (m', n', rest') => Some (m', n', n', rest')
          | None => None
          end
      | _ => None
      end
  end.

Definition split_sign (s : string) : bool * string :=
  match s with
  | String "-" s' => (true, s')
  | String "+" s' => (false, s')
  | _ => (false, s)
  end.

(** [exponent ::= ("e" | "E") [sign] digitpart], to the end of the string. *)
Definition exponent (s : string) : option Z :=
  match s with
  | EmptyString => Some 0
  | String c s' =>
      if Ascii.eqb c "e" || Ascii.eqb c "E" then
        let '(neg, body) := split_sign s' in
        match digitpart body 0 0 with
        | Some (x, _, EmptyString) => Some (cond_Zopp neg x)
        | _ => None
        end
      else None
  end.

(** The value of [m * 10^e] with [n] digits in [m]; exponents beyond the
    binary64 range are settled without computing the power. *)
Definition scaled (neg : bool) (m n e : Z) : float :=
  if (m =? 0)%Z then S754_zero neg
  else if (400 <? e)%Z then S754_infinity neg
  else if (e + n <? -400)%Z then S754_zero neg
  else of_decimal neg m e.

(** The white space [float] skips at both ends: TAB..CR and SPACE, and, of
    the characters beyond ASCII, NEL and NBSP.  The separators FS..US, which
    [str.strip] removes, are not skipped: a string that holds one is not a
    number. *)
Definition is_float_space (c : ascii) : bool :=
  let n := PyStr.code c in
  ((9 <=? n) && (n <=? 13) || (n =? 32) || (n =? 133) || (n =? 160))%N.

Fixpoint skip_left (s : string) : string :=
  match s with
  | EmptyString => EmptyString
  | String c s' => if is_float_space c then skip_left s' else s
  end.

Fixpoint skip_right (s : string) : string :=
  match s with
  | EmptyString => EmptyString
  | String c s' =>
      match skip_right s' with
      | EmptyString => if is_float_space c then EmptyString else String c EmptyString
      | r => String c r
      end
  end.

Definition of_string (s : string) : option float :=
  let '(neg, body) := split_sign (skip_right (skip_left s)) in
  let word := PyStr.lower body in
  if String.eqb word "inf" || String.eqb word "infinity"
  then Some (S754_infinity neg)
  else if String.eqb word "nan" then Some S754_nan
  else
    match number body with
    | Some (m, frac, n, rest) =>
        match exponent rest with
        | Some x => Some (scaled neg m n (x - frac))
        | None => None
        end
    | None => None
    end.

(** *** Fixed-point formatting, [f"{x:.Nf}"] *)

Definition decimal_of_Z (z : Z) : string :=
  NilZero.string_of_uint (N.to_uint (Z.to_N z)).

Fixpoint zeros (n : nat) : string :=
  match n with
  | O => EmptyString
  | S n' => String "0" (zeros n')
  end.

(** [z] in decimal, left-padded with zeros to [n] digits. *)
Definition padded (n : nat) (z : Z) : string :=
  let d := decimal_of_Z z in
  (zeros (n - String.length d) ++ d)%string.

(** The integer nearest to [p / q], ties to even; [0 <= p], [0 < q]. *)
Definition round_half_even (p q : Z) : Z :=
  let '(d, r) := Z.div_eucl p q in
  match (2 * r ?= q)%Z with
  | Lt => d
  | Gt => d + 1
  | Eq => if Z.even d then d else d + 1
  end.

(** [|x| * 10^k] as a fraction, for a finite [x = m * 2^e]. *)
Definition scaled10 (m : positive) (e k : Z) : Z * Z :=
  let num := (Zpos m * (if 0 <=? e then 2 ^ e else 1)
                     * (if 0 <=? k then 10 ^ k else 1))%Z in
  let den := ((if 0 <=? e then 1 else 2 ^ (- e))
              * (if 0 <=? k then 1 else 10 ^ (- k)))%Z in
  (num, den).

Definition fixed (n : nat) (neg : bool) (units : Z) : string :=
  let p := (10 ^ Z.of_nat n)%Z in
  ((if neg then "-" else "")
    ++ decimal_of_Z (units / p)
    ++ match n with
       | O => ""
       | _ => "." ++ padded n (units mod p)
       end)%string.

Definition format_f (n : nat) (x : float) : string :=
  match x with
  | S754_nan => "nan"
  | S754_infinity neg => if neg then "-inf" else "inf"
  | S754_zero neg => fixed n neg 0
  | S754_finite neg m e =>
      let '(p, q) := scaled10 m e (Z.of_nat n) in
      fixed n neg (round_half_even p q)
  end.

End PyFloat.

(** ** Values, dictionaries, records *)

Inductive value : Type :=
| VNone
| VBool (b : bool)
| VInt (n : Z)
| VFloat (f : PyFloat.float)
| VStr (s : string).

(** A [dict] with string keys, in insertion order. *)
Definition dict (A : Type) : Type := list (string * A).

Definition dict_keys {A : Type} (d : dict A) : list string := map fst d.

Fixpoint dict_get {A : Type} (d : dict A) (k : string) : option A :=
  match d with
  | [] => None
  | (k', v) :: d' => if String.eqb k' k then Some v else dict_get d' k
  end.

(** [k in d] *)
Definition dict_mem {A : Type} (d : dict A) (k : string) : bool :=
  match dict_get d k with
  | Some _ => true
  | None => false
  end.

(** [d[k] = v]: an existing key keeps its position, a new one goes last. *)
Fixpoint dict_set {A : Type} (d : dict A) (k : string) (v : A) : dict A :=
  match d with
  | [] => [(k, v)]
  | (k', v') :: d' =>
      if String.eqb k' k then (k', v) :: d' else (k', v') :: dict_set d' k v
  end.

Definition record : Type := dict value.

(** An element of the data list: a record, or anything else (here a scalar). *)
Inductive item : Type :=
| IRecord (r : record)
| IScalar (v : value).

(** What the entry points may be handed. *)
Inductive pydata : Type :=
| PList (items : list item)
| PRecord (r : record)
| PScalar (v : value).

(** [k in it] *)
Definition contains_key (it : item) (k : string) : result bool :=
  match it with
  | IRecord r => Ok (dict_mem r k)
  | IScalar (VStr s) => Ok (PyStr.contains k s)
  | IScalar _ => Raise TypeError
  end.

(** [it[k]] *)
Definition getitem (it : item) (k : string) : result value :=
  match it with
  | IRecord r =>
      match dict_get r k with
      | Some v => Ok v
      | None => Raise KeyError
      end
  | IScalar _ => Raise TypeError
  end.

(** [it.items()] and [it.keys()] exist on records only. *)
Definition items_of (it : item) : result record :=
  match it with
  | IRecord r => Ok r
  | IScalar _ => Raise AttributeError
  end.

(** ** data_processor.py *)

Module DataProcessor.

(** [pd.isna(value)] on a scalar. *)
Definition isna (v : value) : bool :=
  match v with
  | VNone => true
  | VFloat f => PyFloat.is_nan f
  | _ => false
  end.

(** [float(value)] for a string. *)
Definition float_of_str (s : string) : result PyFloat.float :=
  match PyFloat.of_string s with
  | Some f => Ok f
  | None => Raise ValueError
  end.

(** [key.strip().lower().replace(' ', '_')] *)
Definition clean_key (k : string) : string :=
  PyStr.replace_char " " "_" (PyStr.lower (PyStr.strip k)).

Definition clean_value (v : value) : result value :=
  if isna v then Ok VNone
  else
    match v with
    | VStr s =>
        if PyStr.looks_numeric s
        then f <- float_of_str s ;; Ok (VFloat f)
        else Ok v
    | _ => Ok v
    end.

(** The inner loop of [clean_data] over [item.items()]. *)
Fixpoint clean_fields (fields : record) (clean_item : record) : result record :=
  match fields with
  | [] => Ok clean_item
  | (key, v) :: rest =>
      v' <- clean_value v ;;
      clean_fields rest (dict_set clean_item (clean_key key) v')
  end.

Definition clean_record (it : item) : result item :=
  fields <- items_of it ;;
  r <- clean_fields fields [] ;;
  Ok (IRecord r).

Definition clean_data (data : pydata) : result pydata :=
  match data with
  | PList items => cleaned <- mapM clean_record items ;; Ok (PList cleaned)
  | _ => Ok data
  end.

Definition financial_fields : dict (list string) :=
  [ ("revenue", ["revenue"; "sales"; "income"; "earnings"; "amt"; "amount"; "total"]);
    ("expenses", ["expenses"; "costs"; "expenditure"; "expense"]);
    ("profit", ["profit"; "net_income"; "net_profit"; "gross_profit"]);
    ("date", ["date"; "period"; "month"; "year"; "quarter"]);
    ("category", ["category"; "department"; "division"; "segment"; "product_line"; "product"]) ].

(** The first key of the sample whose lowercased name contains one of
    [possible_names]: the inner loop with its [break]. *)
Definition first_match (keys : list string) (possible_names : list string)
  : option string :=
  find (fun key => PyStr.contains_any possible_names (PyStr.lower key)) keys.

(** The [field_mapping] dictionary, from original key to canonical name,
    built over the targets [targets] in order. *)
Fixpoint build_mapping (keys : list string) (targets : dict (list string))
    (field_mapping : dict string) : dict string :=
  match targets with
  | [] => field_mapping
  | (field_type, possible_names) :: rest =>
      build_mapping keys rest
        match first_match keys possible_names with
        | Some key => dict_set field_mapping key field_type
        | None => field_mapping
        end
  end.

Definition detect_mapping (sample : record) : dict string :=
  build_mapping (dict_keys sample) financial_fields [].

(** First loop of the rebuild: the mapped canonical keys. *)
Fixpoint copy_mapped (field_mapping : dict string) (it : item)
    (normalized_item : record) : result record :=
  match field_mapping with
  | [] => Ok normalized_item
  | (orig_key, normalized_key) :: rest =>
      present <- contains_key it orig_key ;;
      if (present : bool) then
        v <- getitem it orig_key ;;
        copy_mapped rest it (dict_set normalized_item normalized_key v)
      else copy_mapped rest it normalized_item
  end.

(** Second loop of the rebuild: the fields that were not mapped. *)
Fixpoint copy_unmapped (field_mapping : dict string) (fields : record)
    (normalized_item : record) : record :=
  match fields with
  | [] => normalized_item
  | (key, v) :: rest =>
      copy_unmapped field_mapping rest
        (if dict_mem field_mapping key then normalized_item
         else dict_set normalized_item key v)
  end.

Definition normalize_item (field_mapping : dict string) (it : item)
  : result item :=
  mapped <- copy_mapped field_mapping it [] ;;
  fields <- items_of it ;;
  Ok (IRecord (copy_unmapped field_mapping fields mapped)).

Definition detect_financial_structure (data : pydata) : result pydata :=
  match data with
  | PList ((sample :: _) as items) =>
      fields <- items_of sample ;;
      let field_mapping := detect_mapping fields in
      if (List.length field_mapping <? 2)%nat then Ok data
      else normalized <- mapM (normalize_item field_mapping) items ;;
           Ok (PList normalized)
  | _ => Ok data
  end.

End DataProcessor.

(** ** Built-in operations on values *)

Module Py.

Import PyFloat.
Local Open Scope Z_scope.

(** [float(v)] *)
Definition to_float (v : value) : result float :=
  match v with
  | VNone => Raise TypeError
  | VBool b => Ok (of_Z (if b then 1 else 0))
  | VInt n => let f := of_Z n in if is_inf f then Raise OverflowError else Ok f
  | VFloat f => Ok f
  | VStr s => DataProcessor.float_of_str s
  end.

(** [bool(v)] *)
Definition truthy (v : value) : bool :=
  match v with
  | VNone => false
  | VBool b => b
  | VInt n => negb (n =? 0)
  | VFloat f => negb (is_zero f)
  | VStr s => negb (String.eqb s "")
  end.

Definition is_none (v : value) : bool :=
  match v with VNone => true | _ => false end.

(** [isinstance(v, (int, float))]; [bool] is a subclass of [int]. *)
Definition is_number (v : value) : bool :=
  match v with
  | VBool _ | VInt _ | VFloat _ => true
  | _ => false
  end.

(** Exact comparison of an integer with a float, as Python compares an
    [int] with a [float]; [None] when the float is a NaN. *)
Definition compare_Z_float (z : Z) (f : float) : option comparison :=
  match f with
  | S754_nan => None
  | S754_infinity neg => Some (if neg then Gt else Lt)
  | S754_zero _ => Some (z ?= 0)
  | S754_finite neg m e =>
      let v := cond_Zopp neg (Zpos m) in
      Some (if 0 <=? e then z ?= v * 2 ^ e else z * 2 ^ (- e) ?= v)
  end.

Inductive number : Type :=
| NInt (n : Z)
| NFloat (f : float).

Definition as_number (v : value) : option number :=
  match v with
  | VBool b => Some (NInt (if b then 1 else 0))
  | VInt n => Some (NInt n)
  | VFloat f => Some (NFloat f)
  | _ => None
  end.

Definition number_compare (a b : number) : option comparison :=
  match a, b with
  | NInt x, NInt y => Some (x ?= y)
  | NFloat x, NFloat y => SFcompare x y
  | NInt x, NFloat y => compare_Z_float x y
  | NFloat x, NInt y => option_map CompOpp (compare_Z_float y x)
  end.

(** [a < b]; ordering a string against a number, or anything against
    [None], is a [TypeError]. *)
Definition lt (a b : value) : result bool :=
  match a, b with
  | VStr s, VStr t => Ok (PyStr.ltb s t)
  | _, _ =>
      match as_number a, as_number b with
      | Some x, Some y =>
          Ok match number_compare x y with Some Lt => true | _ => false end
      | _, _ => Raise TypeError
      end
  end.

(** [a == b], the equality a [dict] uses on its keys.  Two NaN keys are
    taken to be distinct objects. *)
Definition eq (a b : value) : bool :=
  match a, b with
  | VNone, VNone => true
  | VStr s, VStr t => String.eqb s t
  | _, _ =>
      match as_number a, as_number b with
      | Some x, Some y =>
          match number_compare x y with Some Eq => true | _ => false end
      | _, _ => false
      end
  end.

(** [sum(values)]: left-to-right addition starting from the integer 0. *)
Definition sum (values : list float) : float :=
  fold_left add values (S754_zero false).

(** [max(values)] and [min(values)] keep the first extreme element. *)
Definition max (first : float) (rest : list float) : float :=
  fold_left (fun best x => if gtb x best then x else best) rest first.

Definition min (first : float) (rest : list float) : float :=
  fold_left (fun best x => if ltb x best then x else best) rest first.

(** [total / len(values)] *)
Definition div_len {A : Type} (total : float) (l : list A) : result float :=
  div_int total (Z.of_nat (List.length l)).

(** [(a - b) / b * 100] *)
Definition percent_of (a b : float) : result float :=
  q <- div (sub a b) b ;; Ok (mul q (of_Z 100)).

(** [a / b * 100] *)
Definition share_of (a b : float) : result float :=
  q <- div a b ;; Ok (mul q (of_Z 100)).

(** A stable insertion sort with a comparison that may raise: what
    [list.sort] and [sorted] return whenever the keys are totally ordered,
    and an error on the lists on which they raise one. *)
Section Sorting.

Context {A : Type}.
Variable before : A -> A -> result bool.

Fixpoint insert (x : A) (l : list A) : result (list A) :=
  match l with
  | [] => Ok [x]
  | y :: l' =>
      b <- before x y ;;
      if (b : bool) then Ok (x :: y :: l')
      else l'' <- insert x l' ;; Ok (y :: l'')
  end.

Definition sort (l : list A) : result (list A) :=
  fold_left (fun acc x => sorted <- acc ;; insert x sorted) l (Ok []).

End Sorting.

(** [sorted(pairs, key=lambda x: x[1], reverse=True)] on float keys: a pair
    goes in front of the first pair whose key is strictly smaller, so pairs
    with equal keys keep their order. *)
Fixpoint insert_desc {A : Type} (x : A * float) (l : list (A * float))
  : list (A * float) :=
  match l with
  | [] => [x]
  | y :: l' => if ltb (snd y) (snd x) then x :: y :: l' else y :: insert_desc x l'
  end.

Definition sort_desc {A : Type} (l : list (A * float)) : list (A * float) :=
  fold_left (fun acc x => insert_desc x acc) l [].

(** *** [repr(float)]: the shortest decimal string that reads back as the
    same float *)

(** [10^j <= m * 2^e] *)
Definition le_pow10 (m : positive) (e j : Z) : bool :=
  let '(p, q) := scaled10 m e (- j) in q <=? p.

(** [floor (log10 (m * 2^e))], searched downwards from just above an
    estimate by the bit length. *)
Definition ilog10 (m : positive) (e : Z) : Z :=
  let est := (Zpos (digits2_pos m) + e - 1) * 30103 / 100000 in
  match find (le_pow10 m e) [est + 2; est + 1; est; est - 1] with
  | Some j => j
  | None => est - 2
  end.

Definition same_float (x y : float) : bool :=
  match SFcompare x y with Some Eq => true | _ => false end.

(** The decimal [d * 10^k] with [n] significant digits that reads back as
    [m * 2^e], the nearer one when both neighbours do. *)
Definition digits_at (m : positive) (e l n : Z) : option (Z * Z) :=
  let k := l - n + 1 in
  let '(p, q) := scaled10 m e (- k) in
  let lo := p / q in
  let hi := lo + 1 in
  let x := S754_finite false m e in
  let ok_lo := same_float (of_decimal false lo k) x in
  let ok_hi := same_float (of_decimal false hi k) x in
  match ok_lo, ok_hi with
  | true, true => Some (round_half_even p q, k)
  | true, false => Some (lo, k)
  | false, true => Some (hi, k)
  | false, false => None
  end.

Fixpoint shortest (fuel : nat) (m : positive) (e l n : Z) : Z * Z :=
  match fuel with
  | O => let '(p, q) := scaled10 m e (16 - l) in (round_half_even p q, l - 16)
  | S fuel' =>
      match digits_at m e l n with
      | Some dk => dk
      | None => shortest fuel' m e l (n + 1)
      end
  end.

Fixpoint drop_zeros (fuel : nat) (d k : Z) : Z * Z :=
  match fuel with
  | O => (d, k)
  | S fuel' => if d mod 10 =? 0 then drop_zeros fuel' (d / 10) (k + 1) else (d, k)
  end.

Definition exponent_text (x : Z) : string :=
  let sign : string := if x <? 0 then "-" else "+" in
  (sign ++ padded 2 (Z.abs x))%string.

Definition repr_digits (d k : Z) : string :=
  let ds := decimal_of_Z d in
  let nd := Z.of_nat (String.length ds) in
  let decpt := nd + k in
  let pt := Z.to_nat decpt in
  if (16 <? decpt) || (decpt <? -3) then
    match ds with
    | String c EmptyString => String c ("e" ++ exponent_text (decpt - 1))%string
    | String c tl =>
        String c ("." ++ tl ++ "e" ++ exponent_text (decpt - 1))%string
    | EmptyString => EmptyString
    end
  else if decpt <=? 0 then ("0." ++ zeros (Z.to_nat (- decpt)) ++ ds)%string
  else if nd <=? decpt then (ds ++ zeros (Z.to_nat (decpt - nd)) ++ ".0")%string
  else (substring 0 pt ds ++ "." ++ substring pt (String.length ds - pt) ds)%string.

Definition repr (x : float) : string :=
  match x with
  | S754_nan => "nan"
  | S754_infinity neg => if neg then "-inf" else "inf"
  | S754_zero neg => if neg then "-0.0" else "0.0"
  | S754_finite neg m e =>
      let '(d, k) := shortest 17 m e (ilog10 m e) 1 in
      let '(d, k) := drop_zeros 17 d k in
      ((if neg then "-" else "") ++ repr_digits d k)%string
  end.

(** [str(v)] *)
Definition str (v : value) : string :=
  match v with
  | VNone => "None"
  | VBool b => if b then "True" else "False"
  | VInt n =>
      let sign : string := if n <? 0 then "-" else "" in
      (sign ++ decimal_of_Z (Z.abs n))%string
  | VFloat f => repr f
  | VStr s => s
  end.

End Py.

(** ** What the interpreter and its library decide

    [statistics.stdev] is the library's, and its rounding differs between
    interpreter versions; [list(set(l))] lists the distinct elements of [l]
    in an order the interpreter chooses.  Both are left open.  So is what
    [list.sort] and [sorted] make of a list one of whose keys is a NaN: a
    comparison with a NaN is false either way, the keys are then not
    totally ordered, and the arrangement returned depends on the steps of
    the sorting algorithm ([arrange key reverse l]).  It is some
    rearrangement of the list. *)

Class Runtime : Type := {
  stdev : list PyFloat.float -> result PyFloat.float;
  list_of_set : list string -> list string;
  list_of_set_NoDup : forall l, NoDup (list_of_set l);
  list_of_set_In : forall l x, In x (list_of_set l) <-> In x l;
  arrange : forall A : Type, (A -> value) -> bool -> list A -> list A;
  arrange_Permutation :
    forall (A : Type) (key : A -> value) (reverse : bool) (l : list A),
      Permutation (arrange A key reverse l) l
}.

(** ** Insight accumulation

    A generator appends to its [insights] list as it goes; what was appended
    before an exception stays appended.  An [emitter] is the list of strings
    appended so far together with the outcome. *)

Definition emitter (A : Type) : Type := (list string * result A)%type.

Definition pure {A : Type} (a : A) : emitter A := ([], Ok a).

Definition emit (s : string) : emitter unit := ([s], Ok tt).

Definition lift {A : Type} (r : result A) : emitter A := ([], r).

Definition bindE {A B : Type} (m : emitter A) (k : A -> emitter B) : emitter B :=
  match m with
  | (out, Ok a) => let '(out', r) := k a in (out ++ out', r)
  | (out, Raise e) => (out, Raise e)
  end.

Notation "x <~ m ;; k" := (bindE m (fun x => k))
  (at level 61, m at next level, right associativity).
Notation "m ;;; k" := (bindE m (fun _ => k))
  (at level 61, right associativity).

Definition when (b : bool) (m : emitter unit) : emitter unit :=
  if b then m else pure tt.

(** [try: body except Exception: logger.error(...)]: the exception is
    dropped, the strings appended before it are kept. *)
Definition try_except (body : emitter unit) : list string := fst body.

(** ** nlp_analyzer.py *)

Module NlpAnalyzer.

Import PyFloat Py.

Definition zero : float := S754_zero false.

(** [field.replace('_', ' ')] *)
Definition label (field : string) : string := PyStr.replace_char "_" " " field.

(** The value test of the numeric classifier. *)
Definition is_numeric_value (v : value) : bool :=
  match v with
  | VStr s => PyStr.looks_numeric s
  | _ => is_number v
  end.

(** [field in item and (item[field] is numeric)] *)
Definition numeric_in (field : string) (it : item) : result bool :=
  present <- contains_key it field ;;
  if (present : bool) then v <- getitem it field ;; Ok (is_numeric_value v)
  else Ok false.

(** [sum(1 for item in data if ...)] *)
Fixpoint numeric_count (data : list item) (field : string) : result nat :=
  match data with
  | [] => Ok O
  | it :: rest =>
      b <- numeric_in field it ;;
      n <- numeric_count rest field ;;
      Ok (if (b : bool) then S n else n)
  end.

(** [numeric_count / len(data) >= 0.8], in floating point. *)
Definition coverage_ok (count total : nat) : result bool :=
  q <- int_true_div (Z.of_nat count) (Z.of_nat total) ;;
  Ok (SFleb (of_decimal false 8 (-1)) q).

Fixpoint verify_candidates (data : list item) (candidates : list string)
  : result (list string) :=
  match candidates with
  | [] => Ok []
  | field :: rest =>
      count <- numeric_count data field ;;
      ok <- coverage_ok count (List.length data) ;;
      fields <- verify_candidates data rest ;;
      Ok (if (ok : bool) then field :: fields else fields)
  end.

Definition identify_numeric_fields (data : list item) : result (list string) :=
  match data with
  | [] => Ok []
  | sample :: _ =>
      fields <- items_of sample ;;
      let candidates :=
        map fst (filter (fun kv => is_numeric_value (snd kv)) fields) in
      verify_candidates data candidates
  end.

Definition date_indicators : list string :=
  ["date"; "period"; "month"; "year"; "quarter"; "day"; "week"].

Definition category_indicators : list string :=
  ["category"; "type"; "department"; "division"; "segment"; "product";
   "region"; "country"].

(** The keys of the first record whose lowercased name contains one of the
    indicators. *)
Definition fields_named (indicators : list string) (data : list item)
  : result (list string) :=
  match data with
  | [] => Ok []
  | sample :: _ =>
      fields <- items_of sample ;;
      Ok (filter (fun key => PyStr.contains_any indicators (PyStr.lower key))
                 (dict_keys fields))
  end.

Definition identify_date_fields : list item -> result (list string) :=
  fields_named date_indicators.

Definition identify_category_fields : list item -> result (list string) :=
  fields_named category_indicators.

(** [[float(item[field]) for item in data
      if field in item and item[field] is not None]] *)
Fixpoint field_values (data : list item) (field : string)
  : result (list float) :=
  match data with
  | [] => Ok []
  | it :: rest =>
      present <- contains_key it field ;;
      keep <- (if (present : bool)
               then v <- getitem it field ;; Ok (negb (is_none v))
               else Ok false) ;;
      if (keep : bool) then
        v <- getitem it field ;;
        f <- to_float v ;;
        fs <- field_values rest field ;;
        Ok (f :: fs)
      else field_values rest field
  end.

Definition revenue_terms : list string := ["revenue"; "profit"; "sales"; "income"].

Section Generators.

Context {rt : Runtime}.

(** Whether a sort key is a NaN. *)
Definition nan_key (v : value) : bool :=
  match v with VFloat f => is_nan f | _ => false end.

(** [sorted(l, key=key)] and [l.sort(key=key)].  Keys that cannot be
    ordered raise [TypeError]; keys that can are totally ordered unless one
    is a NaN, and the stable sort is then the one sorted arrangement. *)
Definition sorted {A : Type} (key : A -> value) (l : list A) : result (list A) :=
  ordered <- sort (fun a b => lt (key a) (key b)) l ;;
  Ok (if existsb (fun a => nan_key (key a)) l
      then arrange A key false l else ordered).

(** [sorted(pairs, key=lambda x: x[1], reverse=True)] on float keys. *)
Definition sorted_reverse {A : Type} (l : list (A * float)) : list (A * float) :=
  if existsb (fun x => is_nan (snd x)) l
  then arrange (A * float) (fun x => VFloat (snd x)) true l
  else sort_desc l.

(** The [try] block of the statistical generator, for a field with the
    non-empty list of values [first :: rest]. *)
Definition statistics_block (field : string) (first : float)
    (rest : list float) : emitter unit :=
  let values := first :: rest in
  let total := sum values in
  average <~ lift (div_len total values) ;;
  let maximum := max first rest in
  let minimum := min first rest in
  when (3 <=? List.length values)%nat (
    emit ("The total " ++ label field ++ " is " ++ format_f 2 total ++ ".") ;;;
    emit ("The average " ++ label field ++ " is " ++ format_f 2 average ++ ".") ;;;
    emit ("The maximum " ++ label field ++ " recorded is "
          ++ format_f 2 maximum ++ ".") ;;;
    emit ("The minimum " ++ label field ++ " recorded is "
          ++ format_f 2 minimum ++ ".") ;;;
    when (PyStr.contains_any revenue_terms (PyStr.lower field)) (
      percent_diff <~ lift (if gtb minimum zero
                            then percent_of maximum minimum else Ok zero) ;;
      emit ("There is a " ++ format_f 1 percent_diff
            ++ "% difference between the highest and lowest "
            ++ label field ++ ".")) ;;;
    when (5 <=? List.length values)%nat (
      std_dev <~ lift (stdev values) ;;
      variability <~ lift (if gtb average zero
                           then share_of std_dev average else Ok zero) ;;
      if gtb variability (of_Z 30) then
        emit ("There is high variability in " ++ label field
              ++ " (coefficient of variation: "
              ++ format_f 1 variability ++ "%).")
      else if ltb variability (of_Z 10) then
        emit ("There is low variability in " ++ label field
              ++ " (coefficient of variation: "
              ++ format_f 1 variability ++ "%).")
      else pure tt)).

Fixpoint generate_statistical_insights (data : list item)
    (numeric_fields : list string) : result (list string) :=
  match numeric_fields with
  | [] => Ok []
  | field :: fields =>
      values <- field_values data field ;;
      let here :=
        match values with
        | [] => []
        | first :: rest => try_except (statistics_block field first rest)
        end in
      later <- generate_statistical_insights data fields ;;
      Ok (here ++ later)
  end.

(** One element of the trend generator's [data_points] comprehension:
    [(item[date_field], float(item[numeric_field]))] when the filter holds. *)
Definition data_point (date_field numeric_field : string) (it : item)
  : result (option (value * float)) :=
  has_date <- contains_key it date_field ;;
  if negb has_date then Ok None else
  has_value <- contains_key it numeric_field ;;
  if negb has_value then Ok None else
  d <- getitem it date_field ;;
  if negb (truthy d) then Ok None else
  v <- getitem it numeric_field ;;
  if is_none v then Ok None else
  f <- to_float v ;;
  Ok (Some (d, f)).

Fixpoint collect {A B : Type} (f : A -> result (option B)) (l : list A)
  : result (list B) :=
  match l with
  | [] => Ok []
  | a :: l' =>
      b <- f a ;;
      bs <- collect f l' ;;
      Ok match b with Some x => x :: bs | None => bs end
  end.

(** [l[start:stop]] *)
Definition slice {A : Type} (start stop : nat) (l : list A) : list A :=
  firstn (stop - start) (skipn start l).

(** The averages of the [segments] chronological segments. *)
Definition segment_averages (points : list (value * float)) (segments : nat)
  : result (list float) :=
  let n := List.length points in
  let segment_size := (n / segments)%nat in
  mapM (fun i =>
          let start_idx := (i * segment_size)%nat in
          let end_idx :=
            if (i <? segments - 1)%nat then (start_idx + segment_size)%nat
            else n in
          let segment_values := map snd (slice start_idx end_idx points) in
          div_len (sum segment_values) segment_values)
       (seq 0 segments).

(** The [try] block of the trend generator for one numeric field. *)
Definition trend_block (data : list item) (date_field numeric_field : string)
  : emitter unit :=
  data_points <~ lift (collect (data_point date_field numeric_field) data) ;;
  if (List.length data_points <? 3)%nat then pure tt else
  data_points <~ lift (sorted fst data_points) ;;
  let first_value := snd (hd (VNone, zero) data_points) in
  let last_value := snd (last data_points (VNone, zero)) in
  percent_change <~ lift (if gtb first_value zero
                          then percent_of last_value first_value
                          else Ok zero) ;;
  (if gtb percent_change (of_Z 10) then
     emit ("The " ++ label numeric_field ++ " shows an increasing trend of "
           ++ format_f 1 percent_change ++ "% over the analyzed period.")
   else if ltb percent_change (of_Z (-10)) then
     emit ("The " ++ label numeric_field ++ " shows a decreasing trend of "
           ++ format_f 1 (abs percent_change)
           ++ "% over the analyzed period.")
   else
     emit ("The " ++ label numeric_field
           ++ " remains relatively stable over the analyzed period (change: "
           ++ format_f 1 percent_change ++ "%).")) ;;;
  when (6 <=? List.length data_points)%nat (
    let segments := Nat.min 4 (List.length data_points / 2) in
    averages <~ lift (segment_averages data_points segments) ;;
    let first_avg := hd zero averages in
    let last_avg := last averages zero in
    segment_change <~ lift (if gtb first_avg zero
                            then percent_of last_avg first_avg
                            else Ok zero) ;;
    if gtb segment_change (of_Z 15) then
      emit ("The " ++ label numeric_field
            ++ " shows a strong positive trend in the most recent period (change: "
            ++ format_f 1 segment_change ++ "%).")
    else if ltb segment_change (of_Z (-15)) then
      emit ("The " ++ label numeric_field
            ++ " shows a concerning downward trend in the most recent period (change: "
            ++ format_f 1 (abs segment_change) ++ "%).")
    else pure tt).

Definition generate_trend_insights (data : list item)
    (date_fields numeric_fields : list string) : list string :=
  match date_fields with
  | [] => []
  | date_field :: _ =>
      flat_map (fun numeric_field =>
                  try_except (trend_block data date_field numeric_field))
               numeric_fields
  end.

(** [d[k].append(v)], creating the list first when [k] is new. *)
Definition dict_append {A : Type} (d : dict (list A)) (k : string) (v : A)
  : dict (list A) :=
  match dict_get d k with
  | Some l => dict_set d k (l ++ [v])
  | None => dict_set d k [v]
  end.

(** The grouping loop of the category generator. *)
Fixpoint group_by_category (data : list item)
    (category_field numeric_field : string) (category_data : dict (list float))
  : result (dict (list float)) :=
  match data with
  | [] => Ok category_data
  | it :: rest =>
      has_cat <- contains_key it category_field ;;
      has_num <- (if (has_cat : bool) then contains_key it numeric_field
                  else Ok false) ;;
      cat_ok <- (if (has_num : bool)
                 then c <- getitem it category_field ;; Ok (negb (is_none c))
                 else Ok false) ;;
      num_ok <- (if (cat_ok : bool)
                 then v <- getitem it numeric_field ;; Ok (negb (is_none v))
                 else Ok false) ;;
      if (num_ok : bool) then
        c <- getitem it category_field ;;
        v <- getitem it numeric_field ;;
        f <- to_float v ;;
        group_by_category rest category_field numeric_field
          (dict_append category_data (str c) f)
      else group_by_category rest category_field numeric_field category_data
  end.

(** [category_averages]: one average per category that has values. *)
Fixpoint average_each (category_data : dict (list float))
  : result (dict float) :=
  match category_data with
  | [] => Ok []
  | (category, values) :: rest =>
      here <- (match values with
               | [] => Ok []
               | _ => a <- div_len (sum values) values ;; Ok [(category, a)]
               end) ;;
      later <- average_each rest ;;
      Ok (here ++ later)
  end.

(** The first category, in ranked order, whose share of [total] exceeds 40%;
    the loop stops there. *)
Fixpoint dominant (numeric_field : string) (total : float)
    (ranked : list (string * float)) : emitter unit :=
  match ranked with
  | [] => pure tt
  | (category, avg) :: rest =>
      contribution <~ lift (if gtb total zero then share_of avg total
                            else Ok zero) ;;
      if gtb contribution (of_Z 40) then
        emit ("The '" ++ category ++ "' category dominates with "
              ++ format_f 1 contribution ++ "% of the total "
              ++ label numeric_field ++ ".")
      else dominant numeric_field total rest
  end.

(** The [try] block of the category generator for one numeric field. *)
Definition category_block (data : list item)
    (category_field numeric_field : string) : emitter unit :=
  category_data <~ lift (group_by_category data category_field numeric_field []) ;;
  if (List.length category_data <? 2)%nat then pure tt else
  category_averages <~ lift (average_each category_data) ;;
  let sorted_categories := sorted_reverse category_averages in
  when (2 <=? List.length sorted_categories)%nat (
    let '(top_category, top_avg) := hd (EmptyString, zero) sorted_categories in
    let '(bottom_category, bottom_avg) :=
      last sorted_categories (EmptyString, zero) in
    emit ("The best performing category in terms of " ++ label numeric_field
          ++ " is '" ++ top_category ++ "' with an average of "
          ++ format_f 2 top_avg ++ ".") ;;;
    emit ("The lowest performing category in terms of " ++ label numeric_field
          ++ " is '" ++ bottom_category ++ "' with an average of "
          ++ format_f 2 bottom_avg ++ ".") ;;;
    performance_gap <~ lift (if gtb bottom_avg zero
                             then percent_of top_avg bottom_avg
                             else Ok zero) ;;
    when (gtb performance_gap (of_Z 50))
      (emit ("There is a significant performance gap of "
             ++ format_f 1 performance_gap
             ++ "% between the top and bottom categories for "
             ++ label numeric_field ++ "."))) ;;;
  when (3 <=? List.length sorted_categories)%nat (
    let total := sum (map snd sorted_categories) in
    dominant numeric_field total sorted_categories ;;;
    when (4 <=? List.length sorted_categories)%nat (
      let first_avg := snd (nth 0 sorted_categories (EmptyString, zero)) in
      let second_avg := snd (nth 1 sorted_categories (EmptyString, zero)) in
      top_two_contribution <~
        lift (if gtb total zero
              then share_of (add first_avg second_avg) total
              else Ok zero) ;;
      when (gtb top_two_contribution (of_Z 70))
        (emit ("Top two categories represent "
               ++ format_f 1 top_two_contribution ++ "% of the total "
               ++ label numeric_field ++ ", indicating high concentration.")))).

Definition generate_category_insights (data : list item)
    (category_fields numeric_fields : list string) : list string :=
  match category_fields with
  | [] => []
  | category_field :: _ =>
      flat_map (fun numeric_field =>
                  try_except (category_block data category_field numeric_field))
               numeric_fields
  end.

(** A dictionary keyed by date values, with Python's key equality. *)
Definition date_dict : Type := list (value * list float).

Fixpoint date_get (dd : date_dict) (d : value) : option (list float) :=
  match dd with
  | [] => None
  | (d', l) :: dd' => if eq d' d then Some l else date_get dd' d
  end.

(** [dd[d].append(v)], creating the list first when [d] is new. *)
Fixpoint date_append (dd : date_dict) (d : value) (v : float) : date_dict :=
  match dd with
  | [] => [(d, [v])]
  | (d', l) :: dd' =>
      if eq d' d then (d', l ++ [v]) :: dd' else (d', l) :: date_append dd' d v
  end.

(** [all(field in item for field in fields)] *)
Fixpoint has_all (it : item) (fields : list string) : result bool :=
  match fields with
  | [] => Ok true
  | field :: rest =>
      b <- contains_key it field ;;
      if (b : bool) then has_all it rest else Ok false
  end.

(** [all(item[field] is not None for field in fields)] *)
Fixpoint none_missing (it : item) (fields : list string) : result bool :=
  match fields with
  | [] => Ok true
  | field :: rest =>
      v <- getitem it field ;;
      if is_none v then Ok false else none_missing it rest
  end.

(** The grouping loop of the complex generator: category, then date. *)
Fixpoint organize (data : list item)
    (date_field category_field numeric_field : string)
    (organized_data : dict date_dict) : result (dict date_dict) :=
  match data with
  | [] => Ok organized_data
  | it :: rest =>
      let fields := [date_field; category_field; numeric_field] in
      present <- has_all it fields ;;
      usable <- (if (present : bool) then none_missing it fields
                 else Ok false) ;;
      if (usable : bool) then
        c <- getitem it category_field ;;
        d <- getitem it date_field ;;
        v <- getitem it numeric_field ;;
        f <- to_float v ;;
        let category := str c in
        let date_data :=
          match dict_get organized_data category with
          | Some dd => dd
          | None => []
          end in
        organize rest date_field category_field numeric_field
          (dict_set organized_data category (date_append date_data d f))
      else organize rest date_field category_field numeric_field organized_data
  end.

(** The growth rate of one category between its earliest and latest date. *)
Definition growth_rate (date_data : date_dict) : result float :=
  sorted_dates <- sorted (fun d => d) (map fst date_data) ;;
  let earliest_date := hd VNone sorted_dates in
  let latest_date := last sorted_dates VNone in
  let values_at d :=
    match date_get date_data d with
    | Some l => Ok l
    | None => Raise KeyError
    end in
  earliest <- values_at earliest_date ;;
  latest <- values_at latest_date ;;
  earliest_avg <- div_len (sum earliest) earliest ;;
  latest_avg <- div_len (sum latest) latest ;;
  if gtb earliest_avg zero then percent_of latest_avg earliest_avg else Ok zero.

Fixpoint growth_rates (organized_data : dict date_dict) : result (dict float) :=
  match organized_data with
  | [] => Ok []
  | (category, date_data) :: rest =>
      here <- (if (List.length date_data <? 2)%nat then Ok []
               else g <- growth_rate date_data ;; Ok [(category, g)]) ;;
      later <- growth_rates rest ;;
      Ok (here ++ later)
  end.

(** The [try] block of the complex generator for one numeric field. *)
Definition complex_block (data : list item)
    (date_field category_field numeric_field : string) : emitter unit :=
  organized_data <~
    lift (organize data date_field category_field numeric_field []) ;;
  if (List.length organized_data <? 2)%nat then pure tt else
  rates <~ lift (growth_rates organized_data) ;;
  if (List.length rates <? 2)%nat then pure tt else
  let sorted_growth := sorted_reverse rates in
  let fastest_growing := hd (EmptyString, zero) sorted_growth in
  let slowest_growing := last sorted_growth (EmptyString, zero) in
  emit ("The fastest growing category for " ++ label numeric_field ++ " is '"
        ++ fst fastest_growing ++ "' with a growth rate of "
        ++ format_f 1 (snd fastest_growing) ++ "%.") ;;;
  (if ltb (snd slowest_growing) zero then
     emit ("The category '" ++ fst slowest_growing
           ++ "' is showing a decline of "
           ++ format_f 1 (abs (snd slowest_growing)) ++ "% in "
           ++ label numeric_field ++ ".")
   else
     emit ("The slowest growing category for " ++ label numeric_field
           ++ " is '" ++ fst slowest_growing ++ "' with a growth rate of "
           ++ format_f 1 (snd slowest_growing) ++ "%.")) ;;;
  let growth_diff := sub (snd fastest_growing) (snd slowest_growing) in
  when (gtb growth_diff (of_Z 50))
    (emit ("There is a significant growth gap of " ++ format_f 1 growth_diff
           ++ "% between the best and worst performing categories for "
           ++ label numeric_field ++ ".")).

Definition generate_complex_insights (data : list item)
    (date_fields category_fields numeric_fields : list string) : list string :=
  match date_fields, category_fields with
  | date_field :: _, category_field :: _ =>
      flat_map (fun numeric_field =>
                  try_except
                    (complex_block data date_field category_field numeric_field))
               numeric_fields
  | _, _ => []
  end.

Definition generate_recommendations : list string :=
  [ "Consider conducting a detailed analysis of your best performing segments to identify success factors that can be applied elsewhere.";
    "Regular financial monitoring and reporting can help identify trends earlier and improve decision-making.";
    "Diversify revenue streams to reduce dependency on any single source and increase business resilience.";
    "Implement forecasting models to better predict future performance and prepare accordingly.";
    "Review cost structures periodically to identify opportunities for optimization and improved margins." ].

Definition non_empty {A : Type} (l : list A) : bool :=
  match l with [] => false | _ => true end.

(** The insights of the four generators, concatenated in order: what
    [insights] holds when the deduplication is reached. *)
Definition gather (data : list item) : result (list string) :=
  numeric_fields <- identify_numeric_fields data ;;
  date_fields <- identify_date_fields data ;;
  category_fields <- identify_category_fields data ;;
  statistical <- generate_statistical_insights data numeric_fields ;;
  let trend :=
    if non_empty date_fields
    then generate_trend_insights data date_fields numeric_fields else [] in
  let category :=
    if non_empty category_fields
    then generate_category_insights data category_fields numeric_fields
    else [] in
  let complex :=
    if non_empty date_fields && non_empty category_fields
    then generate_complex_insights data date_fields category_fields
           numeric_fields
    else [] in
  Ok (statistical ++ trend ++ category ++ complex).

(** Deduplication, and the recommendations when fewer than 3 remain. *)
Definition finish (insights : list string) : list string :=
  let unique_insights := list_of_set insights in
  if (List.length unique_insights <? 3)%nat
  then unique_insights ++ generate_recommendations
  else unique_insights.

Definition insufficient : string := "Insufficient data for analysis.".
Definition failure : string :=
  "Error analyzing data. Please check the input format.".

Definition analyze_data (data : pydata) : list string :=
  match data with
  | PList ((_ :: _) as items) =>
      match gather items with
      | Ok insights => finish insights
      | Raise _ => [failure]
      end
  | _ => [insufficient]
  end.

End Generators.

(** A runtime for running examples: the deviation is the square root of the
    sample variance, both in binary64, and a set lists its elements in
    order of first appearance. *)
Definition stdev_binary64 (values : list float) : result float :=
  match values with
  | [] | [_] => Raise StatisticsError
  | _ =>
      mean <- div_len (sum values) values ;;
      let squares := map (fun x => mul (sub x mean) (sub x mean)) values in
      variance <- div_int (sum squares) (Z.of_nat (List.length values) - 1) ;;
      Ok (SFsqrt prec emax variance)
  end.

End NlpAnalyzer.

(** ** The pandas operations the chart builders call

    A frame is held column by column.  What the chart builders do with it
    is the repository's code and is modelled as written; what pandas and
    numpy compute inside a call is theirs.  Of that, the parts that are
    settled by the documentation are defined here (the columns of a frame,
    the keys of a grouping, the values of a column as a list); the parts
    that depend on the library's version and internals are the operations
    of the class [Pandas], with the laws the chart builders rely on: the
    dtype a column is given, the floating-point sums and means, the order
    in which a sort leaves equal values, and the histograms. *)

Module Frame.

Import PyFloat Py.
Local Open Scope Z_scope.

(** A cell: the value of a record, [NaN] for a key the record lacks, or,
    once a column went through [pd.to_datetime], a timestamp ([None] is
    [NaT]). *)
Inductive cell : Type :=
| Missing
| Val (v : value)
| Time (t : option Z).

(** A data frame, column by column, in column order; a column holds the
    objects it was built from. *)
Record frame : Type := {
  nrows : nat;
  cols : dict (list cell)
}.

Inductive dtype : Type :=
| Int64 | UInt64 | Float64 | Boolean | Datetime64 | Object.

Definition in_int64 (n : Z) : bool := (- 2 ^ 63 <=? n) && (n <? 2 ^ 63).

Definition in_uint64 (n : Z) : bool := (0 <=? n) && (n <? 2 ^ 64).

Definition is_int_cell (c : cell) : bool :=
  match c with Val (VInt n) => in_int64 n | _ => false end.

Definition is_uint_cell (c : cell) : bool :=
  match c with Val (VInt n) => in_uint64 n | _ => false end.

Definition is_bool_cell (c : cell) : bool :=
  match c with Val (VBool _) => true | _ => false end.

Definition is_time_cell (c : cell) : bool :=
  match c with Time _ => true | _ => false end.

(** A cell a float column can hold: a number, or a missing value. *)
Definition is_floatable (c : cell) : bool :=
  match c with
  | Missing | Val VNone | Val (VFloat _) | Val (VInt _) => true
  | _ => false
  end.

(** What a column of a dtype is built from. *)
Definition fits (t : dtype) (cells : list cell) : Prop :=
  match t with
  | Int64 => forallb is_int_cell cells = true
  | UInt64 => forallb is_uint_cell cells = true
  | Float64 => forallb is_floatable cells = true
  | Boolean => forallb is_bool_cell cells = true
  | Datetime64 => forallb is_time_cell cells = true
  | Object => True
  end.

(** The exact sum of integers, and the sum of their magnitudes. *)
Definition total (ns : list Z) : Z := fold_right Z.add 0 ns.

Definition magnitude (ns : list Z) : Z := fold_right (fun n m => Z.abs n + m) 0 ns.

Definition int_cell (n : Z) : cell := Val (VInt n).

(** [a < b] on the values of a numeric column; a [NaN] is below nothing. *)
Definition number_ltb (a b : number) : bool :=
  match number_compare a b with Some Lt => true | _ => false end.

Definition number_is_nan (a : number) : bool :=
  match a with NFloat f => is_nan f | _ => false end.

(** [x] strictly outranks [y] in a descending sort with NaN last. *)
Definition outranks (x y : cell * number) : bool :=
  negb (number_is_nan (snd x))
  && (number_is_nan (snd y) || number_ltb (snd y) (snd x)).

(** Neighbours in a ranking: the later one does not outrank the earlier. *)
Definition ranked (x y : cell * number) : Prop := outranks y x = false.

(** The operations left to the library.

    - [pd.to_datetime(column, errors='coerce')] and [str(timestamp)]: the
      conversion may fail as a whole ([None]); when it succeeds it yields
      one timestamp or [NaT] per cell.
    - [dtype_of]: the dtype [pd.DataFrame] gives a column built from these
      objects.  A column of integers that fit in 64 signed bits is an
      [int64] column, and a column of a dtype is built from objects of
      that kind; the rest of the inference (integers beyond [int64],
      [None] among numbers) differs between versions.
    - [group_sum], the sum [groupby(...)[col].sum()] gives for the cells
      of one group, and [series_sum], [Series.sum()]: the order of the
      floating-point additions and their compensation are the library's;
      integers whose magnitudes add up to less than [2^53] are summed
      exactly, whatever the order and the width of the accumulator.
    - [group_mean dates values k]: the mean
      [df.sort_values(by=date).groupby(date)[col].mean()] gives for the
      key [k].
    - [sort_values_desc], [sort_values(ascending=False)] on the rows of a
      grouped frame: a descending rearrangement, NaN last; the order of
      rows with equal values is the sorting algorithm's.
    - [histograms first second n]: the bin edges and the two lists of
      counts the distribution chart computes with [pd.cut], or with
      [np.histogram] when that raises; an error when both do.  There are
      [n + 1] edges and [n] counts in each list. *)
Class Pandas : Type := {
  to_datetime : list cell -> option (list (option Z));
  timestamp_str : Z -> string;
  to_datetime_length :
    forall l ts, to_datetime l = Some ts -> List.length ts = List.length l;

  dtype_of : list cell -> dtype;
  dtype_of_fits : forall cells, fits (dtype_of cells) cells;
  dtype_of_integers :
    forall cells, cells <> [] -> forallb is_int_cell cells = true ->
                  dtype_of cells = Int64;

  group_sum : dtype -> list cell -> number;
  group_sum_integers :
    forall ns, magnitude ns < 2 ^ 53 ->
               group_sum Int64 (map int_cell ns) = NInt (total ns);
  group_mean : list cell -> list cell -> cell -> number;
  series_sum : dtype -> list number -> number;
  series_sum_integers :
    forall ns, magnitude ns < 2 ^ 53 ->
               series_sum Int64 (map NInt ns) = NInt (total ns);

  sort_values_desc : list (cell * number) -> list (cell * number);
  sort_values_desc_Permutation :
    forall rows, Permutation (sort_values_desc rows) rows;
  sort_values_desc_Sorted :
    forall rows, Sorted ranked (sort_values_desc rows);

  histograms :
    list number -> list number -> nat ->
    result (list float * list number * list number);
  histograms_lengths :
    forall first second n edges counts1 counts2,
      histograms first second n = Ok (edges, counts1, counts2) ->
      List.length edges = S n
      /\ List.length counts1 = n /\ List.length counts2 = n
}.

(** The union of the records' keys, in order of first appearance. *)
Definition add_key (seen : list string) (k : string) : list string :=
  if existsb (String.eqb k) seen then seen else seen ++ [k].

Definition all_keys (data : list record) : list string :=
  fold_left (fun seen r => fold_left add_key (dict_keys r) seen) data [].

Definition cell_of (r : record) (c : string) : cell :=
  match dict_get r c with
  | Some v => Val v
  | None => Missing
  end.

(** [pd.DataFrame(data)] for a list of records. *)
Definition DataFrame (data : list record) : frame :=
  {| nrows := List.length data;
     cols := map (fun c => (c, map (fun r => cell_of r c) data))
                 (all_keys data) |}.

(** [df.columns] *)
Definition columns (df : frame) : list string := dict_keys (cols df).

(** The objects the column [c] was built from. *)
Definition column (df : frame) (c : string) : list cell :=
  match dict_get (cols df) c with
  | Some l => l
  | None => []
  end.

(** [df[c] = cells], on the frame all chart builders share. *)
Definition set_column (df : frame) (c : string) (cells : list cell) : frame :=
  {| nrows := nrows df; cols := dict_set (cols df) c cells |}.

Definition is_numeric_dtype (t : dtype) : bool :=
  match t with Int64 | UInt64 | Float64 => true | _ => false end.

(** The float a cell of a numeric column stands for. *)
Definition cell_float (c : cell) : float :=
  match c with
  | Val (VInt n) => of_Z n
  | Val (VFloat f) => f
  | _ => S754_nan
  end.

Definition cell_int (c : cell) : Z :=
  match c with Val (VInt n) => n | _ => 0 end.

(** The value a column of dtype [t] holds for an object it was built from:
    a float column holds its integers as floats and its missing values as
    NaN. *)
Definition held (t : dtype) (c : cell) : cell :=
  match t with
  | Float64 => Val (VFloat (cell_float c))
  | _ => c
  end.

(** The number a numeric column of dtype [t] holds for an object. *)
Definition number_of (t : dtype) (c : cell) : number :=
  match t with
  | Int64 | UInt64 => NInt (cell_int c)
  | _ => NFloat (cell_float c)
  end.

(** [pd.isna] on a cell. *)
Definition is_null (c : cell) : bool :=
  match c with
  | Missing | Val VNone | Time None => true
  | Val (VFloat f) => is_nan f
  | _ => false
  end.

(** Equality of group keys. *)
Definition cell_eqb (a b : cell) : bool :=
  match a, b with
  | Val x, Val y => eq x y
  | Time (Some s), Time (Some t) => s =? t
  | _, _ => false
  end.

(** The order in which [groupby] lists its keys: numbers and booleans by
    value, before strings by code point; timestamps by time. *)
Definition cell_before (a b : cell) : bool :=
  match a, b with
  | Time (Some s), Time (Some t) => s <? t
  | Val (VStr s), Val (VStr t) => PyStr.ltb s t
  | Val (VStr _), Val _ => false
  | Val _, Val (VStr _) => true
  | Val x, Val y =>
      match lt x y with Ok b => b | Raise _ => false end
  | _, _ => false
  end.

Fixpoint insert_key (k : cell) (keys : list cell) : list cell :=
  match keys with
  | [] => [k]
  | k' :: rest =>
      if cell_before k k' then k :: keys else k' :: insert_key k rest
  end.

Definition add_group (keys : list cell) (k : cell) : list cell :=
  if is_null k || existsb (cell_eqb k) keys then keys else insert_key k keys.

(** The keys of [df.groupby(c)]: the distinct non-null values, sorted. *)
Definition group_keys (cells : list cell) : list cell :=
  fold_left add_group cells [].

(** The cells of [values] on the rows whose key is [k]. *)
Definition group_cells (keys values : list cell) (k : cell) : list cell :=
  map snd (filter (fun kv => cell_eqb (fst kv) k) (combine keys values)).

Section Columns.

Context {pd : Pandas}.

(** The values the column [c] holds. *)
Definition values_of (df : frame) (c : string) : list cell :=
  let cells := column df c in map (held (dtype_of cells)) cells.

(** [df[c].tolist()] for a numeric column. *)
Definition column_numbers (df : frame) (c : string) : list number :=
  let cells := column df c in map (number_of (dtype_of cells)) cells.

(** [df.select_dtypes(include=['number']).columns.tolist()] *)
Definition numeric_columns (df : frame) : list string :=
  map fst (filter (fun kv => is_numeric_dtype (dtype_of (snd kv))) (cols df)).

(** [df.groupby(category_col)[numeric_col].sum().reset_index()] *)
Definition groupby_sum (df : frame) (category_col numeric_col : string)
  : list (cell * number) :=
  let keys := values_of df category_col in
  let values := column df numeric_col in
  map (fun k => (k, group_sum (dtype_of values) (group_cells keys values k)))
      (group_keys keys).

End Columns.

End Frame.

(** ** visualizer.py *)

Module Visualizer.

Import PyFloat Py Frame.

(** The [data] of a dataset: one list of numbers, or, for the scatter plot,
    the two coordinate lists. *)
Inductive series : Type :=
| Values (l : list number)
| Points (xs ys : list number).

Record dataset : Type := {
  ds_label : string;
  ds_data : series
}.

Record chart : Type := {
  chart_type : string;
  title : string;
  labels : list cell;
  datasets : list dataset;
  description : string
}.

Definition text (s : string) : cell := Val (VStr s).

Definition date_terms : list string :=
  ["date"; "month"; "year"; "quarter"; "period"].

Definition category_terms : list string :=
  ["category"; "type"; "segment"; "department"; "division"; "product"].

(** [[col for col in df.columns
      if any(term in col.lower() for term in terms)]] *)
Definition columns_named (terms : list string) (df : frame) : list string :=
  filter (fun col => PyStr.contains_any terms (PyStr.lower col)) (columns df).

Definition date_columns : frame -> list string := columns_named date_terms.
Definition category_columns : frame -> list string := columns_named category_terms.

(** [", ".join(names)] *)
Fixpoint join_comma (names : list string) : string :=
  match names with
  | [] => ""
  | [n] => n
  | n :: rest => n ++ ", " ++ join_comma rest
  end.

Section Charts.

Context {pd : Pandas}.

(** [str(date)] for a group key of the date column. *)
Definition key_str (k : cell) : string :=
  match k with
  | Time (Some t) => timestamp_str t
  | Time None => "NaT"
  | Val v => str v
  | Missing => "nan"
  end.

(** The time-series chart.  The conversion of the date column is written
    back to the frame, which the later builders share: the result carries
    the frame as they will see it. *)
Definition create_time_series_chart (df : frame) : option chart * frame :=
  match date_columns df with
  | [] => (None, df)
  | date_col :: _ =>
      match numeric_columns df with
      | [] => (None, df)
      | numeric_cols =>
          let selected_numeric_cols := firstn 3 numeric_cols in
          let df' :=
            match to_datetime (column df date_col) with
            | Some ts => set_column df date_col (map Time ts)
            | None => df
            end in
          if existsb (String.eqb date_col) selected_numeric_cols
          then (None, df')
          else
            let dates := values_of df' date_col in
            let keys := group_keys dates in
            (Some {| chart_type := "line";
                     title := "Time Series Analysis";
                     labels := map (fun k => text (key_str k)) keys;
                     datasets :=
                       map (fun col =>
                              {| ds_label := col;
                                 ds_data :=
                                   Values (map (group_mean dates (column df' col))
                                               keys) |})
                           selected_numeric_cols;
                     description :=
                       "This chart shows the trend of "
                       ++ join_comma selected_numeric_cols ++ " over time." |},
             df')
      end
  end.

(** The rows both category charts start from: sums by category, ranked. *)
Definition ranked_sums (df : frame) : option (string * string * list (cell * number)) :=
  match category_columns df with
  | [] => None
  | category_col :: _ =>
      match numeric_columns df with
      | [] => None
      | numeric_col :: _ =>
          if String.eqb category_col numeric_col then None
          else Some (category_col, numeric_col,
                     sort_values_desc (groupby_sum df category_col numeric_col))
      end
  end.

Definition create_category_comparison_chart (df : frame) : option chart :=
  match ranked_sums df with
  | None => None
  | Some (category_col, numeric_col, grouped) =>
      let grouped :=
        if (10 <? List.length grouped)%nat then firstn 10 grouped else grouped in
      Some {| chart_type := "bar";
              title := numeric_col ++ " by " ++ category_col;
              labels := map fst grouped;
              datasets := [ {| ds_label := numeric_col;
                               ds_data := Values (map snd grouped) |} ];
              description :=
                "This chart compares " ++ numeric_col ++ " across different "
                ++ category_col ++ " categories." |}
  end.

Definition create_composition_chart (df : frame) : option chart :=
  match ranked_sums df with
  | None => None
  | Some (category_col, numeric_col, grouped) =>
      let grouped :=
        if (8 <? List.length grouped)%nat then
          let top_grouped := firstn 7 grouped in
          let other_value :=
            series_sum (dtype_of (column df numeric_col))
                       (map snd (skipn 7 grouped)) in
          top_grouped ++ [(text "Other", other_value)]
        else grouped in
      Some {| chart_type := "pie";
              title := "Composition of " ++ numeric_col ++ " by " ++ category_col;
              labels := map fst grouped;
              datasets := [ {| ds_label := numeric_col;
                               ds_data := Values (map snd grouped) |} ];
              description :=
                "This chart shows the proportion of " ++ numeric_col
                ++ " by different " ++ category_col ++ " categories." |}
  end.

Definition create_correlation_chart (df : frame) : option chart :=
  match numeric_columns df with
  | x_col :: y_col :: _ =>
      Some {| chart_type := "scatter";
              title := "Correlation: " ++ x_col ++ " vs " ++ y_col;
              labels := [text x_col; text y_col];
              datasets := [ {| ds_label := "Data Points";
                               ds_data := Points (column_numbers df x_col)
                                                 (column_numbers df y_col) |} ];
              description :=
                "This scatter plot shows the relationship between " ++ x_col
                ++ " and " ++ y_col ++ "." |}
  | _ => None
  end.

(** [min(10, len(df) // 5) if len(df) > 10 else 5] *)
Definition n_bins (df : frame) : nat :=
  if (10 <? nrows df)%nat then Nat.min 10 (nrows df / 5) else 5%nat.

Definition bin_label (lo_hi : float * float) : cell :=
  text (format_f 1 (fst lo_hi) ++ "-" ++ format_f 1 (snd lo_hi)).

Definition create_distribution_chart (df : frame) : option chart :=
  match numeric_columns df with
  | numeric_col1 :: numeric_col2 :: _ =>
      match histograms (column_numbers df numeric_col1)
                       (column_numbers df numeric_col2)
                       (n_bins df) with
      | Ok (bin_edges, hist_counts1, hist_counts2) =>
          Some {| chart_type := "bar";
                  title := "Distribution Comparison";
                  labels := map bin_label (combine bin_edges (tl bin_edges));
                  datasets :=
                    [ {| ds_label := numeric_col1;
                         ds_data := Values hist_counts1 |};
                      {| ds_label := numeric_col2;
                         ds_data := Values hist_counts2 |} ];
                  description :=
                    "This chart shows the distribution of " ++ numeric_col1
                    ++ " and " ++ numeric_col2 ++ "." |}
      | Raise _ => None
      end
  | _ => None
  end.

Definition as_list {A : Type} (o : option A) : list A :=
  match o with Some a => [a] | None => [] end.

Definition record_of (it : item) : option record :=
  match it with IRecord r => Some r | IScalar _ => None end.

Fixpoint records_of (items : list item) : option (list record) :=
  match items with
  | [] => Some []
  | it :: rest =>
      match record_of it, records_of rest with
      | Some r, Some rs => Some (r :: rs)
      | _, _ => None
      end
  end.

(** The body of [create_visualizations] on a frame. *)
Definition charts_of (df : frame) : list chart :=
  let '(time_series, df) := create_time_series_chart df in
  let visualizations :=
    as_list time_series
    ++ as_list (create_category_comparison_chart df)
    ++ as_list (create_distribution_chart df)
    ++ as_list (create_composition_chart df) in
  if (List.length visualizations <? 2)%nat
  then visualizations ++ as_list (create_correlation_chart df)
  else visualizations.

(** A list with an element that is not a record yields no chart: either
    [pd.DataFrame] raises, or the frame has a single column named [0], on
    which every builder gives up. *)
Definition create_visualizations (data : pydata) : list chart :=
  match data with
  | PList ((_ :: _) as items) =>
      match records_of items with
      | Some records => charts_of (DataFrame records)
      | None => []
      end
  | _ => []
  end.

End Charts.

End Visualizer.

(** ** The upload check of data_processor.py *)

Module Upload.

(** [s.rsplit(sep, 1)] for a one-character separator: the text before the
    last [sep] and the text after it, or [s] alone when it holds no [sep]. *)
Fixpoint rsplit1 (sep : ascii) (s : string) : list string :=
  match s with
  | EmptyString => [EmptyString]
  | String c s' =>
      match rsplit1 sep s' with
      | [before; after] => [String c before; after]
      | _ => if Ascii.eqb c sep then [EmptyString; s'] else [String c s']
      end
  end.

(** The set of extensions the upload route passes. *)
Definition ALLOWED_EXTENSIONS : list string := ["csv"; "xlsx"; "xls"; "json"].

(** [validate_file]; [None] stands for the [IndexError] of
    [filename.rsplit('.', 1)[1]] on a list of one element. *)
Definition validate_file (filename : string) (allowed_extensions : list string)
  : option bool :=
  if PyStr.contains "." filename then
    match nth_error (rsplit1 "." filename) 1 with
    | Some extension =>
        Some (existsb (String.eqb (PyStr.lower extension)) allowed_extensions)
    | None => None
    end
  else Some false.

End Upload.

(** ** Runtimes for running the model on examples *)

(** Sets list their elements in order of first appearance; a list with a
    NaN key is left as it is. *)
Definition first_seen : Runtime :=
  {| stdev := NlpAnalyzer.stdev_binary64;
     list_of_set := nodup string_dec;
     list_of_set_NoDup := NoDup_nodup string_dec;
     list_of_set_In := fun l x => nodup_In string_dec l x;
     arrange := fun _ _ _ l => l;
     arrange_Permutation := fun A _ _ l => Permutation_refl l |}.

(** *** A reference implementation of the library operations

    One way the operations of [Pandas] may be computed, for running the
    chart builders on examples: sums and means add from left to right, a
    sort keeps rows with equal values in their order, the bins of a
    histogram have equal widths.  The theorems on the chart builders hold
    for every [Pandas], this one included. *)

Module Toy.

Import PyFloat Py Frame.
Local Open Scope Z_scope.

Definition is_number_cell (c : cell) : bool :=
  match c with Val (VInt _) | Val (VFloat _) => true | _ => false end.

Definition is_missing (c : cell) : bool :=
  match c with Missing => true | _ => false end.

(** A dtype for a column of Python objects. *)
Definition infer_dtype (cells : list cell) : dtype :=
  match cells with
  | [] => Object
  | _ =>
      if forallb is_time_cell cells then Datetime64
      else if forallb is_int_cell cells then Int64
      else if forallb is_uint_cell cells then UInt64
      else if forallb is_bool_cell cells then Boolean
      else if forallb is_floatable cells
              && (existsb is_number_cell cells || forallb is_missing cells)
      then Float64
      else Object
  end.

(** Two's-complement wrap-around of [int64] arithmetic. *)
Definition wrap64 (n : Z) : Z := (n + 2 ^ 63) mod 2 ^ 64 - 2 ^ 63.

Definition not_nan (x : float) : bool := negb (is_nan x).

(** The sum of a group of a numeric column: wrapping for the integer
    dtypes, skipping [NaN] for [float64]. *)
Definition sum_cells (t : dtype) (cells : list cell) : number :=
  match t with
  | Int64 => NInt (wrap64 (fold_left Z.add (map cell_int cells) 0))
  | UInt64 => NInt (fold_left Z.add (map cell_int cells) 0 mod 2 ^ 64)
  | _ => NFloat (sum (filter not_nan (map cell_float cells)))
  end.

(** The mean of the values on the rows whose date is [k], [NaN] for a
    group without values. *)
Definition mean_cells (dates values : list cell) (k : cell) : number :=
  let group := filter not_nan (map cell_float (group_cells dates values k)) in
  match group with
  | [] => NFloat S754_nan
  | _ => NFloat (SFdiv prec emax (sum group)
                       (of_Z (Z.of_nat (List.length group))))
  end.

Definition number_int (x : number) : Z :=
  match x with NInt n => n | NFloat _ => 0 end.

Definition number_float (x : number) : float :=
  match x with NFloat f => f | NInt n => of_Z n end.

(** [series.sum()] over numbers of one dtype. *)
Definition sum_numbers (t : dtype) (l : list number) : number :=
  match t with
  | Int64 => NInt (wrap64 (fold_left Z.add (map number_int l) 0))
  | UInt64 => NInt (fold_left Z.add (map number_int l) 0 mod 2 ^ 64)
  | _ => NFloat (sum (filter not_nan (map number_float l)))
  end.

(** A descending sort, [NaN] last, that keeps rows with equal values in
    their order. *)
Fixpoint insert_row (x : cell * number) (l : list (cell * number))
  : list (cell * number) :=
  match l with
  | [] => [x]
  | y :: l' =>
      if outranks x y then x :: y :: l' else y :: insert_row x l'
  end.

Definition stable_sort_desc (l : list (cell * number)) : list (cell * number) :=
  fold_left (fun acc x => insert_row x acc) l [].

Definition milli : float := of_decimal false 1 (-3).
Definition half : float := of_decimal false 5 (-1).

(** [np.linspace(start, stop, num + 1)]: the last point is [stop] itself. *)
Definition linspace (start stop : float) (num : nat) : list float :=
  let step := SFdiv prec emax (sub stop start) (of_Z (Z.of_nat num)) in
  map (fun i => if (i =? num)%nat then stop
                else add (mul (of_Z (Z.of_nat i)) step) start)
      (seq 0 (S num)).

Fixpoint has_duplicates (l : list float) : bool :=
  match l with
  | [] => false
  | x :: l' => existsb (eqb x) l' || has_duplicates l'
  end.

(** The bin edges [pd.cut(values, bins=n)] computes: equal-width bins over
    the observed range, the lowest edge moved down by 0.1% of the range. *)
Definition cut_edges (values : list float) (n : nat) : result (list float) :=
  match filter not_nan values with
  | [] => Raise ValueError
  | first :: rest =>
      let mn := min first rest in
      let mx := max first rest in
      if is_inf mn || is_inf mx then Raise ValueError
      else
        let widen x := if is_zero x then milli else mul milli (abs x) in
        let bins :=
          if eqb mn mx then linspace (sub mn (widen mn)) (add mx (widen mx)) n
          else
            match linspace mn mx n with
            | lowest :: others => sub lowest (mul (sub mx mn) milli) :: others
            | [] => []
            end in
        if has_duplicates bins then Raise ValueError else Ok bins
  end.

(** The consecutive pairs of edges, numbered from 0. *)
Definition intervals (edges : list float) : list (nat * (float * float)) :=
  combine (seq 0 (List.length edges - 1)) (combine edges (tl edges)).

Definition count_if (p : float -> bool) (values : list float) : number :=
  NInt (Z.of_nat (List.length (filter p values))).

(** [pd.cut(values, bins=edges, include_lowest=True).value_counts()
      .sort_index()]: right-closed intervals, the first one closed on both
    sides; one count per interval, empty ones included. *)
Definition cut_counts (edges values : list float) : list number :=
  map (fun '(i, (lo, hi)) =>
         count_if (fun x => ltb lo x && SFleb x hi
                            || (i =? 0)%nat && eqb x lo) values)
      (intervals edges).

Fixpoint decreasing_somewhere (edges : list float) : bool :=
  match edges with
  | a :: ((b :: _) as rest) => ltb b a || decreasing_somewhere rest
  | _ => false
  end.

(** The edges [np.histogram(values, bins=n)] computes; a range too narrow
    for [n] bins of positive width is an error. *)
Definition histogram_edges (values : list float) (n : nat)
  : result (list float) :=
  match filter not_nan values with
  | [] => Ok (linspace (S754_zero false) (of_Z 1) n)
  | first :: rest =>
      let mn := min first rest in
      let mx := max first rest in
      if is_inf mn || is_inf mx then Raise ValueError
      else
        let edges := if eqb mn mx then linspace (sub mn half) (add mx half) n
                     else linspace mn mx n in
        if has_duplicates edges || decreasing_somewhere edges
        then Raise ValueError else Ok edges
  end.

(** [np.histogram(values, bins=edges)]: left-closed intervals, the last one
    closed on both sides. *)
Definition histogram_counts (edges values : list float)
  : result (list number) :=
  if decreasing_somewhere edges then Raise ValueError
  else
    let n := (List.length edges - 1)%nat in
    Ok (map (fun '(i, (lo, hi)) =>
               count_if (fun x => SFleb lo x
                                  && (ltb x hi || (S i =? n)%nat && eqb x hi))
                        (filter not_nan values))
            (intervals edges)).

(** The two histograms over shared edges: [pd.cut] first, [np.histogram]
    when that raises. *)
Definition binning (first second : list float) (n : nat)
  : result (list float * list number * list number) :=
  match cut_edges first n with
  | Ok bin_edges =>
      Ok (bin_edges, cut_counts bin_edges first, cut_counts bin_edges second)
  | Raise _ =>
      bin_edges <- histogram_edges first n ;;
      hist1 <- histogram_counts bin_edges first ;;
      hist2 <- histogram_counts bin_edges second ;;
      Ok (bin_edges, hist1, hist2)
  end.


Definition histograms_of (first second : list number) (n : nat)
  : result (list float * list number * list number) :=
  binning (map number_float first) (map number_float second) n.

(** The digits of a cell's text, read as a number, stand for its
    timestamp. *)
Definition digits_of (s : string) : string :=
  let fix keep (s : string) : string :=
    match s with
    | EmptyString => EmptyString
    | String c s' =>
        if PyStr.is_decimal_char c then String c (keep s') else keep s'
    end in
  keep s.

Definition stamp (c : cell) : option Z :=
  match c with
  | Val (VStr s) =>
      match digitpart (digits_of s) 0%Z 0%Z with
      | Some (n, _, _) => Some n
      | None => None
      end
  | Val (VInt n) => Some n
  | Time t => t
  | _ => None
  end.


Definition stamps (l : list cell) : option (list (option Z)) :=
  Some (map stamp l).

End Toy.

Section ToyFacts.

Import PyFloat Py Frame Toy.
Local Open Scope Z_scope.

Lemma stamps_length (l : list cell) (ts : list (option Z)) :
  stamps l = Some ts -> List.length ts = List.length l.
Proof.
  unfold stamps. intros H. injection H as <-. apply length_map.
Qed.

Lemma infer_dtype_fits (cells : list cell) : fits (infer_dtype cells) cells.
Proof.
  unfold infer_dtype. destruct cells as [| c cells]; [exact I |].
  destruct (forallb is_time_cell (c :: cells)) eqn:T; [exact T |].
  destruct (forallb is_int_cell (c :: cells)) eqn:N; [exact N |].
  destruct (forallb is_uint_cell (c :: cells)) eqn:U; [exact U |].
  destruct (forallb is_bool_cell (c :: cells)) eqn:B; [exact B |].
  destruct (forallb is_floatable (c :: cells)) eqn:F; [| exact I].
  destruct (existsb is_number_cell (c :: cells) || forallb is_missing (c :: cells))%bool;
    [exact F | exact I].
Qed.

Lemma infer_dtype_integers (cells : list cell) :
  cells <> [] -> forallb is_int_cell cells = true -> infer_dtype cells = Int64.
Proof.
  intros Hne H. unfold infer_dtype. destruct cells as [| c cells]; [congruence |].
  rewrite H.
  replace (forallb is_time_cell (c :: cells)) with false; [reflexivity |].
  cbn [forallb] in *. apply andb_prop in H. destruct H as [Hc _].
  destruct c as [| v | t]; try discriminate. reflexivity.
Qed.

Lemma fold_left_add (ns : list Z) (a : Z) :
  fold_left Z.add ns a = a + total ns.
Proof.
  revert a. induction ns as [| n ns IH]; intros a; cbn [fold_left total fold_right].
  - lia.
  - rewrite IH. fold (total ns). lia.
Qed.

Lemma total_magnitude (ns : list Z) : Z.abs (total ns) <= magnitude ns.
Proof.
  induction ns as [| n ns IH]; cbn [total magnitude fold_right]; [lia |].
  fold (total ns). fold (magnitude ns). lia.
Qed.

Lemma wrap64_small (n : Z) : Z.abs n < 2 ^ 53 -> wrap64 n = n.
Proof.
  intros H. unfold wrap64. rewrite Z.mod_small; lia.
Qed.

Lemma sum_cells_integers (ns : list Z) :
  magnitude ns < 2 ^ 53 -> sum_cells Int64 (map int_cell ns) = NInt (total ns).
Proof.
  intros H. cbn [sum_cells]. rewrite map_map. cbn [int_cell cell_int].
  rewrite map_id, fold_left_add, Z.add_0_l.
  rewrite wrap64_small; [reflexivity |]. pose proof (total_magnitude ns). lia.
Qed.

Lemma sum_numbers_integers (ns : list Z) :
  magnitude ns < 2 ^ 53 -> sum_numbers Int64 (map NInt ns) = NInt (total ns).
Proof.
  intros H. cbn [sum_numbers]. rewrite map_map. cbn [number_int].
  rewrite map_id, fold_left_add, Z.add_0_l.
  rewrite wrap64_small; [reflexivity |]. pose proof (total_magnitude ns). lia.
Qed.

Lemma CompOpp_option_involutive (c : option comparison) :
  option_map CompOpp (option_map CompOpp c) = c.
Proof. now destruct c as [[] |]. Qed.

Lemma SFcompare_antisym (x y : spec_float) :
  SFcompare y x = option_map CompOpp (SFcompare x y).
Proof.
  destruct x as [sx | sx | | sx mx ex], y as [sy | sy | | sy my ey]; simpl;
    try reflexivity; try (destruct sx; reflexivity); try (destruct sy; reflexivity);
    try (destruct sx, sy; reflexivity).
  destruct sx, sy; simpl; try reflexivity;
    rewrite (Z.compare_antisym ex ey);
    destruct (Z.compare ex ey); simpl; try reflexivity;
    change (Pos.compare_cont Eq my mx) with (Pos.compare my mx);
    change (Pos.compare_cont Eq mx my) with (Pos.compare mx my);
    rewrite (Pos.compare_antisym mx my);
    now destruct (Pos.compare mx my).
Qed.

Lemma number_compare_antisym (a b : number) :
  number_compare b a = option_map CompOpp (number_compare a b).
Proof.
  destruct a as [x | x], b as [y | y]; simpl.
  - now rewrite (Z.compare_antisym x y).
  - reflexivity.
  - now rewrite CompOpp_option_involutive.
  - apply SFcompare_antisym.
Qed.

Lemma number_ltb_asym (a b : number) :
  number_ltb a b = true -> number_ltb b a = false.
Proof.
  unfold number_ltb. rewrite (number_compare_antisym a b).
  now destruct (number_compare a b) as [[] |].
Qed.

Lemma outranks_asym (x y : cell * number) :
  outranks x y = true -> outranks y x = false.
Proof.
  unfold outranks. intros H.
  apply andb_prop in H. destruct H as [Hx H].
  apply negb_true_iff in Hx. rewrite Hx. simpl.
  destruct (number_is_nan (snd y)); simpl in *; [reflexivity |].
  now apply number_ltb_asym.
Qed.

Lemma insert_row_outranks (x y : cell * number) (l : list (cell * number)) :
  insert_row x (y :: l) = if outranks x y then x :: y :: l else y :: insert_row x l.
Proof. reflexivity. Qed.

Lemma insert_row_Permutation (x : cell * number) (l : list (cell * number)) :
  Permutation (insert_row x l) (x :: l).
Proof.
  induction l as [| y l IH]; [reflexivity |].
  rewrite insert_row_outranks. destruct (outranks x y); [reflexivity |].
  rewrite IH. apply perm_swap.
Qed.

Lemma insert_row_HdRel (x y : cell * number) (l : list (cell * number)) :
  HdRel ranked y l -> ranked y x -> HdRel ranked y (insert_row x l).
Proof.
  intros Hl Hx. destruct l as [| z l]; [now constructor |].
  rewrite insert_row_outranks. destruct (outranks x z); constructor; [exact Hx |].
  now inversion Hl.
Qed.

Lemma insert_row_Sorted (x : cell * number) (l : list (cell * number)) :
  Sorted ranked l -> Sorted ranked (insert_row x l).
Proof.
  induction l as [| y l IH]; intros Hs.
  - repeat constructor.
  - rewrite insert_row_outranks. inversion Hs as [| ? ? Hs' Hhd]; subst.
    destruct (outranks x y) eqn:E.
    + constructor; [exact Hs |]. constructor. now apply outranks_asym.
    + constructor; [now apply IH |]. apply insert_row_HdRel; assumption.
Qed.

Lemma fold_insert_row (l acc : list (cell * number)) :
  Sorted ranked acc ->
  Sorted ranked (fold_left (fun acc x => insert_row x acc) l acc)
  /\ Permutation (fold_left (fun acc x => insert_row x acc) l acc) (acc ++ l).
Proof.
  revert acc. induction l as [| x l IH]; intros acc Hs; simpl.
  - now rewrite app_nil_r.
  - destruct (IH (insert_row x acc) (insert_row_Sorted x acc Hs)) as [H1 H2].
    split; [exact H1 |]. rewrite H2, insert_row_Permutation.
    apply Permutation_cons_app. reflexivity.
Qed.

(** The ranking is a descending arrangement of the rows. *)
Lemma stable_sort_desc_ranked (l : list (cell * number)) :
  Sorted ranked (stable_sort_desc l) /\ Permutation (stable_sort_desc l) l.
Proof. apply (fold_insert_row l []). constructor. Qed.

Lemma intervals_length (edges : list float) :
  List.length (intervals edges) = List.length (combine edges (tl edges)).
Proof.
  unfold intervals. rewrite !length_combine, length_seq.
  destruct edges as [| a edges]; cbn [tl List.length]; lia.
Qed.

Lemma linspace_length (start stop : float) (num : nat) :
  List.length (linspace start stop num) = S num.
Proof. unfold linspace. now rewrite length_map, length_seq. Qed.

Lemma cut_edges_length (values : list float) (n : nat) (edges : list float) :
  cut_edges values n = Ok edges -> List.length edges = S n.
Proof.
  unfold cut_edges. destruct (filter not_nan values) as [| first rest]; [discriminate |].
  destruct (is_inf (min first rest) || is_inf (max first rest)); [discriminate |].
  cbv zeta.
  destruct (eqb (min first rest) (max first rest)).
  - destruct (has_duplicates _); [discriminate |].
    intros [= <-]. apply linspace_length.
  - pose proof (linspace_length (min first rest) (max first rest) n) as L.
    destruct (linspace (min first rest) (max first rest) n) as [| lowest others];
      [discriminate |].
    destruct (has_duplicates _); [discriminate |].
    intros [= <-]. exact L.
Qed.

Lemma histogram_edges_length (values : list float) (n : nat) (edges : list float) :
  histogram_edges values n = Ok edges -> List.length edges = S n.
Proof.
  unfold histogram_edges.
  destruct (filter not_nan values) as [| first rest].
  - intros [= <-]. apply linspace_length.
  - destruct (is_inf (min first rest) || is_inf (max first rest))%bool;
      [discriminate |].
    cbv zeta.
    destruct (has_duplicates _ || decreasing_somewhere _)%bool; [discriminate |].
    intros [= <-]. destruct (eqb (min first rest) (max first rest));
      apply linspace_length.
Qed.

Lemma binning_lengths (first second : list float) (n : nat)
    (edges : list float) (h1 h2 : list number) :
  binning first second n = Ok (edges, h1, h2) ->
  List.length edges = S n /\ List.length h1 = n /\ List.length h2 = n.
Proof.
  assert (C : forall edges : list float,
             List.length edges = S n -> List.length (intervals edges) = n).
  { intros e He. rewrite intervals_length, length_combine.
    destruct e as [| e0 rest]; [discriminate |]. cbn [tl List.length] in *. lia. }
  unfold binning. destruct (cut_edges first n) as [bins | e] eqn:E.
  - intros [= <- <- <-]. apply cut_edges_length in E. unfold cut_counts.
    rewrite !length_map. auto.
  - destruct (histogram_edges first n) as [bins | e'] eqn:E'; [| discriminate].
    cbn [bind]. apply histogram_edges_length in E'. unfold histogram_counts.
    destruct (decreasing_somewhere bins); [discriminate |]. cbn [bind].
    intros [= <- <- <-]. rewrite !length_map. auto.
Qed.

End ToyFacts.

Definition toy_pandas : Frame.Pandas :=
  {| Frame.to_datetime := Toy.stamps;
     Frame.timestamp_str := PyFloat.decimal_of_Z;
     Frame.to_datetime_length := stamps_length;
     Frame.dtype_of := Toy.infer_dtype;
     Frame.dtype_of_fits := infer_dtype_fits;
     Frame.dtype_of_integers := infer_dtype_integers;
     Frame.group_sum := Toy.sum_cells;
     Frame.group_sum_integers := sum_cells_integers;
     Frame.group_mean := Toy.mean_cells;
     Frame.series_sum := Toy.sum_numbers;
     Frame.series_sum_integers := sum_numbers_integers;
     Frame.sort_values_desc := Toy.stable_sort_desc;
     Frame.sort_values_desc_Permutation :=
       fun rows => proj2 (stable_sort_desc_ranked rows);
     Frame.sort_values_desc_Sorted :=
       fun rows => proj1 (stable_sort_desc_ranked rows);
     Frame.histograms := Toy.histograms_of;
     Frame.histograms_lengths :=
       fun first second n edges counts1 counts2 =>
         binning_lengths _ _ n edges counts1 counts2 |}.

(** ** The specification's reading, for comparison with the code *)

Module Spec.

(** The columns the specification expects the visualization engine to take
    as date candidates: those whose name contains one of the classifier's
    date indicators. *)
Definition date_candidates (df : Frame.frame) : list string :=
  filter (fun col => PyStr.contains_any
                       ["date"; "period"; "month"; "year"; "quarter"; "day"; "week"]
                       (PyStr.lower col))
         (Frame.columns df).

(** Likewise for the category candidates. *)
Definition category_candidates (df : Frame.frame) : list string :=
  filter (fun col => PyStr.contains_any
                       ["category"; "type"; "department"; "division";
                        "segment"; "product"; "region"; "country"]
                       (PyStr.lower col))
         (Frame.columns df).

(** The number of canonical targets for which some key of the sample
    matches: the count the specification puts the remap threshold on. *)
Definition matched_targets (keys : list string) : nat :=
  List.length
    (filter (fun target =>
               match DataProcessor.first_match keys (snd target) with
               | Some _ => true
               | None => false
               end)
            DataProcessor.financial_fields).

(** The record [normalize_item] builds from a record. *)
Definition rebuilt (field_mapping : dict string) (r : record) : record :=
  match DataProcessor.normalize_item field_mapping (IRecord r) with
  | Ok (IRecord r') => r'
  | _ => r
  end.

(** One field answers to two targets: [sales] and [date]. *)
Definition sales_by_date : list record :=
  [ [("sales_date", VStr "2023-01"); ("units", VInt 3)];
    [("sales_date", VStr "2023-02"); ("units", VInt 5)] ].

(** Two fields answer to two targets. *)
Definition sales_and_date : list record :=
  [ [("Sales", VInt 10); ("order_date", VStr "2023-01"); ("units", VInt 3)];
    [("Sales", VInt 20); ("units", VInt 5)] ].

Definition records_data (records : list record) : pydata :=
  PList (map IRecord records).

(** A frame with a [week] and a [region] column. *)
Definition weekly_frame : Frame.frame :=
  Frame.DataFrame [ [("week", VInt 1); ("region", VStr "North"); ("units", VInt 3)] ].

(** Whether some key answers to a target. *)
Definition matches (keys : list string) (target : string * list string) : bool :=
  match DataProcessor.first_match keys (snd target) with
  | Some _ => true
  | None => false
  end.

(** A string of digits with at most one decimal point, and at least one
    digit. *)
Fixpoint count_char (p : ascii -> bool) (s : string) : nat :=
  match s with
  | EmptyString => O
  | String c s' => (if p c then 1 else 0) + count_char p s'
  end.

Definition is_point (c : ascii) : bool := Ascii.eqb c ".".

Definition digit_string (s : string) : bool :=
  (count_char is_point s <=? 1)%nat
  && PyStr.sall (fun c => PyStr.is_digit_char c || is_point c) s
  && (0 <? count_char PyStr.is_digit_char s)%nat.

(** A number, or a string of digits with at most one decimal point. *)
Definition numeric_like (v : value) : bool :=
  match v with
  | VBool _ | VInt _ | VFloat _ => true
  | VStr s => digit_string s
  | VNone => false
  end.

(** The number of records in which the field is present with a
    numeric-typed value. *)
Definition numeric_records (field : string) (records : list record) : nat :=
  List.length
    (filter (fun r => match dict_get r field with
                      | Some v => numeric_like v
                      | None => false
                      end)
            records).

(** [count / total >= 0.8], exactly. *)
Definition at_least_80_percent (count total : nat) : bool :=
  (4 * total <=? 5 * count)%nat.

(** Ten records whose [amount] is numeric in the first [n] and text in the
    others. *)
Definition numeric_in_first (n : nat) : list record :=
  map (fun i => [("amount", if (i <? n)%nat then VInt (Z.of_nat i) else VStr "n/a")])
      (seq 0 10).

(** The three-record example of the specification, as decoded. *)
Definition quarter : pydata :=
  PList
    [ IRecord [("date", VStr "2023-01"); ("category", VStr "A"); ("revenue", VStr "100")];
      IRecord [("date", VStr "2023-02"); ("category", VStr "A"); ("revenue", VStr "150")];
      IRecord [("date", VStr "2023-03"); ("category", VStr "A"); ("revenue", VStr "90")] ].

(** The same records after [clean_data]. *)
Definition quarter_cleaned : list item :=
  [ IRecord [("date", VStr "2023-01"); ("category", VStr "A");
             ("revenue", VFloat (PyFloat.of_Z 100))];
    IRecord [("date", VStr "2023-02"); ("category", VStr "A");
             ("revenue", VFloat (PyFloat.of_Z 150))];
    IRecord [("date", VStr "2023-03"); ("category", VStr "A");
             ("revenue", VFloat (PyFloat.of_Z 90))] ].

(** And after [detect_financial_structure], which reorders the keys. *)
Definition quarter_processed : list item :=
  [ IRecord [("revenue", VFloat (PyFloat.of_Z 100)); ("date", VStr "2023-01");
             ("category", VStr "A")];
    IRecord [("revenue", VFloat (PyFloat.of_Z 150)); ("date", VStr "2023-02");
             ("category", VStr "A")];
    IRecord [("revenue", VFloat (PyFloat.of_Z 90)); ("date", VStr "2023-03");
             ("category", VStr "A")] ].

Definition quarter_insights : list string :=
  [ "The total revenue is 340.00.";
    "The average revenue is 113.33.";
    "The maximum revenue recorded is 150.00.";
    "The minimum revenue recorded is 90.00.";
    "There is a 66.7% difference between the highest and lowest revenue.";
    "The revenue remains relatively stable over the analyzed period (change: -10.0%)." ].

(** Two records, two categories: too few values for statistics, enough for
    a comparison. *)
Definition two_categories : list item :=
  [ IRecord [("type", VStr "a"); ("units", VInt 2)];
    IRecord [("type", VStr "b"); ("units", VInt 3)] ].

Definition two_categories_insights : list string :=
  [ "The best performing category in terms of units is 'b' with an average of 3.00.";
    "The lowest performing category in terms of units is 'a' with an average of 2.00." ].

(** A list whose only element is not a record. *)
Definition not_records : pydata := PList [IScalar (VInt 5)].

(** The invariant of a chart specification: every series of a chart other
    than the scatter plot has one value per label; the scatter plot has two
    coordinate lists of equal length. *)
Definition series_invariant (c : Visualizer.chart) (d : Visualizer.dataset) : Prop :=
  match Visualizer.ds_data d with
  | Visualizer.Values l =>
      Visualizer.chart_type c <> "scatter"
      /\ List.length l = List.length (Visualizer.labels c)
  | Visualizer.Points xs ys =>
      Visualizer.chart_type c = "scatter" /\ List.length xs = List.length ys
  end.

Definition chart_invariant (c : Visualizer.chart) : Prop :=
  Forall (series_invariant c) (Visualizer.datasets c).

(** Nine products with the sums 10, 20, ..., 90. *)
Definition nine_products : list record :=
  map (fun i => [("product", VStr (String (ascii_of_nat (65 + i)) EmptyString));
                 ("amount", VInt (Z.of_nat (10 * (i + 1))))])
      (seq 0 9).





(** Five records whose [revenue] is a number in four and text in one: 80%
    of the values are numeric, so the field is classified numeric. *)
Definition one_bad_value : pydata :=
  PList
    [ IRecord [("revenue", VInt 10)]; IRecord [("revenue", VInt 20)];
      IRecord [("revenue", VInt 30)]; IRecord [("revenue", VInt 40)];
      IRecord [("revenue", VStr "n/a")] ].

(** Four records with a date, a category and a figure. *)
Definition small_sales : pydata :=
  PList
    [ IRecord [("date", VStr "2023-01"); ("category", VStr "A"); ("revenue", VInt 100)];
      IRecord [("date", VStr "2023-02"); ("category", VStr "A"); ("revenue", VInt 100)];
      IRecord [("date", VStr "2023-02"); ("category", VStr "B"); ("revenue", VInt 150)];
      IRecord [("date", VStr "2023-03"); ("category", VStr "C"); ("revenue", VInt 90)] ].

End Spec.

(** ** Auxiliary notions for the proofs *)

Module Aux.

(** What [clean_key] does to one character after the strip. *)
Definition key_char (c : ascii) : ascii :=
  let c' := PyStr.lower_char c in
  if Ascii.eqb c' " " then "_"%char else c'.

(** A string that does not start with white space. *)
Definition head_ok (s : string) : bool :=
  match s with
  | EmptyString => true
  | String c _ => negb (PyStr.is_space c)
  end.

(** A character a numeric-looking string is made of. *)
Definition numeric_char (c : ascii) : bool :=
  PyStr.is_digit_char c || Ascii.eqb c ".".

(** A dictionary entry the cleaner leaves as it is. *)
Definition clean_entry (kv : string * value) : Prop :=
  DataProcessor.clean_key (fst kv) = fst kv
  /\ DataProcessor.clean_value (snd kv) = Ok (snd kv).

(** The coverage test of the numeric classifier, when the data is not
    empty. *)
Definition coverage (count total : nat) : bool :=
  SFleb (PyFloat.of_decimal false 8 (-1))
        (SFdiv PyFloat.prec PyFloat.emax (PyFloat.of_Z (Z.of_nat count))
               (PyFloat.of_Z (Z.of_nat total))).

(** The mantissa of the binary64 number nearest to 0.8, which is
    [threshold_mantissa * 2 ^ (-53)]. *)
Definition threshold_mantissa : Z := 7205759403792794.

(** The four statements every analysed field starts with. *)
Definition basic_statements (field : string)
    (total average maximum minimum : PyFloat.float) : list string :=
  [ ("The total " ++ NlpAnalyzer.label field ++ " is "
     ++ PyFloat.format_f 2 total ++ ".")%string;
    ("The average " ++ NlpAnalyzer.label field ++ " is "
     ++ PyFloat.format_f 2 average ++ ".")%string;
    ("The maximum " ++ NlpAnalyzer.label field ++ " recorded is "
     ++ PyFloat.format_f 2 maximum ++ ".")%string;
    ("The minimum " ++ NlpAnalyzer.label field ++ " recorded is "
     ++ PyFloat.format_f 2 minimum ++ ".")%string ].

(** Every column of a frame has one cell per row. *)
Definition well_formed (df : Frame.frame) : Prop :=
  forall c cells, In (c, cells) (Frame.cols df) -> List.length cells = Frame.nrows df.


(** An insight statement opens with a capital T: "The", "There", "Top". *)
Definition opens_with_T (s : string) : bool :=
  match s with
  | String "T" _ => true
  | _ => false
  end.

(** An emitter that appends at most [n] strings, all of them in [P]. *)
Definition emits {A : Type} (P : string -> Prop) (n : nat) (m : emitter A) : Prop :=
  Forall P (fst m) /\ List.length (fst m) <= n.

(** The values the statistical generator converts for a field: those of the
    records that hold the field with a value other than [None]. *)
Definition usable_values (field : string) (records : list record) : list value :=
  flat_map (fun r => match dict_get r field with
                     | Some v => if Py.is_none v then [] else [v]
                     | None => []
                     end)
           records.


(** A key as the cleaner leaves it: no surrounding whitespace, no capital
    letter, no space character. *)
Definition normal_key (k : string) : Prop :=
  PyStr.strip k = k /\ PyStr.lower k = k /\ PyStr.contains " " k = false.

(** A value as the cleaner leaves it: never a NaN, never a string that
    passes the digit test. *)
Definition normal_value (v : value) : Prop :=
  match v with
  | VFloat f => PyFloat.is_nan f = false
  | VStr s => PyStr.looks_numeric s = false
  | _ => True
  end.

(** The value of the last field of [fields] whose cleaned key is [k]. *)
Definition last_named (k : string) (fields : record) : option value :=
  fold_left (fun found kv =>
               if String.eqb (DataProcessor.clean_key (fst kv)) k
               then Some (snd kv) else found)
            fields None.

(** A record as the cleaner leaves it. *)
Definition clean_record_form (r : record) : Prop :=
  NoDup (dict_keys r) /\ Forall clean_entry r.


(** [s] without its leading ASCII digits. *)
Fixpoint after_digits (s : string) : string :=
  match s with
  | String c s' => if PyStr.is_decimal_char c then after_digits s' else s
  | EmptyString => EmptyString
  end.

Definition starts_decimal (s : string) : bool :=
  match s with
  | String c _ => PyStr.is_decimal_char c
  | EmptyString => false
  end.

(** The [i]-th of the [segments] chronological segments of the trend
    generator: [data_points[start_idx:end_idx]]. *)
Definition segment {A : Type} (points : list A) (segments i : nat) : list A :=
  let n := List.length points in
  let segment_size := (n / segments)%nat in
  NlpAnalyzer.slice (i * segment_size)
                    (if (i <? segments - 1)%nat
                     then (i * segment_size + segment_size)%nat else n)
                    points.

(** A descending arrangement of pairs with float keys: no pair is
    followed, however far behind, by one with a greater key. *)
Definition descending {A : Type} (l : list (A * PyFloat.float)) : Prop :=
  StronglySorted (fun a b => PyFloat.ltb (snd a) (snd b) = false) l.

(** Neighbours in the order of their keys: the key of the later one is not
    before the key of the earlier one. *)
Definition not_before {A : Type} (key : A -> value) (a b : A) : Prop :=
  Py.lt (key b) (key a) = Ok false.

(** A value that is text, as dates usually are. *)
Definition is_text (v : value) : bool :=
  match v with VStr _ => true | _ => false end.

End Aux.

(** * Properties *)

(** ** Strings *)

Section StringFacts.

Import PyStr.

Lemma contains_any_incl (terms terms' : list string) (s : string) :
  incl terms terms' ->
  contains_any terms s = true -> contains_any terms' s = true.
Proof.
  unfold contains_any. intros Hincl H.
  apply existsb_exists in H. destruct H as [t [Hin Ht]].
  apply existsb_exists. exists t. split; [apply Hincl, Hin | exact Ht].
Qed.

End StringFacts.

(** ** Column names of a frame *)

Section ColumnFacts.

Import Frame.

Lemma add_key_In (seen : list string) (k x : string) :
  In x (add_key seen k) <-> In x seen \/ x = k.
Proof.
  unfold add_key. destruct (existsb (String.eqb k) seen) eqn:E.
  - split; [auto |]. intros [H | ->]; [exact H |].
    apply existsb_exists in E. destruct E as [y [Hy Heq]].
    apply String.eqb_eq in Heq. subst y. exact Hy.
  - rewrite in_app_iff. simpl. intuition.
Qed.

Lemma fold_add_key_In (ks seen : list string) (x : string) :
  In x (fold_left add_key ks seen) <-> In x seen \/ In x ks.
Proof.
  revert seen. induction ks as [| k ks IH]; intros seen; simpl.
  - intuition.
  - rewrite IH, add_key_In. intuition.
Qed.

Lemma all_keys_from_In (data : list record) (seen : list string) (x : string) :
  In x (fold_left (fun seen r => fold_left add_key (dict_keys r) seen) data seen)
  <-> In x seen \/ exists r, In r data /\ In x (dict_keys r).
Proof.
  revert seen. induction data as [| r data IH]; intros seen; simpl.
  - split; [auto |]. intros [H | [r [[] _]]]. exact H.
  - rewrite IH, fold_add_key_In. split.
    + intros [[H | H] | [r' [Hr' Hx]]]; eauto.
    + intros [H | [r' [[-> | Hr'] Hx]]]; eauto.
Qed.

(** The columns of a frame are the keys of all its records. *)
Lemma columns_DataFrame (data : list record) (x : string) :
  In x (columns (DataFrame data))
  <-> exists r, In r data /\ In x (dict_keys r).
Proof.
  unfold columns, DataFrame, dict_keys. simpl.
  rewrite map_map. simpl. rewrite map_id.
  unfold all_keys. rewrite all_keys_from_In. simpl. intuition.
Qed.

End ColumnFacts.

(** ** The dimension candidates of the visualization engine *)

Section Candidates.

Import PyStr Frame Visualizer.

(** C5, as stated, fails: a column named [week] is a date candidate for the
    classifier's indicator list but not for the visualization engine, and a
    column named [region] is a category candidate for the classifier's list
    but not for the engine. *)
Lemma visualizer_candidates_miss_week_and_region :
  date_columns Spec.weekly_frame = []
  /\ Spec.date_candidates Spec.weekly_frame = ["week"]
  /\ category_columns Spec.weekly_frame = []
  /\ Spec.category_candidates Spec.weekly_frame = ["region"].
Proof. repeat split. Qed.

(** C5, amended: over all column names of the frame (the keys of every
    record, not only of the first), the date candidates are exactly the
    columns whose lowercased name contains one of date, month, year,
    quarter, period, and the category candidates exactly those containing
    one of category, type, segment, department, division, product; each is
    also a candidate for the classifier's longer indicator list. *)
Theorem visualizer_candidates (records : list record) (col : string) :
  (In col (date_columns (DataFrame records))
   <-> (exists r, In r records /\ In col (dict_keys r))
       /\ contains_any ["date"; "month"; "year"; "quarter"; "period"]
                       (lower col) = true)
  /\ (In col (category_columns (DataFrame records))
      <-> (exists r, In r records /\ In col (dict_keys r))
          /\ contains_any ["category"; "type"; "segment"; "department";
                           "division"; "product"]
                          (lower col) = true)
  /\ (In col (date_columns (DataFrame records))
      -> In col (Spec.date_candidates (DataFrame records)))
  /\ (In col (category_columns (DataFrame records))
      -> In col (Spec.category_candidates (DataFrame records))).
Proof.
  unfold date_columns, category_columns, columns_named,
    Spec.date_candidates, Spec.category_candidates.
  rewrite !filter_In, columns_DataFrame.
  split; [tauto |]. split; [tauto |].
  split; intros [Hcol Hname]; (split; [exact Hcol |]);
    revert Hname; apply contains_any_incl;
    intros t Ht; simpl in *; intuition.
Qed.

End Candidates.

(** ** Dictionaries *)

Section DictFacts.

Context {A : Type}.
Implicit Types (d : dict A) (k : string) (v : A).

Lemma dict_get_set_same d k v : dict_get (dict_set d k v) k = Some v.
Proof.
  induction d as [| [k' v'] d IH]; simpl.
  - now rewrite String.eqb_refl.
  - destruct (String.eqb k' k) eqn:E; simpl; rewrite E; auto.
Qed.

Lemma dict_get_set_other d k k' v :
  k <> k' -> dict_get (dict_set d k v) k' = dict_get d k'.
Proof.
  intros Hne. induction d as [| [k0 v0] d IH]; simpl.
  - destruct (String.eqb k k') eqn:E; [apply String.eqb_eq in E; contradiction | reflexivity].
  - destruct (String.eqb k0 k) eqn:E; simpl.
    + apply String.eqb_eq in E. subst k0.
      destruct (String.eqb k k') eqn:E'; [apply String.eqb_eq in E'; contradiction | reflexivity].
    + now rewrite IH.
Qed.

Lemma dict_mem_set_other d k k' v :
  k <> k' -> dict_mem (dict_set d k v) k' = dict_mem d k'.
Proof. intros H. unfold dict_mem. now rewrite dict_get_set_other. Qed.

Lemma dict_get_In d k v : dict_get d k = Some v -> In (k, v) d.
Proof.
  induction d as [| [k' v'] d IH]; simpl; [discriminate |].
  destruct (String.eqb k' k) eqn:E.
  - apply String.eqb_eq in E. intros [= ->]. subst. now left.
  - auto.
Qed.

Lemma dict_get_None d k : dict_get d k = None <-> ~ In k (dict_keys d).
Proof.
  induction d as [| [k' v'] d IH]; simpl; [tauto |].
  destruct (String.eqb k' k) eqn:E.
  - apply String.eqb_eq in E. split; [discriminate | intros H; exfalso; auto].
  - apply String.eqb_neq in E. rewrite IH. tauto.
Qed.

Lemma dict_mem_keys d k : dict_mem d k = true <-> In k (dict_keys d).
Proof.
  unfold dict_mem. destruct (dict_get d k) eqn:E.
  - split; [| reflexivity]. intros _. apply dict_get_In in E.
    apply (in_map fst) in E. exact E.
  - apply dict_get_None in E. split; [discriminate | contradiction].
Qed.

Lemma In_dict_get d k v :
  NoDup (dict_keys d) -> In (k, v) d -> dict_get d k = Some v.
Proof.
  induction d as [| [k' v'] d IH]; simpl; [tauto |].
  intros Hnd [[= -> ->] | Hin]; [now rewrite String.eqb_refl |].
  inversion Hnd as [| ? ? Hnot Hnd']; subst.
  destruct (String.eqb k' k) eqn:E; [| auto].
  apply String.eqb_eq in E. subst k'. exfalso. apply Hnot.
  apply (in_map fst) in Hin. exact Hin.
Qed.

Lemma dict_keys_set d k v :
  dict_keys (dict_set d k v)
  = if dict_mem d k then dict_keys d else dict_keys d ++ [k].
Proof.
  unfold dict_mem. induction d as [| [k' v'] d IH]; simpl; [reflexivity |].
  destruct (String.eqb k' k) eqn:E; simpl; [reflexivity |].
  rewrite IH. now destruct (dict_get d k).
Qed.

Lemma dict_set_length d k v :
  List.length (dict_set d k v) <= S (List.length d).
Proof.
  induction d as [| [k' v'] d IH]; simpl; [lia |].
  destruct (String.eqb k' k); simpl; lia.
Qed.

Lemma dict_set_NoDup d k v :
  NoDup (dict_keys d) -> NoDup (dict_keys (dict_set d k v)).
Proof.
  intros Hnd. rewrite dict_keys_set.
  destruct (dict_mem d k) eqn:E; [exact Hnd |].
  apply NoDup_app; [exact Hnd | repeat constructor; simpl; tauto |].
  intros x Hx [<- | []].
  apply dict_mem_keys in Hx. congruence.
Qed.

(** The values of an updated dictionary: the new one, and old ones. *)
Lemma dict_set_values_incl d k v x :
  In x (map snd (dict_set d k v)) -> x = v \/ In x (map snd d).
Proof.
  induction d as [| [k' v'] d IH]; simpl; [intuition congruence |].
  destruct (String.eqb k' k); simpl; [intuition congruence |].
  intros [<- | H]; [tauto |]. apply IH in H. tauto.
Qed.

Lemma dict_set_values_NoDup d k v :
  NoDup (map snd d) -> ~ In v (map snd d) -> NoDup (map snd (dict_set d k v)).
Proof.
  induction d as [| [k' v'] d IH]; simpl; intros Hnd Hnot.
  - repeat constructor. simpl. tauto.
  - inversion Hnd as [| ? ? Hv' Hnd']; subst.
    destruct (String.eqb k' k); simpl.
    + constructor; [tauto | exact Hnd'].
    + constructor.
      * intros H. apply dict_set_values_incl in H. destruct H as [-> | H]; tauto.
      * apply IH; tauto.
Qed.

End DictFacts.

(** ** The financial remap *)

Section Remap.

Import DataProcessor.

Implicit Types (fm : dict string) (r acc : record).

Lemma build_mapping_length keys targets fm :
  List.length (build_mapping keys targets fm)
  <= List.length fm + List.length (filter (Spec.matches keys) targets).
Proof.
  revert fm. induction targets as [| [t names] targets IH]; intros fm; simpl.
  - lia.
  - unfold Spec.matches at 1. simpl.
    destruct (first_match keys names) as [key |]; simpl.
    + specialize (IH (dict_set fm key t)).
      pose proof (dict_set_length fm key t). lia.
    + apply IH.
Qed.

Lemma build_mapping_keys_NoDup keys targets fm :
  NoDup (dict_keys fm) -> NoDup (dict_keys (build_mapping keys targets fm)).
Proof.
  revert fm. induction targets as [| [t names] targets IH]; intros fm H; simpl.
  - exact H.
  - apply IH. destruct (first_match keys names); [now apply dict_set_NoDup | exact H].
Qed.

Lemma build_mapping_values_NoDup keys targets fm :
  NoDup (map snd fm) -> NoDup (map fst targets) ->
  (forall c, In c (map snd fm) -> ~ In c (map fst targets)) ->
  NoDup (map snd (build_mapping keys targets fm)).
Proof.
  revert fm. induction targets as [| [t names] targets IH]; intros fm Hfm Ht Hdisj; simpl.
  - exact Hfm.
  - simpl in Ht. inversion Ht as [| ? ? Hnot Ht']; subst.
    apply IH; [| exact Ht' |].
    + destruct (first_match keys names); [| exact Hfm].
      apply dict_set_values_NoDup; [exact Hfm |].
      intros Hin. apply (Hdisj _ Hin). now left.
    + intros c Hc Hin.
      destruct (first_match keys names).
      * apply dict_set_values_incl in Hc. destruct Hc as [-> | Hc]; [contradiction |].
        apply (Hdisj _ Hc). now right.
      * apply (Hdisj _ Hc). now right.
Qed.

Lemma detect_mapping_NoDup (sample : record) :
  NoDup (dict_keys (detect_mapping sample))
  /\ NoDup (map snd (detect_mapping sample)).
Proof.
  unfold detect_mapping. split.
  - apply build_mapping_keys_NoDup. constructor.
  - apply build_mapping_values_NoDup; [constructor | | intros c []].
    simpl. repeat constructor; simpl; intuition discriminate.
Qed.

(** The first loop on a record never raises; it touches only canonical
    names, and each mapped field present in the record lands under its
    canonical name. *)
Lemma copy_mapped_record fm r acc :
  exists m, copy_mapped fm (IRecord r) acc = Ok m
    /\ (forall c, ~ In c (map snd fm) -> dict_get m c = dict_get acc c)
    /\ (NoDup (map snd fm) ->
        forall o c v, In (o, c) fm -> dict_get r o = Some v ->
                      dict_get m c = Some v)
    /\ (forall c, dict_mem m c = true ->
                  dict_mem acc c = true
                  \/ exists o, In (o, c) fm /\ dict_mem r o = true).
Proof.
  revert acc. induction fm as [| [o c] fm IH]; intros acc; simpl.
  - exists acc. repeat split; auto. intros _ ? ? ? [].
  - unfold dict_mem at 1. destruct (dict_get r o) as [v |] eqn:Ho; simpl.
    + destruct (IH (dict_set acc c v)) as [m [Hm [Hout [Hin Hkeys]]]].
      exists m. split; [exact Hm |]. split; [| split].
      * intros c' Hc'. rewrite Hout by tauto.
        apply dict_get_set_other. intros ->. tauto.
      * intros Hnd o' c' v' [[= <- <-] | Hin'] Hget.
        -- inversion Hnd; subst. rewrite Hout by assumption.
           rewrite dict_get_set_same. congruence.
        -- inversion Hnd; subst. eauto.
      * intros c' Hc'. destruct (Hkeys _ Hc') as [Hacc | [o' [Ho' Hr]]].
        -- destruct (string_dec c c') as [<- | Hne].
           ++ right. exists o. split; [now left |]. unfold dict_mem. now rewrite Ho.
           ++ left. now rewrite dict_mem_set_other in Hacc.
        -- right. exists o'. tauto.
    + destruct (IH acc) as [m [Hm [Hout [Hin Hkeys]]]].
      exists m. split; [exact Hm |]. split; [| split].
      * intros c' Hc'. apply Hout. tauto.
      * intros Hnd o' c' v' [[= <- <-] | Hin'] Hget; [congruence |].
        inversion Hnd; subst. eauto.
      * intros c' Hc'. destruct (Hkeys _ Hc') as [Hacc | [o' [Ho' Hr]]]; [tauto |].
        right. exists o'. tauto.
Qed.

Lemma copy_unmapped_absent fm (fields : record) acc k :
  dict_get fields k = None ->
  dict_get (copy_unmapped fm fields acc) k = dict_get acc k.
Proof.
  revert acc. induction fields as [| [k' v'] fields IH]; intros acc; simpl; [reflexivity |].
  destruct (String.eqb k' k) eqn:E; [discriminate |].
  intros H. rewrite IH by exact H.
  destruct (dict_mem fm k'); [reflexivity |].
  apply dict_get_set_other. now apply String.eqb_neq.
Qed.

Lemma copy_unmapped_claimed fm (fields : record) acc k :
  dict_mem fm k = true ->
  dict_get (copy_unmapped fm fields acc) k = dict_get acc k.
Proof.
  intros Hk. revert acc.
  induction fields as [| [k' v'] fields IH]; intros acc; simpl; [reflexivity |].
  rewrite IH. destruct (dict_mem fm k') eqn:E; [reflexivity |].
  apply dict_get_set_other. intros ->. congruence.
Qed.

Lemma copy_unmapped_copied fm (fields : record) acc k v :
  NoDup (dict_keys fields) -> dict_mem fm k = false ->
  dict_get fields k = Some v ->
  dict_get (copy_unmapped fm fields acc) k = Some v.
Proof.
  revert acc. induction fields as [| [k' v'] fields IH]; intros acc Hnd Hk; simpl;
    [discriminate |].
  inversion Hnd as [| ? ? Hnot Hnd']; subst.
  destruct (String.eqb k' k) eqn:E.
  - apply String.eqb_eq in E. subst k'. intros [= ->]. rewrite Hk.
    rewrite copy_unmapped_absent by now apply dict_get_None.
    apply dict_get_set_same.
  - intros H. now apply IH.
Qed.

Lemma copy_unmapped_keys fm (fields : record) acc k :
  dict_mem (copy_unmapped fm fields acc) k = true ->
  dict_mem acc k = true \/ (dict_mem fm k = false /\ dict_mem fields k = true).
Proof.
  revert acc. induction fields as [| [k' v'] fields IH]; intros acc; simpl; [tauto |].
  intros H. apply IH in H. unfold dict_mem at 3. simpl.
  destruct (String.eqb k' k) eqn:E.
  - apply String.eqb_eq in E. subst k'.
    destruct (dict_mem fm k) eqn:Hk; [| tauto].
    destruct H as [H | [H _]]; [tauto | discriminate].
  - apply String.eqb_neq in E. destruct H as [H | H]; [| tauto].
    left. destruct (dict_mem fm k'); [exact H |].
    now rewrite dict_mem_set_other in H.
Qed.

Lemma normalize_item_record fm r :
  normalize_item fm (IRecord r) = Ok (IRecord (Spec.rebuilt fm r)).
Proof.
  unfold Spec.rebuilt, normalize_item.
  destruct (copy_mapped_record fm r []) as [m [-> _]]. reflexivity.
Qed.

Lemma normalize_records fm (records : list record) :
  mapM (normalize_item fm) (map IRecord records)
  = Ok (map IRecord (map (Spec.rebuilt fm) records)).
Proof.
  induction records as [| r records IH]; simpl; [reflexivity |].
  rewrite normalize_item_record. simpl. now rewrite IH.
Qed.

(** What a rebuilt record holds. *)
Lemma rebuilt_fields fm r :
  NoDup (dict_keys fm) -> NoDup (map snd fm) -> NoDup (dict_keys r) ->
  (forall k v, dict_mem fm k = false -> dict_get r k = Some v ->
               dict_get (Spec.rebuilt fm r) k = Some v)
  /\ (forall o c v, In (o, c) fm -> dict_get r o = Some v ->
                    dict_get r c = None \/ dict_mem fm c = true ->
                    dict_get (Spec.rebuilt fm r) c = Some v)
  /\ (forall k, dict_mem (Spec.rebuilt fm r) k = true ->
                (dict_mem fm k = false /\ dict_mem r k = true)
                \/ exists o, In (o, k) fm /\ dict_mem r o = true).
Proof.
  intros Hkeys Hvals Hr. unfold Spec.rebuilt, normalize_item.
  destruct (copy_mapped_record fm r []) as [m [-> [Hout [Hin Hmem]]]]. simpl.
  split; [| split].
  - intros k v Hk Hget. now apply copy_unmapped_copied.
  - intros o c v Hoc Hget [Habs | Hcl].
    + rewrite copy_unmapped_absent by exact Habs. eauto.
    + rewrite copy_unmapped_claimed by exact Hcl. eauto.
  - intros k Hk. apply copy_unmapped_keys in Hk. destruct Hk as [Hk | Hk]; [| tauto].
    apply Hmem in Hk. destruct Hk as [Hk | Hk]; [discriminate | tauto].
Qed.

(** C4, as stated, fails: in [sales_by_date] the one field [sales_date]
    answers to two canonical targets, revenue and date, and the records
    come back unchanged, without a [date] or [revenue] key. *)
Lemma two_targets_on_one_field_not_remapped :
  Spec.matched_targets ["sales_date"; "units"] = 2
  /\ detect_financial_structure (Spec.records_data Spec.sales_by_date)
     = Ok (Spec.records_data Spec.sales_by_date)
  /\ detect_mapping [("sales_date", VStr "2023-01"); ("units", VInt 3)]
     = [("sales_date", "date")].
Proof. repeat split. Qed.

(** C4, amended: the remap looks at the first record only.  When fewer than
    2 canonical targets find a matching field name, or more generally when
    the matched targets claim fewer than 2 distinct fields, the records are
    returned unchanged.  When they claim 2 or more distinct fields, every
    record is rebuilt: each field the mapping does not claim is copied, each
    claimed field present in the record appears under its canonical name
    (unless an unclaimed field of that name overwrites it), and the record
    has no other keys. *)
Theorem financial_remap (sample : record) (others : list record) :
  (Spec.matched_targets (dict_keys sample) < 2 ->
   detect_financial_structure (Spec.records_data (sample :: others))
   = Ok (Spec.records_data (sample :: others)))
  /\ (List.length (detect_mapping sample) < 2 ->
      detect_financial_structure (Spec.records_data (sample :: others))
      = Ok (Spec.records_data (sample :: others)))
  /\ (2 <= List.length (detect_mapping sample) ->
      detect_financial_structure (Spec.records_data (sample :: others))
      = Ok (Spec.records_data
              (map (Spec.rebuilt (detect_mapping sample)) (sample :: others))))
  /\ (forall r, NoDup (dict_keys r) ->
      (forall k v, dict_mem (detect_mapping sample) k = false ->
                   dict_get r k = Some v ->
                   dict_get (Spec.rebuilt (detect_mapping sample) r) k = Some v)
      /\ (forall o c v, In (o, c) (detect_mapping sample) ->
                        dict_get r o = Some v ->
                        dict_get r c = None
                        \/ dict_mem (detect_mapping sample) c = true ->
                        dict_get (Spec.rebuilt (detect_mapping sample) r) c
                        = Some v)
      /\ (forall k, dict_mem (Spec.rebuilt (detect_mapping sample) r) k = true ->
                    (dict_mem (detect_mapping sample) k = false
                     /\ dict_mem r k = true)
                    \/ exists o, In (o, k) (detect_mapping sample)
                                 /\ dict_mem r o = true)).
Proof.
  assert (Hsmall : List.length (detect_mapping sample) < 2 ->
                   detect_financial_structure (Spec.records_data (sample :: others))
                   = Ok (Spec.records_data (sample :: others))).
  { intros H. unfold detect_financial_structure, Spec.records_data. simpl.
    apply Nat.ltb_lt in H. now rewrite H. }
  split; [| split; [exact Hsmall | split]].
  - intros H. apply Hsmall. unfold detect_mapping.
    pose proof (build_mapping_length (dict_keys sample) financial_fields []) as L.
    simpl in L. unfold Spec.matched_targets in H.
    eapply Nat.le_lt_trans; [exact L | exact H].
  - intros H. unfold detect_financial_structure, Spec.records_data.
    cbn [map items_of bind].
    apply Nat.ltb_ge in H. rewrite H.
    change (IRecord sample :: map IRecord others) with (map IRecord (sample :: others)).
    now rewrite normalize_records.
  - intros r Hr. destruct (detect_mapping_NoDup sample) as [Hk Hv].
    now apply rebuilt_fields.
Qed.

(** The amended remap at work: [sales_and_date] has two fields claimed by
    two targets, and both records are rebuilt. *)
Example remap_sales_and_date :
  detect_financial_structure (Spec.records_data Spec.sales_and_date)
  = Ok (Spec.records_data
          [ [("revenue", VInt 10); ("date", VStr "2023-01"); ("units", VInt 3)];
            [("revenue", VInt 20); ("units", VInt 5)] ]).
Proof. reflexivity. Qed.

End Remap.

(** ** Cleaned keys *)

Section KeyFacts.

Import PyStr DataProcessor Aux.

Ltac by_cases_on c :=
  destruct c as [[] [] [] [] [] [] [] []]; vm_compute; congruence.

Lemma key_char_idem (c : ascii) : key_char (key_char c) = key_char c.
Proof. by_cases_on c. Qed.

Lemma key_char_not_space (c : ascii) :
  is_space c = false -> is_space (key_char c) = false.
Proof. by_cases_on c. Qed.

Lemma smap_smap (f g : ascii -> ascii) (s : string) :
  smap f (smap g s) = smap (fun c => f (g c)) s.
Proof. induction s; simpl; congruence. Qed.

Lemma smap_ext (f g : ascii -> ascii) (s : string) :
  (forall c, f c = g c) -> smap f s = smap g s.
Proof. intros H. induction s; simpl; congruence. Qed.

Lemma clean_key_smap (k : string) : clean_key k = smap key_char (strip k).
Proof. unfold clean_key, replace_char, lower. now rewrite smap_smap. Qed.

Lemma lstrip_head_ok (s : string) : head_ok (lstrip s) = true.
Proof.
  induction s as [| c s IH]; simpl; [reflexivity |].
  destruct (is_space c) eqn:E; [exact IH | simpl; now rewrite E].
Qed.

Lemma head_ok_lstrip (s : string) : head_ok s = true -> lstrip s = s.
Proof.
  destruct s as [| c s]; simpl; [reflexivity |].
  now destruct (is_space c).
Qed.

Lemma head_ok_rstrip (s : string) : head_ok s = true -> head_ok (rstrip s) = true.
Proof.
  destruct s as [| c s]; simpl; [reflexivity |].
  intros H. destruct (rstrip s); simpl; [| exact H].
  destruct (is_space c) eqn:E; simpl; [reflexivity | now rewrite E].
Qed.

Lemma rstrip_idem (s : string) : rstrip (rstrip s) = rstrip s.
Proof.
  induction s as [| c s IH]; simpl; [reflexivity |].
  destruct (rstrip s) as [| c' r] eqn:E.
  - destruct (is_space c) eqn:Ec; simpl; [reflexivity | now rewrite Ec].
  - simpl in *. now rewrite IH.
Qed.

Lemma head_ok_smap (s : string) :
  head_ok s = true -> head_ok (smap key_char s) = true.
Proof.
  destruct s as [| c s]; simpl; [reflexivity |].
  destruct (is_space c) eqn:E; [discriminate |].
  now rewrite key_char_not_space.
Qed.

Lemma rstrip_smap (s : string) :
  rstrip s = s -> rstrip (smap key_char s) = smap key_char s.
Proof.
  induction s as [| c s IH]; simpl; [reflexivity |].
  destruct (rstrip s) as [| c' r] eqn:E.
  - destruct (is_space c) eqn:Ec; [discriminate |].
    intros [= <-]. simpl. now rewrite key_char_not_space.
  - intros [= <-]. rewrite IH by reflexivity. reflexivity.
Qed.

(** A cleaned key is its own cleaning. *)
Lemma clean_key_idem (k : string) : clean_key (clean_key k) = clean_key k.
Proof.
  rewrite !clean_key_smap.
  assert (Hs : strip (smap key_char (strip k)) = smap key_char (strip k)).
  { unfold strip at 1.
    rewrite head_ok_lstrip.
    - apply rstrip_smap. apply rstrip_idem.
    - apply head_ok_smap. apply head_ok_rstrip. apply lstrip_head_ok. }
  rewrite Hs, smap_smap. apply smap_ext. apply key_char_idem.
Qed.

End KeyFacts.

(** ** Rounding never produces a NaN *)

Section RoundingFacts.

Local Open Scope Z_scope.

Variables p emx : Z.

Lemma shr_1_nonneg (mrs : shr_record) :
  0 <= shr_m mrs -> 0 <= shr_m (shr_1 mrs).
Proof.
  destruct mrs as [m r s]. simpl.
  destruct m as [| [q | q |] | q]; simpl; lia.
Qed.

Lemma iter_shr_1_nonneg (n : positive) (mrs : shr_record) :
  0 <= shr_m mrs -> 0 <= shr_m (iter_pos shr_1 n mrs).
Proof.
  revert mrs. induction n as [n IH | n IH |]; intros mrs H; simpl.
  - apply IH, IH, shr_1_nonneg, H.
  - apply IH, IH, H.
  - apply shr_1_nonneg, H.
Qed.

Lemma shr_fexp_nonneg (m e : Z) (l : location) :
  0 <= m -> 0 <= shr_m (fst (shr_fexp p emx m e l)).
Proof.
  intros H. unfold shr_fexp, shr.
  assert (Hm : shr_m (shr_record_of_loc m l) = m) by (destruct l as [| []]; reflexivity).
  destruct (fexp p emx (Zdigits2 m + e) - e); simpl; try lia.
  apply iter_shr_1_nonneg. lia.
Qed.

Lemma round_nearest_even_nonneg (m : Z) (l : location) :
  0 <= m -> 0 <= round_nearest_even m l.
Proof.
  intros H. destruct l as [| []]; simpl; try lia.
  destruct (Z.even m); lia.
Qed.

Lemma binary_round_aux_not_nan (s : bool) (m e : Z) (l : location) :
  0 <= m -> PyFloat.is_nan (binary_round_aux p emx s m e l) = false.
Proof.
  intros H. unfold binary_round_aux.
  pose proof (shr_fexp_nonneg m e l H) as H1.
  destruct (shr_fexp p emx m e l) as [mrs' e']. simpl in H1.
  pose proof (shr_fexp_nonneg
                (round_nearest_even (shr_m mrs') (loc_of_shr_record mrs'))
                e' loc_Exact (round_nearest_even_nonneg _ _ H1)) as H2.
  destruct (shr_fexp p emx _ e' loc_Exact) as [mrs'' e'']. simpl in H2.
  destruct (shr_m mrs'') as [| q | q]; [reflexivity | | lia].
  now destruct (e'' <=? emx - p).
Qed.

Lemma binary_normalize_not_nan (m e : Z) (sz : bool) :
  PyFloat.is_nan (binary_normalize p emx m e sz) = false.
Proof.
  destruct m as [| q | q]; simpl; [reflexivity | |];
    unfold binary_round;
    destruct (shl_align q e _) as [mz ez];
    apply binary_round_aux_not_nan; lia.
Qed.

Lemma SFdiv_core_binary_nonneg (m1 e1 m2 e2 : Z) :
  0 <= m1 -> 0 < m2 ->
  0 <= fst (fst (SFdiv_core_binary p emx m1 e1 m2 e2)).
Proof.
  intros H1 H2. unfold SFdiv_core_binary.
  set (s := e1 - e2 - _).
  set (m' := match s with Z0 => m1 | Zpos _ => Z.shiftl m1 s | Zneg _ => 0 end).
  assert (Hm' : 0 <= m').
  { subst m'. destruct s; try lia. now apply Z.shiftl_nonneg. }
  pose proof (Z.div_pos m' m2 Hm' H2) as Hq.
  unfold Z.div in Hq. destruct (Z.div_eucl m' m2) as [q r]. exact Hq.
Qed.

End RoundingFacts.

Section ParseFacts.

Import PyStr PyFloat.
Local Open Scope Z_scope.

Lemma of_decimal_not_nan (neg : bool) (m e : Z) :
  0 <= m -> is_nan (of_decimal neg m e) = false.
Proof.
  intros H. unfold of_decimal.
  destruct (m =? 0); [reflexivity |].
  destruct (0 <=? e) eqn:E; [apply binary_normalize_not_nan |].
  assert (Hpow : 0 < 10 ^ (- e)) by (apply Z.pow_pos_nonneg; lia).
  pose proof (SFdiv_core_binary_nonneg prec emax m 0 (10 ^ (- e)) 0 H Hpow) as Hq.
  destruct (SFdiv_core_binary prec emax m 0 (10 ^ (- e)) 0) as [[q e'] l].
  apply binary_round_aux_not_nan. exact Hq.
Qed.

Lemma scaled_not_nan (neg : bool) (m n e : Z) :
  0 <= m -> is_nan (scaled neg m n e) = false.
Proof.
  intros H. unfold scaled.
  destruct (m =? 0); [reflexivity |].
  destruct (400 <? e); [reflexivity |].
  destruct (e + n <? -400); [reflexivity |].
  now apply of_decimal_not_nan.
Qed.

Lemma digit_val_nonneg (c : ascii) : is_decimal_char c = true -> 0 <= digit_val c.
Proof.
  unfold is_decimal_char, digit_val. intros H.
  apply andb_prop in H. destruct H as [H _]. apply N.leb_le in H. lia.
Qed.

Lemma digits_tail_nonneg (fuel : nat) (s : string) (acc cnt : Z) :
  (String.length s <= fuel)%nat -> 0 <= acc ->
  0 <= fst (fst (digits_tail s acc cnt)).
Proof.
  revert s acc cnt. induction fuel as [| fuel IH]; intros s acc cnt Hlen Hacc.
  - destruct s; [exact Hacc | simpl in Hlen; lia].
  - destruct s as [| c s]; [exact Hacc |].
    cbn [digits_tail String.length] in *.
    destruct (is_decimal_char c) eqn:Ec.
    + apply IH; [lia |]. pose proof (digit_val_nonneg c Ec). lia.
    + destruct (Ascii.eqb c "_"); [| exact Hacc].
      destruct s as [| d s]; [exact Hacc |].
      destruct (is_decimal_char d) eqn:Ed; [| exact Hacc].
      apply IH; [cbn [String.length] in Hlen; lia |].
      pose proof (digit_val_nonneg d Ed). lia.
Qed.

Lemma digitpart_nonneg (s : string) (acc cnt m n : Z) (rest : string) :
  0 <= acc -> digitpart s acc cnt = Some (m, n, rest) -> 0 <= m.
Proof.
  intros Hacc. destruct s as [| c s]; cbn [digitpart]; [discriminate |].
  destruct (is_decimal_char c) eqn:Ec; [| discriminate].
  intros H0.
  assert (H : digits_tail s (10 * acc + digit_val c) (cnt + 1) = (m, n, rest))
    by congruence.
  pose proof (digits_tail_nonneg (String.length s) s (10 * acc + digit_val c)
                (cnt + 1) (le_n _)) as Hd.
  rewrite H in Hd. cbn [fst] in Hd. apply Hd.
  pose proof (digit_val_nonneg c Ec). lia.
Qed.

Lemma number_nonneg (s : string) (m frac n : Z) (rest : string) :
  number s = Some (m, frac, n, rest) -> 0 <= m.
Proof.
  unfold number.
  destruct (digitpart s 0 0) as [[[m0 n0] rest0] |] eqn:E0.
  - assert (H0 : 0 <= m0) by (eapply digitpart_nonneg; [| exact E0]; lia).
    assert (Hplain : Some (m0, 0, n0, rest0) = Some (m, frac, n, rest) -> 0 <= m)
      by (intros [= <- _ _ _]; exact H0).
    destruct rest0 as [| c rest1]; [exact Hplain |].
    destruct c as [[] [] [] [] [] [] [] []]; try exact Hplain.
    destruct (digitpart rest1 m0 n0) as [[[m1 n1] rest2] |] eqn:E1.
    + intros [= <- _ _ _]. eapply digitpart_nonneg; [exact H0 | exact E1].
    + intros [= <- _ _ _]. exact H0.
  - destruct s as [| c s]; [discriminate |].
    destruct c as [[] [] [] [] [] [] [] []]; try discriminate.
    destruct (digitpart s 0 0) as [[[m1 n1] rest2] |] eqn:E1; [| discriminate].
    intros [= <- _ _ _]. eapply digitpart_nonneg; [| exact E1]. lia.
Qed.

End ParseFacts.

(** ** The cleaning pass *)

Section CleanFacts.

Import PyStr PyFloat DataProcessor Aux.

Lemma sall_impl (P Q : ascii -> bool) (s : string) :
  (forall c, P c = true -> Q c = true) -> sall P s = true -> sall Q s = true.
Proof.
  intros H. induction s as [| c s IH]; simpl; [reflexivity |].
  intros Hs. apply andb_prop in Hs. destruct Hs as [Hc Hs].
  now rewrite (H _ Hc), IH.
Qed.

Lemma sall_lstrip (P : ascii -> bool) (s : string) :
  sall P s = true -> sall P (lstrip s) = true.
Proof.
  induction s as [| c s IH]; simpl; [reflexivity |].
  intros Hs. destruct (is_space c); [| exact Hs].
  apply andb_prop in Hs. now apply IH.
Qed.

Lemma sall_rstrip (P : ascii -> bool) (s : string) :
  sall P s = true -> sall P (rstrip s) = true.
Proof.
  induction s as [| c s IH]; simpl; [reflexivity |].
  intros Hs. apply andb_prop in Hs. destruct Hs as [Hc Hs].
  specialize (IH Hs). destruct (rstrip s) as [| c' r].
  - destruct (is_space c); simpl; [reflexivity | now rewrite Hc].
  - change (sall P (String c (String c' r))) with (P c && sall P (String c' r)).
    now rewrite Hc, IH.
Qed.

Lemma looks_numeric_chars (s : string) :
  looks_numeric s = true -> sall numeric_char s = true.
Proof.
  unfold looks_numeric, isdigit. intros H.
  assert (Hd : sall is_digit_char (remove_first "." s) = true)
    by (destruct (remove_first "." s); [discriminate | exact H]).
  clear H. revert Hd. unfold numeric_char.
  induction s as [| c s IH]; simpl; [reflexivity |].
  destruct (Ascii.eqb c ".") eqn:E; simpl.
  - intros Hd. rewrite orb_true_r. simpl. revert Hd. apply sall_impl.
    intros d ->. reflexivity.
  - intros Hd. apply andb_prop in Hd. destruct Hd as [-> Hd]. simpl. now apply IH.
Qed.

Lemma numeric_not_float_space (c : ascii) :
  numeric_char c = true -> is_float_space c = false.
Proof.
  destruct c as [[] [] [] [] [] [] [] []]; intros H;
    try reflexivity; vm_compute in H; discriminate.
Qed.

(** [float] skips nothing at the ends of a string of digits and points. *)
Lemma skip_numeric (s : string) :
  sall numeric_char s = true -> skip_right (skip_left s) = s.
Proof.
  intros H.
  assert (L : skip_left s = s).
  { destruct s as [| c s]; [reflexivity |]. cbn [sall] in H.
    apply andb_prop in H. cbn [skip_left].
    now rewrite (numeric_not_float_space c (proj1 H)). }
  rewrite L. clear L. induction s as [| c s IH]; [reflexivity |].
  cbn [sall skip_right] in *. apply andb_prop in H. destruct H as [Hc Hs].
  rewrite (IH Hs). destruct s; [now rewrite (numeric_not_float_space c Hc) | reflexivity].
Qed.

Lemma numeric_char_unsigned (c : ascii) (t : string) :
  numeric_char c = true -> split_sign (String c t) = (false, String c t).
Proof.
  destruct c as [[] [] [] [] [] [] [] []]; intros H;
    try reflexivity; vm_compute in H; discriminate.
Qed.

Lemma numeric_char_no_word (c : ascii) (w : string) :
  numeric_char c = true ->
  String.eqb (String (lower_char c) w) "inf" = false
  /\ String.eqb (String (lower_char c) w) "infinity" = false
  /\ String.eqb (String (lower_char c) w) "nan" = false.
Proof.
  destruct c as [[] [] [] [] [] [] [] []]; intros H;
    try (repeat split; reflexivity); vm_compute in H; discriminate.
Qed.

(** A numeric-looking string never reads as a NaN. *)
Lemma of_string_numeric_not_nan (s : string) (f : float) :
  looks_numeric s = true -> of_string s = Some f -> is_nan f = false.
Proof.
  intros Hnum. apply looks_numeric_chars in Hnum.
  unfold of_string. rewrite (skip_numeric s Hnum).
  destruct s as [| c t]; [discriminate |].
  simpl in Hnum. apply andb_prop in Hnum. destruct Hnum as [Hc _].
  rewrite (numeric_char_unsigned c t Hc).
  cbn [lower smap].
  destruct (numeric_char_no_word c (smap lower_char t) Hc) as [-> [-> ->]].
  cbn [orb].
  destruct (number (String c t)) as [[[[m frac] n] rest] |] eqn:En; [| discriminate].
  destruct (exponent rest) as [x |]; [| discriminate].
  intros [= <-]. apply scaled_not_nan. eapply number_nonneg, En.
Qed.

(** A cleaned value is its own cleaning. *)
Lemma clean_value_idem (v v' : value) :
  clean_value v = Ok v' -> clean_value v' = Ok v'.
Proof.
  unfold clean_value. destruct (isna v) eqn:Ena.
  - intros [= <-]. reflexivity.
  - destruct v as [| b | n | f | s]; try (intros [= <-]; simpl in *; now rewrite ?Ena).
    destruct (looks_numeric s) eqn:En.
    + unfold float_of_str. destruct (of_string s) as [f |] eqn:Ef; simpl; [| discriminate].
      intros [= <-]. simpl. now rewrite (of_string_numeric_not_nan s f En Ef).
    + intros [= <-]. simpl. now rewrite En.
Qed.

Lemma dict_set_fresh {A : Type} (d : dict A) (k : string) (v : A) :
  ~ In k (dict_keys d) -> dict_set d k v = d ++ [(k, v)].
Proof.
  induction d as [| [k' v'] d IH]; simpl; [reflexivity |].
  intros H. destruct (String.eqb k' k) eqn:E.
  - apply String.eqb_eq in E. tauto.
  - rewrite IH by tauto. reflexivity.
Qed.

Lemma dict_set_entries {A : Type} (d : dict A) (k : string) (v : A)
    (kv : string * A) :
  In kv (dict_set d k v) -> (fst kv = k /\ snd kv = v) \/ In kv d.
Proof.
  induction d as [| [k' v'] d IH]; simpl.
  - intros [<- | []]. now left.
  - destruct (String.eqb k' k) eqn:E; simpl.
    + apply String.eqb_eq in E. intros [<- | H]; [left; now split | tauto].
    + intros [<- | H]; [tauto |]. apply IH in H. tauto.
Qed.

Lemma clean_fields_invariant (fields clean_item r : record) :
  clean_fields fields clean_item = Ok r ->
  NoDup (dict_keys clean_item) -> Forall clean_entry clean_item ->
  NoDup (dict_keys r) /\ Forall clean_entry r.
Proof.
  revert clean_item. induction fields as [| [k v] fields IH]; intros acc; simpl.
  - intros [= <-]. tauto.
  - destruct (clean_value v) as [v' | e] eqn:Ev; simpl; [| discriminate].
    intros H Hnd Hall. apply (IH _ H).
    + now apply dict_set_NoDup.
    + apply Forall_forall. intros kv Hin.
      apply dict_set_entries in Hin. destruct Hin as [[Hk Hv] | Hin].
      * unfold clean_entry. rewrite Hk, Hv. split.
        -- apply clean_key_idem.
        -- eapply clean_value_idem, Ev.
      * rewrite Forall_forall in Hall. now apply Hall.
Qed.

Lemma clean_fields_clean (fields clean_item : record) :
  NoDup (dict_keys (clean_item ++ fields)) -> Forall clean_entry fields ->
  clean_fields fields clean_item = Ok (clean_item ++ fields).
Proof.
  revert clean_item. induction fields as [| [k v] fields IH]; intros acc Hnd Hall; simpl.
  - now rewrite app_nil_r.
  - inversion Hall as [| ? ? [Hk Hv] Hall']; subst. simpl in Hk, Hv.
    rewrite Hv, Hk. simpl.
    assert (Hfresh : ~ In k (dict_keys acc)).
    { unfold dict_keys in *. rewrite map_app in Hnd. simpl in Hnd.
      apply NoDup_remove_2 in Hnd. rewrite in_app_iff in Hnd. tauto. }
    rewrite (dict_set_fresh acc k v Hfresh).
    rewrite IH; [now rewrite <- app_assoc | now rewrite <- app_assoc | exact Hall'].
Qed.

Lemma clean_record_idem (it it' : item) :
  clean_record it = Ok it' -> clean_record it' = Ok it'.
Proof.
  unfold clean_record. destruct it as [r | v]; simpl; [| discriminate].
  destruct (clean_fields r []) as [r' | e] eqn:E; simpl; [| discriminate].
  intros [= <-]. simpl.
  destruct (clean_fields_invariant r [] r' E) as [Hnd Hall]; [constructor | constructor |].
  now rewrite (clean_fields_clean r' [] Hnd Hall).
Qed.

Lemma mapM_idem {A : Type} (f : A -> result A) (l l' : list A) :
  (forall a a', f a = Ok a' -> f a' = Ok a') ->
  mapM f l = Ok l' -> mapM f l' = Ok l'.
Proof.
  intros Hf. revert l'. induction l as [| a l IH]; intros l'; simpl.
  - intros [= <-]. reflexivity.
  - destruct (f a) as [a' | e] eqn:Ea; simpl; [| discriminate].
    destruct (mapM f l) as [l0 | e]; simpl; [| discriminate].
    intros [= <-]. simpl. rewrite (Hf _ _ Ea). simpl.
    now rewrite (IH l0 eq_refl).
Qed.

(** C9: cleaning is idempotent.  Whatever is handed to [clean_data], cleaning
    the cleaned data gives the cleaned data again; when the first pass
    raises, so does the composition, with the same exception. *)
Theorem clean_data_idempotent (data : pydata) :
  (cleaned <- clean_data data ;; clean_data cleaned) = clean_data data.
Proof.
  destruct data as [items | r | v]; try reflexivity.
  unfold clean_data.
  destruct (mapM clean_record items) as [cleaned | e] eqn:E; simpl; [| reflexivity].
  now rewrite (mapM_idem clean_record items cleaned clean_record_idem E).
Qed.

(** Cleaning at work: keys are trimmed, lowercased and underscored, digit
    strings become floats, NaN becomes [None], and a second pass changes
    nothing. *)
Example clean_data_twice :
  clean_data (PList [IRecord [(" Total Sales ", VStr "1.5");
                              ("Region", VFloat S754_nan)]])
  = Ok (PList [IRecord [("total_sales", VFloat (of_decimal false 15 (-1)));
                        ("region", VNone)]])
  /\ clean_data (PList [IRecord [("total_sales", VFloat (of_decimal false 15 (-1)));
                                 ("region", VNone)]])
     = Ok (PList [IRecord [("total_sales", VFloat (of_decimal false 15 (-1)));
                           ("region", VNone)]]).
Proof. split; reflexivity. Qed.

End CleanFacts.

(** ** The coverage quotient

    The classifier divides two record counts in binary64 and compares the
    quotient with 0.8.  Both counts are below [2 ^ 53], so they convert
    exactly; the quotient of the two normalised mantissas has 53 or 54 bits
    and is rounded once, to nearest-even. *)

Section CoverageFacts.

Import PyFloat Aux.
Local Open Scope Z_scope.

Lemma fexp_normal (e : Z) : -1021 <= e -> fexp prec emax e = e - 53.
Proof. unfold fexp, emin, prec, emax. lia. Qed.

(** [digits2_pos p] is the bit length of [p]. *)
Lemma digits2_spec (p : positive) :
  2 ^ (Zpos (digits2_pos p) - 1) <= Zpos p < 2 ^ Zpos (digits2_pos p).
Proof.
  induction p as [p IH | p IH |]; cbn [digits2_pos].
  - rewrite Pos2Z.inj_succ.
    replace (Z.succ (Zpos (digits2_pos p)) - 1) with (Z.succ (Zpos (digits2_pos p) - 1)) by lia.
    rewrite !Z.pow_succ_r by lia. lia.
  - rewrite Pos2Z.inj_succ.
    replace (Z.succ (Zpos (digits2_pos p)) - 1) with (Z.succ (Zpos (digits2_pos p) - 1)) by lia.
    rewrite !Z.pow_succ_r by lia. lia.
  - simpl. lia.
Qed.

Lemma digits2_unique (p : positive) (d : Z) :
  2 ^ (d - 1) <= Zpos p < 2 ^ d -> Zpos (digits2_pos p) = d.
Proof.
  intros [Hlo Hhi]. pose proof (digits2_spec p) as [Slo Shi].
  assert (0 < d).
  { destruct (Z_lt_le_dec 0 d); [assumption |].
    destruct (Z.eq_dec d 0) as [-> | ]; [simpl in Hhi; lia |].
    rewrite Z.pow_neg_r in Hhi by lia. lia. }
  destruct (Z_lt_le_dec (Zpos (digits2_pos p)) d).
  - assert (2 ^ Zpos (digits2_pos p) <= 2 ^ (d - 1)) by (apply Z.pow_le_mono_r; lia). lia.
  - destruct (Z_lt_le_dec d (Zpos (digits2_pos p))); [| lia].
    assert (2 ^ d <= 2 ^ (Zpos (digits2_pos p) - 1)) by (apply Z.pow_le_mono_r; lia). lia.
Qed.

Lemma iter_xO_pow (p k : positive) :
  Zpos (Pos.iter xO p k) = Zpos p * 2 ^ Zpos k.
Proof.
  induction k as [| k IH] using Pos.peano_ind.
  - simpl. lia.
  - rewrite Pos.iter_succ, Pos2Z.inj_succ, Z.pow_succ_r by lia.
    rewrite Pos2Z.inj_xO, IH. lia.
Qed.

(** A mantissa of exactly 53 bits with an exponent in range is already
    rounded. *)
(** A 53-bit mantissa in the normal range is already rounded. *)
Lemma binary_round_aux_53 (s : bool) (m : positive) (e : Z) :
  Zpos (digits2_pos m) = 53 -> -1074 <= e <= 971 ->
  binary_round_aux prec emax s (Zpos m) e loc_Exact = S754_finite s m e.
Proof.
  intros Hd He. unfold binary_round_aux, shr_fexp.
  cbn [Zdigits2 shr_record_of_loc]. rewrite Hd.
  replace (fexp prec emax (53 + e) - e) with 0 by (unfold fexp, emin, prec, emax; lia).
  cbn [shr shr_m loc_of_shr_record round_nearest_even Zdigits2 shr_record_of_loc].
  rewrite Hd.
  replace (fexp prec emax (53 + e) - e) with 0 by (unfold fexp, emin, prec, emax; lia).
  cbn [shr shr_m].
  replace (e <=? emax - prec) with true; [reflexivity |].
  symmetry. apply Z.leb_le. unfold emax, prec. lia.
Qed.

(** The float of a positive integer below 2^53: its bits, shifted up to 53. *)
(** An integer below [2 ^ 53] converts exactly, to a normalised 53-bit
    mantissa. *)
Lemma of_Z_small (p : positive) :
  Zpos p < 2 ^ 53 ->
  exists m,
    of_Z (Zpos p) = S754_finite false m (Zpos (digits2_pos p) - 53)
    /\ Zpos m = Zpos p * 2 ^ (53 - Zpos (digits2_pos p))
    /\ Zpos (digits2_pos m) = 53
    /\ 1 <= Zpos (digits2_pos p) <= 53.
Proof.
  intros Hp. pose proof (digits2_spec p) as [Slo Shi].
  assert (Hd : 1 <= Zpos (digits2_pos p) <= 53).
  { split; [lia |]. destruct (Z_lt_le_dec 53 (Zpos (digits2_pos p))); [| lia].
    assert (2 ^ 53 <= 2 ^ (Zpos (digits2_pos p) - 1)) by (apply Z.pow_le_mono_r; lia). lia. }
  unfold of_Z, binary_normalize, binary_round.
  rewrite fexp_normal by (clear - Hd; lia).
  unfold shl_align.
  replace (Zpos (digits2_pos p) + 0 - 53 - 0) with (Zpos (digits2_pos p) - 53) by lia.
  destruct (Zpos (digits2_pos p) - 53) as [| k | k] eqn:Ek; try lia.
  - exists p. assert (H53 : Zpos (digits2_pos p) = 53) by lia.
    rewrite H53.
    split; [| split; [simpl; lia | split; [reflexivity | lia]]].
    apply binary_round_aux_53; [exact H53 | lia].
  - exists (Pos.iter xO p k).
    assert (Hm : Zpos (Pos.iter xO p k) = Zpos p * 2 ^ (53 - Zpos (digits2_pos p))).
    { rewrite iter_xO_pow. f_equal. f_equal. lia. }
    assert (Hdm : Zpos (digits2_pos (Pos.iter xO p k)) = 53).
    { apply digits2_unique. rewrite Hm.
      assert (E1 : 2 ^ (53 - 1)
                   = 2 ^ (Zpos (digits2_pos p) - 1) * 2 ^ (53 - Zpos (digits2_pos p)))
        by (rewrite <- Z.pow_add_r by lia; f_equal; lia).
      assert (E2 : 2 ^ 53
                   = 2 ^ Zpos (digits2_pos p) * 2 ^ (53 - Zpos (digits2_pos p)))
        by (rewrite <- Z.pow_add_r by lia; f_equal; lia).
      assert (0 < 2 ^ (53 - Zpos (digits2_pos p))) by (apply Z.pow_pos_nonneg; lia).
      rewrite E1, E2.
      split; [apply Z.mul_le_mono_nonneg_r; lia | apply Z.mul_lt_mono_pos_r; lia]. }
    split; [| split; [exact Hm | split; [exact Hdm | lia]]].
    replace (Zpos (digits2_pos p) + 0 - 53) with (Z.neg k) by lia.
    apply binary_round_aux_53; [exact Hdm | lia].
Qed.

(** Dividing two normalised numbers: the integer quotient of the
    mantissas, the first shifted by 53 bits, and the place of the
    remainder. *)
Lemma SFdiv_normal (m1 m2 : positive) (e1 e2 : Z) :
  Zpos (digits2_pos m1) = 53 -> Zpos (digits2_pos m2) = 53 ->
  -52 <= e1 <= 0 -> -52 <= e2 <= 0 ->
  SFdiv prec emax (S754_finite false m1 e1) (S754_finite false m2 e2)
  = binary_round_aux prec emax false
      (Zpos m1 * 2 ^ 53 / Zpos m2) (e1 - e2 - 53)
      (new_location (Zpos m2) (Zpos m1 * 2 ^ 53 mod Zpos m2)).
Proof.
  intros H1 H2 He1 He2. unfold SFdiv, SFdiv_core_binary.
  cbn [Zdigits2 xorb]. rewrite H1, H2.
  rewrite fexp_normal by lia.
  replace (Z.min (53 + e1 - (53 + e2) - 53) (e1 - e2)) with (e1 - e2 - 53) by lia.
  replace (e1 - e2 - (e1 - e2 - 53)) with 53 by lia.
  cbv iota beta.
  rewrite Z.shiftl_mul_pow2 by lia.
  unfold Z.div, Z.modulo.
  destruct (Z.div_eucl (Zpos m1 * 2 ^ 53) (Zpos m2)) as [q r]. reflexivity.
Qed.

(** The second rounding step: a mantissa of 53 bits stays, 2^53 becomes
    2^52 one exponent up. *)
Lemma renormalize (m e : Z) :
  2 ^ 52 <= m <= 2 ^ 53 -> -1074 <= e <= 960 ->
  (let '(mrs, e') := shr_fexp prec emax m e loc_Exact in
   match shr_m mrs with
   | Z0 => S754_zero false
   | Zpos p => if e' <=? emax - prec then S754_finite false p e' else S754_infinity false
   | Zneg _ => S754_nan
   end)
  = if m =? 2 ^ 53 then S754_finite false (Z.to_pos (2 ^ 52)) (e + 1)
    else S754_finite false (Z.to_pos m) e.
Proof.
  intros Hm He. destruct (m =? 2 ^ 53) eqn:E.
  - apply Z.eqb_eq in E. subst m. unfold shr_fexp.
    change (Zdigits2 (2 ^ 53)) with 54.
    replace (fexp prec emax (54 + e) - e) with 1 by (unfold fexp, emin, prec, emax; lia).
    cbn [shr shr_record_of_loc iter_pos].
    change (shr_m (shr_1 {| shr_m := 2 ^ 53; shr_r := false; shr_s := false |}))
      with (2 ^ 52).
    change (2 ^ 52) with (Zpos (Z.to_pos (2 ^ 52))) at 1. cbv iota beta.
    replace (e + 1 <=? emax - prec) with true; [reflexivity |].
    symmetry. apply Z.leb_le. unfold emax, prec. lia.
  - apply Z.eqb_neq in E. destruct m as [| p | p]; try lia.
    assert (Hd : Zpos (digits2_pos p) = 53) by (apply digits2_unique; simpl; lia).
    unfold shr_fexp. cbn [Zdigits2]. rewrite Hd.
    replace (fexp prec emax (53 + e) - e) with 0 by (unfold fexp, emin, prec, emax; lia).
    cbn [shr shr_record_of_loc shr_m].
    replace (e <=? emax - prec) with true; [reflexivity |].
    symmetry. apply Z.leb_le. unfold emax, prec. lia.
Qed.

Lemma loc_of_record_of_loc (m : Z) (l : location) :
  loc_of_shr_record (shr_record_of_loc m l) = l
  /\ shr_m (shr_record_of_loc m l) = m.
Proof. destruct l as [| []]; split; reflexivity. Qed.

(** Rounding a quotient of 53 bits. *)
(** Rounding a 53-bit quotient. *)
Lemma round_53 (q e : Z) (l : location) :
  2 ^ 52 <= q < 2 ^ 53 -> -1074 <= e <= 900 ->
  binary_round_aux prec emax false q e l
  = if round_nearest_even q l =? 2 ^ 53
    then S754_finite false (Z.to_pos (2 ^ 52)) (e + 1)
    else S754_finite false (Z.to_pos (round_nearest_even q l)) e.
Proof.
  intros Hq He. unfold binary_round_aux.
  destruct q as [| p | p]; try lia.
  assert (Hd : Zpos (digits2_pos p) = 53) by (apply digits2_unique; simpl; lia).
  unfold shr_fexp at 1. cbn [Zdigits2]. rewrite Hd.
  replace (fexp prec emax (53 + e) - e) with 0 by (unfold fexp, emin, prec, emax; lia).
  cbn [shr].
  destruct (loc_of_record_of_loc (Zpos p) l) as [-> ->].
  apply renormalize; [| lia].
  destruct l as [| []]; cbn [round_nearest_even]; try lia.
  destruct (Z.even (Zpos p)); lia.
Qed.

(** Rounding a quotient of 54 bits: its last bit is the rounding bit. *)
(** Rounding a 54-bit quotient: the last bit is dropped, and an odd
    inexact quotient rounds up. *)
Lemma round_54 (q e : Z) (l : location) :
  2 ^ 53 <= q < 2 ^ 54 -> -1074 <= e <= 900 ->
  exists m,
    binary_round_aux prec emax false q e l
    = (if m =? 2 ^ 53
       then S754_finite false (Z.to_pos (2 ^ 52)) (e + 2)
       else S754_finite false (Z.to_pos m) (e + 1))
    /\ q / 2 <= m <= q / 2 + 1
    /\ (Z.odd q = true -> l <> loc_Exact -> m = q / 2 + 1).
Proof.
  intros Hq He. unfold binary_round_aux.
  destruct q as [| p | p]; try lia.
  assert (Hd : Zpos (digits2_pos p) = 54) by (apply digits2_unique; simpl; lia).
  unfold shr_fexp at 1. cbn [Zdigits2]. rewrite Hd.
  replace (fexp prec emax (54 + e) - e) with 1 by (unfold fexp, emin, prec, emax; lia).
  cbn [shr iter_pos].
  set (mrs := shr_1 (shr_record_of_loc (Zpos p) l)).
  exists (round_nearest_even (shr_m mrs) (loc_of_shr_record mrs)).
  assert (Hm : shr_m mrs = Zpos p / 2
               /\ (Z.odd (Zpos p) = true -> l <> loc_Exact ->
                   loc_of_shr_record mrs = loc_Inexact Gt)).
  { subst mrs. destruct p as [p' | p' |]; [| | simpl in Hq; lia].
    - split.
      + destruct l as [| []]; cbn [shr_record_of_loc shr_1 shr_m];
          rewrite Pos2Z.inj_xI; apply Z.div_unique with 1; lia.
      + intros _ Hl. destruct l as [| []]; [contradiction | | |]; reflexivity.
    - split.
      + destruct l as [| []]; cbn [shr_record_of_loc shr_1 shr_m];
          rewrite Pos2Z.inj_xO; apply Z.div_unique with 0; lia.
      + intros Ho. simpl in Ho. discriminate. }
  destruct Hm as [Hm Hgt].
  assert (Hb : Zpos p / 2 <= round_nearest_even (shr_m mrs) (loc_of_shr_record mrs)
               <= Zpos p / 2 + 1).
  { rewrite Hm. destruct (loc_of_shr_record mrs) as [| []]; cbn [round_nearest_even];
      try lia. destruct (Z.even (Zpos p / 2)); lia. }
  assert (H52 : 2 ^ 52 <= Zpos p / 2 < 2 ^ 53).
  { split; [apply Z.div_le_lower_bound; lia | apply Z.div_lt_upper_bound; lia]. }
  split; [| split; [exact Hb |]].
  - rewrite renormalize by lia.
    replace (e + 1 + 1) with (e + 2) by lia. reflexivity.
  - intros Ho Hl. rewrite (Hgt Ho Hl), Hm. reflexivity.
Qed.

Lemma new_location_Gt (m2 r : Z) :
  0 < m2 -> m2 < 2 * r -> new_location m2 r = loc_Inexact Gt.
Proof.
  intros Hm Hr. unfold new_location, new_location_even, new_location_odd.
  destruct (Z.even m2).
  - replace (r =? 0) with false by (symmetry; apply Z.eqb_neq; lia).
    now replace (2 * r ?= m2) with Gt by (symmetry; apply Z.compare_gt_iff; lia).
  - replace (r =? 0) with false by (symmetry; apply Z.eqb_neq; lia).
    now replace (2 * r + 1 ?= m2) with Gt by (symmetry; apply Z.compare_gt_iff; lia).
Qed.

Lemma new_location_Exact (m2 r : Z) :
  new_location m2 r = loc_Exact -> r = 0.
Proof.
  unfold new_location, new_location_even, new_location_odd.
  destruct (Z.even m2); destruct (r =? 0) eqn:E;
    try (apply Z.eqb_eq in E; auto); try discriminate;
    destruct (2 * r + 1 ?= m2); discriminate.
Qed.

Lemma round_nearest_even_bounds (q : Z) (l : location) :
  q <= round_nearest_even q l <= q + 1.
Proof. destruct l as [| []]; simpl; try lia. destruct (Z.even q); lia. Qed.

Lemma threshold_float : of_decimal false 8 (-1) = S754_finite false (Z.to_pos threshold_mantissa) (-53).
Proof. vm_compute. reflexivity. Qed.

(** Comparing 0.8 with a positive finite number. *)
Lemma leb_threshold (m : positive) (e : Z) :
  SFleb (S754_finite false (Z.to_pos threshold_mantissa) (-53)) (S754_finite false m e)
  = (-53 <? e) || ((e =? -53) && (threshold_mantissa <=? Zpos m)).
Proof.
  unfold SFleb, SFcompare.
  destruct (Z.compare_spec (-53) e) as [E | E | E].
  - subst e. rewrite Z.ltb_irrefl, Z.eqb_refl. cbn [orb andb].
    unfold Z.leb.
    change (threshold_mantissa ?= Zpos m) with (Pos.compare_cont Eq (Z.to_pos threshold_mantissa) m).
    now destruct (Pos.compare_cont Eq (Z.to_pos threshold_mantissa) m).
  - apply Z.ltb_lt in E. now rewrite E.
  - assert (H1 : (-53 <? e) = false) by (apply Z.ltb_ge; lia).
    assert (H2 : (e =? -53) = false) by (apply Z.eqb_neq; lia).
    now rewrite H1, H2.
Qed.

(** [5 * threshold_mantissa = 2 ^ 55 + 2]: at or above four fifths the
    quotient reaches the threshold, or misses it by one with a remainder
    over one half. *)
Lemma threshold_up (C N q0 r0 : Z) :
  0 < N -> C * 2 ^ 53 = N * q0 + r0 -> 0 <= r0 < N -> 4 * N <= 5 * C ->
  threshold_mantissa <= q0 \/ (q0 = threshold_mantissa - 1 /\ N < 2 * r0).
Proof.
  intros HN Hdiv Hr H. unfold threshold_mantissa.
  destruct (Z_le_gt_dec 7205759403792794 q0) as [Hq | Hq]; [now left | right].
  change (2 ^ 53) with 9007199254740992 in Hdiv.
  destruct (Z_le_gt_dec q0 7205759403792792) as [Hq2 | Hq2].
  - assert (N * q0 <= N * 7205759403792792) by (apply Z.mul_le_mono_nonneg_l; lia).
    lia.
  - assert (q0 = 7205759403792793) by lia. subst q0. lia.
Qed.

(** Below four fifths the quotient stays two under the threshold. *)
Lemma threshold_down (C N q0 r0 : Z) :
  0 < N < 2 ^ 50 -> C * 2 ^ 53 = N * q0 + r0 -> 0 <= r0 < N -> 5 * C < 4 * N ->
  q0 + 2 <= threshold_mantissa.
Proof.
  intros HN Hdiv Hr H. unfold threshold_mantissa.
  change (2 ^ 53) with 9007199254740992 in Hdiv.
  change (2 ^ 50) with 1125899906842624 in HN.
  destruct (Z_le_gt_dec (q0 + 2) 7205759403792794) as [Hq | Hq]; [exact Hq |].
  assert (N * 7205759403792793 <= N * q0) by (apply Z.mul_le_mono_nonneg_l; lia).
  lia.
Qed.

Lemma digits2_mono (c n : positive) :
  Zpos c <= Zpos n -> Zpos (digits2_pos c) <= Zpos (digits2_pos n).
Proof.
  intros H. pose proof (digits2_spec c) as [Hc _]. pose proof (digits2_spec n) as [_ Hn].
  destruct (Z_le_gt_dec (Zpos (digits2_pos c)) (Zpos (digits2_pos n))); [assumption |].
  assert (2 ^ Zpos (digits2_pos n) <= 2 ^ (Zpos (digits2_pos c) - 1))
    by (apply Z.pow_le_mono_r; lia).
  lia.
Qed.

Lemma quotient_scaled (C N dc dn : Z) :
  0 < C -> 0 < N -> 1 <= dc <= dn -> dn <= 53 ->
  let A := C * 2 ^ (53 - dc) * 2 ^ 53 in
  let B := N * 2 ^ (53 - dn) in
  A / B = C * 2 ^ (53 + (dn - dc)) / N
  /\ A mod B = (C * 2 ^ (53 + (dn - dc)) mod N) * 2 ^ (53 - dn).
Proof.
  intros HC HN Hd Hn A B.
  assert (Hu : 0 < 2 ^ (53 - dn)) by (apply Z.pow_pos_nonneg; lia).
  assert (HA : A = C * 2 ^ (53 + (dn - dc)) * 2 ^ (53 - dn)).
  { unfold A. rewrite <- !Z.mul_assoc. f_equal.
    rewrite <- !Z.pow_add_r by lia. f_equal. lia. }
  rewrite HA. unfold B. split.
  - apply Z.div_mul_cancel_r; lia.
  - apply Z.mul_mod_distr_r; lia.
Qed.

Lemma leb_high (m : positive) (e : Z) :
  -53 < e -> SFleb (S754_finite false (Z.to_pos threshold_mantissa) (-53)) (S754_finite false m e) = true.
Proof.
  intros H. rewrite leb_threshold.
  now replace (-53 <? e) with true by (symmetry; apply Z.ltb_lt; lia).
Qed.

Lemma leb_low (m : positive) (e : Z) :
  e < -53 -> SFleb (S754_finite false (Z.to_pos threshold_mantissa) (-53)) (S754_finite false m e) = false.
Proof.
  intros H. rewrite leb_threshold.
  replace (-53 <? e) with false by (symmetry; apply Z.ltb_ge; lia).
  now replace (e =? -53) with false by (symmetry; apply Z.eqb_neq; lia).
Qed.

Lemma leb_same (m : Z) (e : Z) :
  e = -53 -> 0 < m ->
  SFleb (S754_finite false (Z.to_pos threshold_mantissa) (-53)) (S754_finite false (Z.to_pos m) e)
  = (threshold_mantissa <=? m).
Proof.
  intros -> H. rewrite leb_threshold, Z2Pos.id by exact H. reflexivity.
Qed.

(** The binary64 test [count / total >= 0.8] on positive counts. *)
Lemma coverage_pos (c n : positive) :
  Zpos c <= Zpos n -> Zpos n < 2 ^ 50 ->
  SFleb (of_decimal false 8 (-1))
        (SFdiv prec emax (of_Z (Zpos c)) (of_Z (Zpos n)))
  = (4 * Zpos n <=? 5 * Zpos c).
Proof.
  intros Hcn Hn.
  assert (H5053 : 2 ^ 50 < 2 ^ 53) by reflexivity.
  destruct (of_Z_small c) as (m1 & E1 & M1 & D1 & R1); [lia |].
  destruct (of_Z_small n) as (m2 & E2 & M2 & D2 & R2); [lia |].
  pose proof (digits2_mono c n Hcn) as Hmono.
  pose proof (digits2_spec c) as [Clo Chi].
  pose proof (digits2_spec n) as [Nlo Nhi].
  rewrite threshold_float, E1, E2, SFdiv_normal by lia.
  rewrite M1, M2.
  set (dc := Zpos (digits2_pos c)) in *. set (dn := Zpos (digits2_pos n)) in *.
  destruct (quotient_scaled (Zpos c) (Zpos n) dc dn) as [Q R]; try lia.
  rewrite Q, R. clear Q R.
  replace (dc - 53 - (dn - 53) - 53) with (- (dn - dc) - 53) by lia.
  remember (dn - dc) as t eqn:Ht.
  assert (Ht0 : 0 <= t) by lia.
  remember (2 ^ (dc - 1)) as P eqn:HP.
  remember (2 ^ t) as W eqn:HW.
  assert (HdcP : 2 ^ dc = 2 * P).
  { replace dc with (1 + (dc - 1)) at 1 by lia. rewrite Z.pow_add_r by lia. now rewrite HP. }
  assert (Hdn1 : 2 ^ (dn - 1) = P * W).
  { replace (dn - 1) with ((dc - 1) + t) by lia. rewrite Z.pow_add_r by lia. now subst. }
  assert (Hdn : 2 ^ dn = 2 * (P * W)).
  { replace dn with (1 + (dn - 1)) at 1 by lia. rewrite Z.pow_add_r by lia. now rewrite Hdn1. }
  assert (HT : 2 ^ (53 + t) = 9007199254740992 * W).
  { rewrite Z.pow_add_r by lia. now subst. }
  rewrite HT, HdcP in *. rewrite Hdn1, Hdn in *.
  assert (HWpos : 1 <= W) by (subst W; pose proof (Z.pow_pos_nonneg 2 t); lia).
  assert (HPpos : 0 < P) by (subst P; apply Z.pow_pos_nonneg; lia).
  assert (Ht52 : t <= 52) by lia.
  remember (2 ^ (53 - dn)) as u eqn:Hu.
  assert (Hupos : 0 < u) by (subst u; apply Z.pow_pos_nonneg; lia).
  remember (Zpos c) as C eqn:HC. remember (Zpos n) as N eqn:HN.
  assert (HCpos : 0 < C) by lia. assert (HNpos : 0 < N) by lia.
  assert (HCW : P * W <= C * W) by (apply Z.mul_le_mono_nonneg_r; lia).
  assert (HCW2 : C * W < 2 * (P * W)).
  { replace (2 * (P * W)) with (2 * P * W) by ring. apply Z.mul_lt_mono_pos_r; lia. }
  replace (C * (9007199254740992 * W)) with (9007199254740992 * (C * W)) by ring.
  pose proof (Z.div_mod (9007199254740992 * (C * W)) N ltac:(lia)) as Hdm.
  pose proof (Z.mod_pos_bound (9007199254740992 * (C * W)) N ltac:(lia)) as Hr.
  remember (9007199254740992 * (C * W) / N) as q eqn:Hq.
  remember ((9007199254740992 * (C * W)) mod N) as r eqn:Hrr.
  assert (Hq52 : 2 ^ 52 <= q).
  { change (2 ^ 52) with 4503599627370496.
    destruct (Z_le_gt_dec 4503599627370496 q) as [L | L]; [exact L |].
    assert (N * q <= N * 4503599627370495) by (apply Z.mul_le_mono_nonneg_l; lia).
    lia. }
  assert (Hq54 : q < 2 ^ 54).
  { change (2 ^ 54) with 18014398509481984.
    destruct (Z_lt_le_dec q 18014398509481984) as [L | L]; [exact L |].
    assert (N * 18014398509481984 <= N * q) by (apply Z.mul_le_mono_nonneg_l; lia).
    lia. }
  assert (Hloc : N < 2 * r -> new_location (N * u) (r * u) = loc_Inexact Gt).
  { intros H. apply new_location_Gt; [lia |].
    replace (2 * (r * u)) with (2 * r * u) by ring. apply Z.mul_lt_mono_pos_r; lia. }
  assert (Hinexact : 0 < r -> new_location (N * u) (r * u) <> loc_Exact).
  { intros H E. apply new_location_Exact in E.
    assert (0 < r * u) by (apply Z.mul_pos_pos; lia). lia. }
  remember (new_location (N * u) (r * u)) as l eqn:Hl.
  change (2 ^ 52) with 4503599627370496 in Hq52.
  change (2 ^ 54) with 18014398509481984 in Hq54.
  change (2 ^ 50) with 1125899906842624 in Hn.
  assert (HtW : (t = 0 /\ W = 1) \/ (t = 1 /\ W = 2) \/ (2 <= t /\ 4 <= W)).
  { destruct (Z.eq_dec t 0) as [-> | T0]; [left; now subst W |].
    destruct (Z.eq_dec t 1) as [-> | T1]; [right; left; now subst W |].
    right; right. split; [lia |]. subst W. change 4 with (2 ^ 2).
    apply Z.pow_le_mono_r; lia. }
  assert (Hk : (threshold_mantissa <=? 4503599627370496) = false) by reflexivity.
  clear E1 E2 M1 M2 D1 D2 HP HW Hq Hrr Hl HdcP Hdn1 Hdn HT Hu.
  destruct (Z_lt_le_dec q 9007199254740992) as [Q53 | Q53].
  - rewrite round_53 by (change (2 ^ 52) with 4503599627370496;
                         change (2 ^ 53) with 9007199254740992; lia).
    change (2 ^ 52) with 4503599627370496. change (2 ^ 53) with 9007199254740992.
    pose proof (round_nearest_even_bounds q l) as Hrne.
    assert (Hup : l = loc_Inexact Gt -> round_nearest_even q l = q + 1)
      by (now intros ->).
    remember (round_nearest_even q l) as rne eqn:Erne.
    destruct HtW as [[-> ->] | [[-> ->] | [T2 W4]]].
    + assert (Hdiv : C * 2 ^ 53 = N * q + r)
        by (change (2 ^ 53) with 9007199254740992; lia).
      assert (Key : (threshold_mantissa <=? rne) = (4 * N <=? 5 * C)).
      { destruct (Z.leb_spec (4 * N) (5 * C)) as [L | L].
        - apply Z.leb_le.
          destruct (threshold_up C N q r) as [U | [U1 U2]]; try lia.
          rewrite (Hup (Hloc U2)). lia.
        - apply Z.leb_gt.
          assert (q + 2 <= threshold_mantissa)
            by (apply (threshold_down C N q r); try assumption;
                change (2 ^ 50) with 1125899906842624; lia).
          lia. }
      destruct (rne =? 9007199254740992) eqn:E.
      * apply Z.eqb_eq in E. rewrite leb_high by lia. rewrite <- Key.
        symmetry. apply Z.leb_le. unfold threshold_mantissa. lia.
      * rewrite leb_same by lia. exact Key.
    + assert (N * q <= N * 9007199254740991) by (apply Z.mul_le_mono_nonneg_l; lia).
      replace (4 * N <=? 5 * C) with false by (symmetry; apply Z.leb_gt; lia).
      destruct (rne =? 9007199254740992) eqn:E.
      * rewrite leb_same by lia. exact Hk.
      * apply leb_low. lia.
    + assert (P * 4 <= P * W) by (apply Z.mul_le_mono_nonneg_l; lia).
      replace (4 * N <=? 5 * C) with false by (symmetry; apply Z.leb_gt; lia).
      destruct (rne =? 9007199254740992) eqn:E; apply leb_low; lia.
  - destruct (round_54 q (- t - 53) l) as (m & Em & Bm & Om);
      [change (2 ^ 53) with 9007199254740992;
       change (2 ^ 54) with 18014398509481984; lia | lia |].
    rewrite Em. clear Em.
    change (2 ^ 52) with 4503599627370496. change (2 ^ 53) with 9007199254740992.
    pose proof (Z.div_mod q 2 ltac:(lia)) as Hq2.
    pose proof (Z.mod_pos_bound q 2 ltac:(lia)) as Hb.
    rewrite Zmod_odd in Hq2, Hb.
    remember (q / 2) as q0 eqn:Eq0.
    destruct HtW as [[-> ->] | [[-> ->] | [T2 W4]]].
    + assert (N * 9007199254740992 <= N * q) by (apply Z.mul_le_mono_nonneg_l; lia).
      replace (4 * N <=? 5 * C) with true by (symmetry; apply Z.leb_le; lia).
      destruct (m =? 9007199254740992); apply leb_high; lia.
    + assert (Key : (threshold_mantissa <=? m) = (4 * N <=? 5 * C)).
      { assert (Hdiv : C * 2 ^ 53 = N * q0 + (C * 9007199254740992 - N * q0))
          by (change (2 ^ 53) with 9007199254740992; lia).
        assert (Hq0 : N * q = 2 * (N * q0) + N * (if Z.odd q then 1 else 0))
          by (rewrite Hq2 at 1; ring).
        destruct (Z.leb_spec (4 * N) (5 * C)) as [L | L].
        - apply Z.leb_le.
          destruct (threshold_up C N q0 (C * 9007199254740992 - N * q0))
            as [U | [U1 U2]]; try assumption; try lia.
          + destruct (Z.odd q); lia.
          + destruct (Z.odd q) eqn:Odd; [| lia].
            rewrite Om; [lia | reflexivity | apply Hinexact; lia].
        - apply Z.leb_gt.
          assert (q0 + 2 <= threshold_mantissa).
          { apply (threshold_down C N q0 (C * 9007199254740992 - N * q0));
              try assumption; try (change (2 ^ 50) with 1125899906842624; lia).
            destruct (Z.odd q); lia. }
          lia. }
      destruct (m =? 9007199254740992) eqn:E.
      * apply Z.eqb_eq in E. rewrite leb_high by lia. rewrite <- Key.
        symmetry. apply Z.leb_le. unfold threshold_mantissa. lia.
      * rewrite leb_same by lia. exact Key.
    + assert (P * 4 <= P * W) by (apply Z.mul_le_mono_nonneg_l; lia).
      replace (4 * N <=? 5 * C) with false by (symmetry; apply Z.leb_gt; lia).
      destruct (m =? 9007199254740992) eqn:E.
      * destruct (Z.eq_dec t 2) as [-> | T].
        -- rewrite leb_same by lia. exact Hk.
        -- apply leb_low. lia.
      * apply leb_low. lia.
Qed.

(** The coverage test is the exact comparison [4 * total <= 5 * count]. *)
Lemma coverage_general (count total : nat) :
  (0 < total)%nat -> Z.of_nat total < 2 ^ 50 -> (count <= total)%nat ->
  coverage count total = Spec.at_least_80_percent count total.
Proof.
  intros Hpos Hbound Hle. unfold coverage, Spec.at_least_80_percent.
  destruct (Z.of_nat total) as [| n | n] eqn:En; try lia.
  destruct (Z.of_nat count) as [| c | c] eqn:Ec; try lia.
  - destruct (of_Z_small n) as (m & E & _); [change (2 ^ 53) with 9007199254740992;
                                              change (2 ^ 50) with 1125899906842624 in Hbound; lia |].
    rewrite E. destruct count; [| lia].
    symmetry. apply Nat.leb_gt. lia.
  - rewrite coverage_pos by lia.
    destruct (Z.leb_spec (4 * Zpos n) (5 * Zpos c)) as [L | L]; symmetry.
    + apply Nat.leb_le. lia.
    + apply Nat.leb_gt. lia.
Qed.

End CoverageFacts.

(** ** The numeric classifier *)

Section NumericFacts.

Import PyStr NlpAnalyzer Aux.

Lemma sall_digit_no_point (s : string) :
  sall is_digit_char s
  = (Spec.count_char Spec.is_point s =? 0)%nat
    && sall (fun c => is_digit_char c || Spec.is_point c) s.
Proof.
  induction s as [| c s IH]; simpl; [reflexivity |].
  rewrite IH. unfold Spec.is_point.
  destruct (Ascii.eqb c ".") eqn:E.
  - apply Ascii.eqb_eq in E. subst c. reflexivity.
  - simpl. rewrite orb_false_r.
    destruct (is_digit_char c); simpl; [reflexivity |].
    now rewrite andb_false_r.
Qed.

Lemma sall_digit_remove_first (s : string) :
  sall is_digit_char (remove_first "." s)
  = (Spec.count_char Spec.is_point s <=? 1)%nat
    && sall (fun c => is_digit_char c || Spec.is_point c) s.
Proof.
  induction s as [| c s IH]; simpl; [reflexivity |].
  unfold Spec.is_point at 1 3.
  destruct (Ascii.eqb c ".") eqn:E; simpl.
  - rewrite sall_digit_no_point, orb_true_r.
    now destruct (Spec.count_char Spec.is_point s).
  - rewrite IH, orb_false_r.
    destruct (is_digit_char c); simpl; [reflexivity |].
    now rewrite andb_false_r.
Qed.

Lemma sall_digit_count (s : string) :
  sall is_digit_char s = true ->
  (0 <? Spec.count_char is_digit_char s)%nat = negb (String.eqb s "").
Proof.
  destruct s as [| c s]; simpl; [reflexivity |].
  intros H. apply andb_prop in H. destruct H as [-> _]. reflexivity.
Qed.

Lemma count_digit_remove_first (s : string) :
  Spec.count_char is_digit_char (remove_first "." s)
  = Spec.count_char is_digit_char s.
Proof.
  induction s as [| c s IH]; simpl; [reflexivity |].
  destruct (Ascii.eqb c ".") eqn:E; simpl.
  - apply Ascii.eqb_eq in E. subst c. reflexivity.
  - now rewrite IH.
Qed.

(** The code's string test is the specification's digit string. *)
Lemma looks_numeric_digit_string (s : string) :
  looks_numeric s = Spec.digit_string s.
Proof.
  unfold looks_numeric, Spec.digit_string, isdigit.
  rewrite <- sall_digit_remove_first, <- count_digit_remove_first.
  destruct (sall is_digit_char (remove_first "." s)) eqn:E.
  - rewrite (sall_digit_count _ E). simpl.
    now destruct (remove_first "." s).
  - simpl. now destruct (remove_first "." s).
Qed.

Lemma is_numeric_value_like (v : value) :
  is_numeric_value v = Spec.numeric_like v.
Proof.
  destruct v; simpl; try reflexivity. apply looks_numeric_digit_string.
Qed.

Lemma numeric_count_records (records : list record) (field : string) :
  numeric_count (map IRecord records) field
  = Ok (Spec.numeric_records field records).
Proof.
  unfold Spec.numeric_records.
  induction records as [| r records IH]; simpl; [reflexivity |].
  rewrite IH. unfold numeric_in. cbn [contains_key getitem bind]. unfold dict_mem.
  destruct (dict_get r field) as [v |]; cbn [bind]; [| reflexivity].
  rewrite is_numeric_value_like. now destruct (Spec.numeric_like v).
Qed.

Lemma coverage_ok_coverage (count total : nat) :
  0 < total -> coverage_ok count total = Ok (coverage count total).
Proof.
  intros H. unfold coverage_ok, PyFloat.int_true_div, PyFloat.div_int.
  destruct (Z.of_nat total =? 0)%Z eqn:E; [apply Z.eqb_eq in E; lia | reflexivity].
Qed.

Lemma verify_candidates_records (records : list record)
    (candidates : list string) :
  0 < List.length records ->
  verify_candidates (map IRecord records) candidates
  = Ok (filter (fun field =>
                  coverage (Spec.numeric_records field records)
                           (List.length records))
               candidates).
Proof.
  intros Hlen. induction candidates as [| field candidates IH]; simpl; [reflexivity |].
  rewrite numeric_count_records. simpl.
  rewrite length_map, coverage_ok_coverage by exact Hlen. simpl.
  rewrite IH. reflexivity.
Qed.

Lemma numeric_records_le (field : string) (records : list record) :
  Spec.numeric_records field records <= List.length records.
Proof. unfold Spec.numeric_records. apply filter_length_le. Qed.

(** C3: a field is classified numeric exactly when its value in the first
    record is a number or a string of digits with at most one decimal
    point, and the fraction of records holding a numeric-typed value for it
    is at least 0.8 as the code computes it in floating point.  That test
    is the exact one, [4 * total <= 5 * count], on every record set of fewer
    than [2 ^ 50] records; 8 numeric records of 10 classify the field and 7
    of 10 do not; the empty record set yields no numeric field. *)
Theorem numeric_classification :
  (forall (sample : record) (others : list record),
      exists fields,
        identify_numeric_fields (map IRecord (sample :: others)) = Ok fields
        /\ forall field,
            In field fields
            <-> (exists v, In (field, v) sample /\ Spec.numeric_like v = true)
                /\ coverage_ok (Spec.numeric_records field (sample :: others))
                               (List.length (sample :: others))
                   = Ok true)
  /\ (forall field records,
         Spec.numeric_records field records <= List.length records)
  /\ (forall count total,
         0 < total -> (Z.of_nat total < 2 ^ 50)%Z -> count <= total ->
         coverage_ok count total = Ok (Spec.at_least_80_percent count total))
  /\ identify_numeric_fields (map IRecord (Spec.numeric_in_first 8)) = Ok ["amount"]
  /\ identify_numeric_fields (map IRecord (Spec.numeric_in_first 7)) = Ok []
  /\ identify_numeric_fields [] = Ok [].
Proof.
  split; [| split; [| split; [| split; [| split]]]];
    [| exact numeric_records_le
     | | vm_compute; reflexivity | vm_compute; reflexivity | reflexivity].
  - intros sample others. eexists. split.
    + unfold identify_numeric_fields. cbn [map items_of bind].
      change (IRecord sample :: map IRecord others)
        with (map IRecord (sample :: others)).
      apply verify_candidates_records. simpl. lia.
    + intros field. rewrite filter_In, in_map_iff.
      rewrite coverage_ok_coverage by (simpl; lia).
      split.
      * intros [[[k v] [Hk Hin]] Hcov]. simpl in Hk. subst k.
        apply filter_In in Hin. destruct Hin as [Hin Hnum]. simpl in Hnum.
        rewrite is_numeric_value_like in Hnum.
        split; [exists v; tauto | now rewrite Hcov].
      * intros [[v [Hin Hnum]] Hcov]. split; [| congruence].
        exists (field, v). split; [reflexivity |].
        apply filter_In. simpl. now rewrite is_numeric_value_like.
  - intros count total Ht Hb Hc.
    rewrite coverage_ok_coverage by lia. f_equal. now apply coverage_general.
Qed.

End NumericFacts.

(** ** The insight engine *)

Section AnalyzeFacts.

Import PyFloat Py NlpAnalyzer.

Context {rt : Runtime}.

Lemma finish_keeps (insights : list string) (x : string) :
  In x insights -> In x (finish insights).
Proof.
  intros H. apply list_of_set_In in H. unfold finish.
  destruct (Nat.ltb _ 3); [apply in_or_app; now left | exact H].
Qed.

Lemma finish_not_empty (insights : list string) : finish insights <> [].
Proof.
  unfold finish. destruct (Nat.ltb (List.length (list_of_set insights)) 3) eqn:E.
  - intros H. apply app_eq_nil in H. destruct H as [_ H]. discriminate.
  - apply Nat.ltb_ge in E. intros H. rewrite H in E. simpl in E. lia.
Qed.

(** The number of distinct strings does not depend on the order in which a
    set lists them. *)
Lemma list_of_set_length (l : list string) :
  List.length (list_of_set l) = List.length (nodup string_dec l).
Proof.
  apply Permutation_length, NoDup_Permutation.
  - apply list_of_set_NoDup.
  - apply NoDup_nodup.
  - intros x. rewrite list_of_set_In, nodup_In. tauto.
Qed.

Lemma fst_bindE_emit (s : string) (k : unit -> emitter unit) :
  fst (bindE (emit s) k) = s :: fst (k tt).
Proof. unfold bindE, emit. now destruct (k tt). Qed.

(** The four basic statements of a field stay in the output whatever
    happens later in its block, a failing [stdev] included. *)
Lemma statistics_block_basics (field : string) (first : float)
    (rest : list float) :
  2 <= List.length rest ->
  exists average more,
    div_len (sum (first :: rest)) (first :: rest) = Ok average
    /\ try_except (statistics_block field first rest)
       = Aux.basic_statements field (sum (first :: rest)) average
           (max first rest) (min first rest) ++ more.
Proof.
  intros Hlen. unfold statistics_block, try_except.
  unfold div_len, div_int.
  destruct (Z.of_nat (List.length (first :: rest)) =? 0)%Z eqn:E;
    [apply Z.eqb_eq in E; simpl in E; lia |].
  eexists. eexists. split; [reflexivity |].
  unfold lift. cbn [bindE app].
  assert (H3 : Nat.leb 3 (List.length (first :: rest)) = true)
    by (apply Nat.leb_le; simpl; lia).
  rewrite H3. cbn [when].
  match goal with
  | |- fst (let '(out', r) := ?m in _) = _ => destruct m as [out r] eqn:Em
  end.
  cbn [fst].
  apply (f_equal fst) in Em. rewrite !fst_bindE_emit in Em. cbn [fst] in Em.
  rewrite <- Em. reflexivity.
Qed.

Lemma flat_map_fields (f : string -> list string) (fields more : list string) :
  flat_map f (fields ++ more) = flat_map f fields ++ flat_map f more.
Proof. apply flat_map_app. Qed.

(** C10: [analyze_data] never returns an empty list.  An input that is not
    a non-empty list gives the one insufficient-data string, an escaping
    exception the one error string, and otherwise the deduplicated insights
    are returned, followed by the recommendations when fewer than 3. *)
Theorem analyze_data_never_empty (data : pydata) :
  analyze_data data <> []
  /\ 1 <= List.length (analyze_data data)
  /\ match data with
     | PList (first :: others) =>
         match gather (first :: others) with
         | Ok insights => analyze_data data = finish insights
         | Raise _ => analyze_data data = [failure]
         end
     | _ => analyze_data data = [insufficient]
     end.
Proof.
  assert (H : analyze_data data <> []).
  { destruct data as [[| first others] | r | v]; simpl; try discriminate.
    destruct (gather (first :: others)); [apply finish_not_empty | discriminate]. }
  split; [exact H | split].
  - destruct (analyze_data data); [contradiction | simpl; lia].
  - destruct data as [[| first others] | r | v]; try reflexivity.
    simpl. now destruct (gather (first :: others)).
Qed.

(** C6: when the generators of a non-empty record set yield fewer than 3
    distinct insight strings, [analyze_data] returns those distinct strings,
    in the order the set lists them, followed by exactly the 5 fixed
    recommendations: that count plus 5 strings in all. *)
Theorem fallback_recommendations (first : item) (others : list item)
    (insights : list string) :
  gather (first :: others) = Ok insights ->
  List.length (nodup string_dec insights) < 3 ->
  exists unique,
    analyze_data (PList (first :: others)) = unique ++ generate_recommendations
    /\ Permutation unique (nodup string_dec insights)
    /\ List.length (analyze_data (PList (first :: others)))
       = List.length (nodup string_dec insights) + 5
    /\ List.length generate_recommendations = 5.
Proof.
  intros Hg Hlt. exists (list_of_set insights).
  assert (Ha : analyze_data (PList (first :: others))
               = list_of_set insights ++ generate_recommendations).
  { cbn [analyze_data]. rewrite Hg. unfold finish.
    rewrite list_of_set_length. apply Nat.ltb_lt in Hlt. now rewrite Hlt. }
  split; [exact Ha | split; [| split; [| reflexivity]]].
  - apply NoDup_Permutation.
    + apply list_of_set_NoDup.
    + apply NoDup_nodup.
    + intros x. rewrite list_of_set_In, nodup_In. tauto.
  - rewrite Ha, length_app, list_of_set_length. reflexivity.
Qed.

(** C1, amended: [analyze_data] always returns.  For an input that is not a
    non-empty list it returns exactly the insufficient-data string.  For a
    non-empty list, an exception that escapes the generators (a first
    element that is not a record, for one) gives exactly the error string;
    otherwise every gathered insight is returned.  Inside a generator an
    error is confined to the field it occurs in: the trend, category and
    complex generators add up the contributions of the fields one by one,
    and a field's four basic statistics survive a failing [stdev]. *)
Theorem analyze_data_fails_soft :
  (forall data,
      match data with
      | PList (_ :: _) => True
      | _ => analyze_data data = ["Insufficient data for analysis."]
      end)
  /\ (forall first others,
         (exists e, gather (first :: others) = Raise e
                    /\ analyze_data (PList (first :: others))
                       = ["Error analyzing data. Please check the input format."])
         \/ (exists insights,
                gather (first :: others) = Ok insights
                /\ analyze_data (PList (first :: others)) = finish insights
                /\ forall x, In x insights
                             -> In x (analyze_data (PList (first :: others)))))
  /\ (forall v others,
         analyze_data (PList (IScalar v :: others))
         = ["Error analyzing data. Please check the input format."])
  /\ (forall data date_fields category_fields fields more,
         generate_trend_insights data date_fields (fields ++ more)
         = generate_trend_insights data date_fields fields
           ++ generate_trend_insights data date_fields more
         /\ generate_category_insights data category_fields (fields ++ more)
            = generate_category_insights data category_fields fields
              ++ generate_category_insights data category_fields more
         /\ generate_complex_insights data date_fields category_fields
              (fields ++ more)
            = generate_complex_insights data date_fields category_fields fields
              ++ generate_complex_insights data date_fields category_fields more)
  /\ (forall field first rest,
         2 <= List.length rest ->
         exists average more,
           div_len (sum (first :: rest)) (first :: rest) = Ok average
           /\ try_except (statistics_block field first rest)
              = Aux.basic_statements field (sum (first :: rest)) average
                  (max first rest) (min first rest) ++ more).
Proof.
  split; [| split; [| split; [| split]]].
  - intros [[| first others] | r | v]; first [reflexivity | exact I].
  - intros first others. cbn [analyze_data].
    destruct (gather (first :: others)) as [insights | e] eqn:E.
    + right. exists insights. repeat split. apply finish_keeps.
    + left. exists e. now split.
  - intros v others. reflexivity.
  - intros data dfs cfs fields more.
    unfold generate_trend_insights, generate_category_insights,
      generate_complex_insights.
    destruct dfs as [| d dfs]; destruct cfs as [| c cfs];
      rewrite ?flat_map_fields; repeat split.
  - apply statistics_block_basics.
Qed.

(** C2: the three-record example.  Cleaning turns the revenue strings into
    floats; revenue is the numeric field and date the date field; the output
    holds the total 340.00 and the average 113.33; the percent change is
    exactly -10, which is neither above 10 nor below -10, so the trend
    statement is the stable one.  The same holds after the financial remap,
    which only reorders the keys. *)
Theorem quarter_example :
  DataProcessor.clean_data Spec.quarter = Ok (PList Spec.quarter_cleaned)
  /\ DataProcessor.detect_financial_structure (PList Spec.quarter_cleaned)
     = Ok (PList Spec.quarter_processed)
  /\ (forall data,
         data = Spec.quarter_cleaned \/ data = Spec.quarter_processed ->
         identify_numeric_fields data = Ok ["revenue"]
         /\ identify_date_fields data = Ok ["date"]
         /\ gather data = Ok Spec.quarter_insights
         /\ In "The total revenue is 340.00." (analyze_data (PList data))
         /\ In "The average revenue is 113.33." (analyze_data (PList data))
         /\ generate_trend_insights data ["date"] ["revenue"]
            = ["The revenue remains relatively stable over the analyzed period (change: -10.0%)."]
         /\ In "The revenue remains relatively stable over the analyzed period (change: -10.0%)."
               (analyze_data (PList data)))
  /\ percent_of (of_Z 90) (of_Z 100) = Ok (of_Z (-10))
  /\ gtb (of_Z (-10)) (of_Z 10) = false
  /\ ltb (of_Z (-10)) (of_Z (-10)) = false.
Proof.
  split; [vm_compute; reflexivity |].
  split; [vm_compute; reflexivity |].
  split; [| repeat split; vm_compute; reflexivity].
  assert (Hq : forall data,
             gather data = Ok Spec.quarter_insights ->
             forall x, In x Spec.quarter_insights ->
                       In x (analyze_data (PList data))).
  { intros data Hg x Hx. destruct data as [| first others]; [discriminate |].
    cbn [analyze_data]. rewrite Hg. now apply finish_keeps. }
  intros data [-> | ->].
  - assert (Hg : gather Spec.quarter_cleaned = Ok Spec.quarter_insights)
      by (vm_compute; reflexivity).
    split; [vm_compute; reflexivity |].
    split; [vm_compute; reflexivity |].
    split; [exact Hg |].
    split; [apply (Hq _ Hg); simpl; tauto |].
    split; [apply (Hq _ Hg); simpl; tauto |].
    split; [vm_compute; reflexivity |].
    apply (Hq _ Hg); simpl; tauto.
  - assert (Hg : gather Spec.quarter_processed = Ok Spec.quarter_insights)
      by (vm_compute; reflexivity).
    split; [vm_compute; reflexivity |].
    split; [vm_compute; reflexivity |].
    split; [exact Hg |].
    split; [apply (Hq _ Hg); simpl; tauto |].
    split; [apply (Hq _ Hg); simpl; tauto |].
    split; [vm_compute; reflexivity |].
    apply (Hq _ Hg); simpl; tauto.
Qed.

End AnalyzeFacts.

(** C1, as stated, fails: a list whose element is not a record is "not a
    list of records", yet the answer is the error string, not the
    insufficient-data string. *)
Lemma non_record_list_reports_error :
  NlpAnalyzer.analyze_data (rt := first_seen) Spec.not_records
  = ["Error analyzing data. Please check the input format."]
  /\ NlpAnalyzer.analyze_data (rt := first_seen) Spec.not_records
     <> ["Insufficient data for analysis."].
Proof. split; [reflexivity | discriminate]. Qed.

(** A value that does not convert, in a field that is numeric in 80% of the
    records, also ends in the error string: the conversion in the
    statistical generator is outside its [try]. *)
Example unparsable_value_reports_error :
  NlpAnalyzer.identify_numeric_fields
    [ IRecord [("revenue", VInt 10)]; IRecord [("revenue", VInt 20)];
      IRecord [("revenue", VInt 30)]; IRecord [("revenue", VInt 40)];
      IRecord [("revenue", VStr "n/a")] ]
  = Ok ["revenue"]
  /\ NlpAnalyzer.analyze_data (rt := first_seen) Spec.one_bad_value
     = ["Error analyzing data. Please check the input format."].
Proof. split; vm_compute; reflexivity. Qed.

(** The fallback at work: two categories give 2 insights, and the 5
    recommendations follow. *)
Lemma fallback_recommendations_two_categories :
  exists unique,
    NlpAnalyzer.analyze_data (rt := first_seen) (PList Spec.two_categories)
    = unique ++ NlpAnalyzer.generate_recommendations
    /\ Permutation unique (nodup string_dec Spec.two_categories_insights)
    /\ List.length
         (NlpAnalyzer.analyze_data (rt := first_seen) (PList Spec.two_categories))
       = List.length (nodup string_dec Spec.two_categories_insights) + 5
    /\ List.length NlpAnalyzer.generate_recommendations = 5.
Proof.
  unfold Spec.two_categories.
  apply (@fallback_recommendations first_seen _ _ Spec.two_categories_insights).
  - vm_compute. reflexivity.
  - vm_compute. lia.
Defined.

(** ** Chart specifications *)

Section ChartFacts.

Import PyFloat Py Frame Visualizer Aux.

Context {pd : Pandas}.

Lemma DataFrame_well_formed (data : list record) : well_formed (DataFrame data).
Proof.
  intros c cells Hin. unfold DataFrame in *. simpl in *.
  apply in_map_iff in Hin. destruct Hin as [k [[= <- <-] _]].
  apply length_map.
Qed.

Lemma column_length (df : frame) (c : string) :
  well_formed df -> In c (columns df) -> List.length (column df c) = nrows df.
Proof.
  intros Hwf Hin. unfold column, columns in *.
  apply dict_mem_keys in Hin. unfold dict_mem in Hin.
  destruct (dict_get (cols df) c) as [cells |] eqn:E; [| discriminate].
  apply dict_get_In in E. eapply Hwf, E.
Qed.

Lemma set_column_well_formed (df : frame) (c : string) (cells : list cell) :
  well_formed df -> List.length cells = nrows df ->
  well_formed (set_column df c cells).
Proof.
  intros Hwf Hlen c' cells' Hin. unfold set_column in Hin. simpl in *.
  apply dict_set_entries in Hin. destruct Hin as [[_ Hv] | Hin].
  - simpl in Hv. now subst.
  - eapply Hwf, Hin.
Qed.

Lemma numeric_columns_incl (df : frame) (c : string) :
  In c (numeric_columns df) -> In c (columns df).
Proof.
  unfold numeric_columns, columns, dict_keys. intros H.
  apply in_map_iff in H. destruct H as [kv [<- H]].
  apply filter_In in H. apply in_map. tauto.
Qed.

Lemma columns_named_incl (terms : list string) (df : frame) (c : string) :
  In c (columns_named terms df) -> In c (columns df).
Proof. unfold columns_named. intros H. apply filter_In in H. tauto. Qed.

Lemma column_numbers_length (df : frame) (c : string) :
  List.length (column_numbers df c) = List.length (column df c).
Proof.
  unfold column_numbers. destruct (dtype_of (column df c)); apply length_map.
Qed.


(** The time-series builder keeps the frame well formed, and its chart
    satisfies the invariant. *)
Lemma time_series_chart_ok (df : frame) :
  well_formed df ->
  well_formed (snd (create_time_series_chart df))
  /\ Forall Spec.chart_invariant (as_list (fst (create_time_series_chart df))).
Proof.
  intros Hwf. unfold create_time_series_chart.
  destruct (date_columns df) as [| date_col dcs] eqn:Ed; [simpl; auto |].
  destruct (numeric_columns df) as [| nc ncs]; [simpl; auto |].
  set (df' := match to_datetime (column df date_col) with
              | Some ts => set_column df date_col (map Time ts)
              | None => df
              end).
  assert (Hwf' : well_formed df').
  { subst df'. destruct (to_datetime (column df date_col)) as [ts |] eqn:Et; [| exact Hwf].
    apply set_column_well_formed; [exact Hwf |].
    rewrite length_map, (to_datetime_length _ _ Et).
    apply column_length; [exact Hwf |].
    apply (columns_named_incl date_terms). fold (date_columns df).
    rewrite Ed. now left. }
  generalize (firstn 3 (nc :: ncs)). intros selected.
  destruct (existsb (String.eqb date_col) selected); simpl; [auto |].
  split; [exact Hwf' |].
  constructor; [| constructor].
  unfold Spec.chart_invariant. simpl.
  apply Forall_forall. intros d Hd. apply in_map_iff in Hd.
  destruct Hd as [col [<- _]]. unfold Spec.series_invariant. simpl.
  split; [discriminate | now rewrite !length_map].
Qed.

Lemma category_chart_ok (df : frame) :
  Forall Spec.chart_invariant (as_list (create_category_comparison_chart df)).
Proof.
  unfold create_category_comparison_chart.
  destruct (ranked_sums df) as [[[cc nc] grouped] |]; simpl; [| constructor].
  constructor; [| constructor].
  unfold Spec.chart_invariant. simpl. constructor; [| constructor].
  unfold Spec.series_invariant. simpl.
  split; [discriminate | now rewrite !length_map].
Qed.

Lemma composition_chart_ok (df : frame) :
  Forall Spec.chart_invariant (as_list (create_composition_chart df)).
Proof.
  unfold create_composition_chart.
  destruct (ranked_sums df) as [[[cc nc] grouped] |]; simpl; [| constructor].
  constructor; [| constructor].
  unfold Spec.chart_invariant. simpl. constructor; [| constructor].
  unfold Spec.series_invariant. simpl.
  split; [discriminate | now rewrite !length_map].
Qed.


Lemma distribution_chart_ok (df : frame) :
  Forall Spec.chart_invariant (as_list (create_distribution_chart df)).
Proof.
  unfold create_distribution_chart.
  destruct (numeric_columns df) as [| c1 [| c2 ncs]]; simpl; try constructor.
  destruct (histograms _ _ _) as [[[edges h1] h2] | e] eqn:E; simpl; [| constructor].
  apply histograms_lengths in E. destruct E as [Le [L1 L2]].
  assert (Lc : List.length (combine edges (tl edges)) = n_bins df).
  { rewrite length_combine. destruct edges as [| e0 rest]; [discriminate |].
    cbn [tl List.length] in *. lia. }
  constructor; [| constructor].
  unfold Spec.chart_invariant. cbn [datasets].
  repeat constructor; unfold Spec.series_invariant; cbn [ds_data chart_type labels];
    try discriminate; rewrite length_map; congruence.
Qed.

Lemma correlation_chart_ok (df : frame) :
  well_formed df ->
  Forall Spec.chart_invariant (as_list (create_correlation_chart df)).
Proof.
  intros Hwf. unfold create_correlation_chart.
  destruct (numeric_columns df) as [| x [| y ncs]] eqn:En; simpl; try constructor;
    [| constructor].
  unfold Spec.chart_invariant. simpl. constructor; [| constructor].
  unfold Spec.series_invariant. simpl. split; [reflexivity |].
  rewrite !column_numbers_length, !column_length; try exact Hwf; try reflexivity;
    apply numeric_columns_incl; rewrite En; simpl; auto.
Qed.

Lemma charts_of_ok (df : frame) :
  well_formed df -> Forall Spec.chart_invariant (charts_of df).
Proof.
  intros Hwf. unfold charts_of.
  destruct (time_series_chart_ok df Hwf) as [Hwf' Hts].
  destruct (create_time_series_chart df) as [time_series df']. simpl in *.
  assert (H4 : Forall Spec.chart_invariant
                 (as_list time_series
                  ++ as_list (create_category_comparison_chart df')
                  ++ as_list (create_distribution_chart df')
                  ++ as_list (create_composition_chart df'))).
  { repeat (apply Forall_app; split);
      auto using category_chart_ok, distribution_chart_ok, composition_chart_ok. }
  destruct (Nat.ltb _ 2); [| exact H4].
  apply Forall_app. split; [exact H4 | now apply correlation_chart_ok].
Qed.

(** C8: every chart [create_visualizations] returns satisfies the chart
    invariant, whatever the input. *)
Theorem charts_satisfy_invariant (data : pydata) :
  Forall Spec.chart_invariant (create_visualizations data).
Proof.
  destruct data as [[| first others] | r | v]; simpl; try constructor.
  destruct (record_of first) as [r |]; [| constructor].
  destruct (records_of others) as [rs |]; [| constructor].
  apply charts_of_ok, DataFrame_well_formed.
Qed.

End ChartFacts.

(** The charts of a small record set: a line chart over three dates, a bar
    chart and a pie chart over three categories; each series has one value
    per label. *)
Example charts_of_small_sales :
  map (fun c => (Visualizer.chart_type c,
                 List.length (Visualizer.labels c),
                 map (fun d => match Visualizer.ds_data d with
                               | Visualizer.Values l => [List.length l]
                               | Visualizer.Points xs ys =>
                                   [List.length xs; List.length ys]
                               end)
                     (Visualizer.datasets c)))
      (Visualizer.create_visualizations (pd := toy_pandas) Spec.small_sales)
  = [ ("line", 3, [[3]]); ("bar", 3, [[3]]); ("pie", 3, [[3]]) ].
Proof. vm_compute. reflexivity. Qed.

(** ** Ranking by sum, and the composition chart *)

Section RankingFacts.

Import PyFloat Py Frame Visualizer Aux.

Context {pd : Pandas}.












(** *** Exact sums: a text column of categories, a column of integers *)

















End RankingFacts.


(** The slices of that chart, evaluated. *)
Example composition_of_nine_products_slices :
  option_map (fun c => (Visualizer.labels c, Visualizer.datasets c))
             (Visualizer.create_composition_chart (pd := toy_pandas)
                (Frame.DataFrame Spec.nine_products))
  = Some (map Visualizer.text ["I"; "H"; "G"; "F"; "E"; "D"; "C"; "Other"],
          [ {| Visualizer.ds_label := "amount";
               Visualizer.ds_data :=
                 Visualizer.Values (map Py.NInt [90; 80; 70; 60; 50; 40; 30; 30]%Z) |} ]).
Proof. vm_compute. reflexivity. Qed.

(** ** The upload check *)

Section UploadFacts.

Import PyStr Upload.

Lemma contains_char (a c : ascii) (s : string) :
  contains (String a EmptyString) (String c s)
  = Ascii.eqb a c || contains (String a EmptyString) s.
Proof.
  cbn [contains prefix]. destruct (ascii_dec a c) as [-> | N].
  - rewrite Ascii.eqb_refl. now destruct s.
  - apply Ascii.eqb_neq in N. now rewrite N.
Qed.

Lemma rsplit1_whole (sep : ascii) (s : string) :
  contains (String sep EmptyString) s = false -> rsplit1 sep s = [s].
Proof.
  induction s as [| c s IH]; [reflexivity |].
  rewrite contains_char. intros H. apply orb_false_elim in H. destruct H as [Hc Hs].
  cbn [rsplit1]. rewrite (IH Hs), Ascii.eqb_sym, Hc. reflexivity.
Qed.

Lemma rsplit1_last (sep : ascii) (stem ext : string) :
  contains (String sep EmptyString) ext = false ->
  rsplit1 sep (stem ++ String sep ext)%string = [stem; ext].
Proof.
  intros H. induction stem as [| c stem IH]; cbn [append rsplit1].
  - now rewrite (rsplit1_whole _ _ H), Ascii.eqb_refl.
  - now rewrite IH.
Qed.

Lemma rsplit1_spec (sep : ascii) (s : string) :
  (contains (String sep EmptyString) s = false /\ rsplit1 sep s = [s])
  \/ (exists stem ext,
        contains (String sep EmptyString) s = true
        /\ rsplit1 sep s = [stem; ext]
        /\ s = (stem ++ String sep ext)%string
        /\ contains (String sep EmptyString) ext = false).
Proof.
  induction s as [| c s IH].
  - left. now split.
  - rewrite contains_char.
    destruct IH as [[Hn Hw] | [stem [ext [Hc [Hs [-> He]]]]]].
    + destruct (Ascii.eqb sep c) eqn:E.
      * right. apply Ascii.eqb_eq in E. subst c. exists EmptyString, s.
        cbn [rsplit1]. rewrite Hw, Ascii.eqb_refl. now repeat split.
      * left. split; [now rewrite Hn |]. cbn [rsplit1].
        now rewrite Hw, Ascii.eqb_sym, E.
    + right. exists (String c stem), ext. rewrite Hc, orb_true_r.
      cbn [rsplit1]. rewrite Hs. now repeat split.
Qed.

(** X1: [validate_file] never raises, the dot test guarding the index; it
    accepts a name exactly when the name has a dot and the text after its
    last dot, lower-cased, is an allowed extension. *)
Theorem validate_file_last_extension (filename : string)
    (allowed_extensions : list string) :
  exists accepted,
    validate_file filename allowed_extensions = Some accepted
    /\ (accepted = true
        <-> exists stem ext,
              filename = (stem ++ "." ++ ext)%string
              /\ contains "." ext = false
              /\ In (lower ext) allowed_extensions).
Proof.
  unfold validate_file.
  destruct (rsplit1_spec "." filename) as [[Hn Hw] | [stem [ext [Hc [Hs [Hf He]]]]]].
  - rewrite Hn. exists false. split; [reflexivity |]. split; [discriminate |].
    intros [stem [ext [Hf _]]]. subst filename.
    change ("." ++ ext)%string with (String "." ext) in Hn.
    assert (C : contains "." (stem ++ String "." ext)%string = true).
    { clear. induction stem as [| c stem IH]; cbn [append].
      - rewrite contains_char. apply orb_true_l.
      - rewrite contains_char, IH. apply orb_true_r. }
    congruence.
  - rewrite Hc, Hs. cbn [nth_error]. eexists. split; [reflexivity |].
    rewrite existsb_exists. split.
    + intros [x [Hx Ex]]. apply String.eqb_eq in Ex. subst x.
      exists stem, ext. now repeat split.
    + intros [stem' [ext' [Hf' [He' Hin]]]].
      assert (E : [stem; ext] = [stem'; ext']).
      { rewrite <- Hs, Hf'. exact (rsplit1_last "." stem' ext' He'). }
      injection E as -> ->. exists (lower ext'). split; [exact Hin |].
      apply String.eqb_refl.
Qed.

End UploadFacts.

Example upload_names :
  map (fun name => Upload.validate_file name Upload.ALLOWED_EXTENSIONS)
      ["sales.csv"; "Report.Final.XLSX"; ".json"; "csv"; "notes."; "data.csv ";
       "archive.tar.gz"]
  = map Some [true; true; true; false; false; false; false].
Proof. reflexivity. Qed.

(** ** The cleaner: what its output looks like *)

Section CleanedFacts.

Import PyStr PyFloat DataProcessor Aux.

Ltac by_cases_on c :=
  destruct c as [[] [] [] [] [] [] [] []]; vm_compute; congruence.

Lemma lower_key_char (c : ascii) : lower_char (key_char c) = key_char c.
Proof. by_cases_on c. Qed.

Lemma key_char_no_space (c : ascii) : Ascii.eqb " " (key_char c) = false.
Proof. by_cases_on c. Qed.

Lemma clean_key_normal (k : string) : normal_key (clean_key k).
Proof.
  unfold normal_key. rewrite !clean_key_smap. repeat split.
  - unfold strip at 1. rewrite head_ok_lstrip.
    + apply rstrip_smap. apply rstrip_idem.
    + apply head_ok_smap. apply head_ok_rstrip. apply lstrip_head_ok.
  - unfold lower. rewrite smap_smap. apply smap_ext. apply lower_key_char.
  - induction (strip k) as [| c s IH]; [reflexivity |].
    cbn [smap]. now rewrite contains_char, key_char_no_space, IH.
Qed.

Lemma clean_entry_normal (kv : string * value) :
  clean_entry kv -> normal_key (fst kv) /\ normal_value (snd kv).
Proof.
  intros [Hk Hv]. split.
  - rewrite <- Hk. apply clean_key_normal.
  - destruct (snd kv) as [| b | n | f | s]; simpl; trivial.
    + unfold clean_value in Hv. simpl in Hv.
      destruct (is_nan f); [discriminate | reflexivity].
    + unfold clean_value in Hv. simpl in Hv.
      destruct (looks_numeric s); [| reflexivity].
      destruct (float_of_str s); discriminate.
Qed.

Lemma clean_fields_last (fields clean_item r : record) (k : string) :
  clean_fields fields clean_item = Ok r ->
  match fold_left (fun found kv =>
                     if String.eqb (clean_key (fst kv)) k
                     then Some (snd kv) else found)
                  fields None with
  | Some v => clean_value v = Ok match dict_get r k with Some v' => v' | None => VNone end
              /\ dict_mem r k = true
  | None => dict_get r k = dict_get clean_item k
  end.
Proof.
  revert clean_item.
  assert (Gen : forall found clean_item,
             clean_fields fields clean_item = Ok r ->
             match fold_left (fun found kv =>
                                if String.eqb (clean_key (fst kv)) k
                                then Some (snd kv) else found)
                             fields found with
             | Some v =>
                 (found = Some v /\ dict_get r k = dict_get clean_item k)
                 \/ (exists v', clean_value v = Ok v' /\ dict_get r k = Some v')
             | None => found = None /\ dict_get r k = dict_get clean_item k
             end).
  { induction fields as [| [key v] fields IH]; intros found clean_item H.
    - cbn [clean_fields] in H. injection H as <-. cbn [fold_left].
      destruct found; [left |]; now split.
    - cbn [clean_fields] in H.
      destruct (clean_value v) as [v' |] eqn:Ev; [| discriminate].
      cbn [bind] in H. cbn [fold_left fst snd].
      specialize (IH (if String.eqb (clean_key key) k then Some v else found)
                     _ H).
      destruct (fold_left _ fields _) as [w |].
      + destruct IH as [[Hf Hg] | IH]; [| now right].
        destruct (String.eqb (clean_key key) k) eqn:E.
        * injection Hf as <-. right. exists v'. split; [exact Ev |].
          apply String.eqb_eq in E. subst k. rewrite Hg.
          apply dict_get_set_same.
        * left. split; [exact Hf |]. rewrite Hg.
          apply dict_get_set_other. now apply String.eqb_neq.
      + destruct IH as [Hf Hg].
        destruct (String.eqb (clean_key key) k) eqn:E; [discriminate |].
        split; [exact Hf |]. rewrite Hg.
        apply dict_get_set_other. now apply String.eqb_neq. }
  intros clean_item H. specialize (Gen None clean_item H).
  destruct (fold_left _ fields None) as [w |].
  - destruct Gen as [[Hf _] | [v' [Hv Hg]]]; [discriminate |].
    unfold dict_mem. rewrite Hg. now split.
  - tauto.
Qed.


Lemma clean_fields_length (fields clean_item r : record) :
  clean_fields fields clean_item = Ok r ->
  List.length r <= List.length clean_item + List.length fields.
Proof.
  revert clean_item. induction fields as [| [key v] fields IH]; intros clean_item H.
  - cbn [clean_fields] in H. injection H as <-. simpl. lia.
  - cbn [clean_fields] in H. destruct (clean_value v) as [v' |]; [| discriminate].
    cbn [bind] in H. apply IH in H.
    pose proof (dict_set_length clean_item (clean_key key) v'). simpl. lia.
Qed.

Lemma mapM_Ok_iff {A B : Type} (f : A -> result B) (l : list A) :
  (exists l', mapM f l = Ok l') <-> (forall a, In a l -> exists b, f a = Ok b).
Proof.
  induction l as [| a l IH]; cbn [mapM].
  - split; [intros _ a [] | intros _; now eexists].
  - split.
    + intros [l' H] x [<- | Hx].
      * destruct (f a) as [b | e]; [now eexists | discriminate].
      * destruct (f a) as [b | e]; [| discriminate]. cbn [bind] in H.
        destruct (mapM f l) as [bs | e]; [| discriminate].
        apply (proj1 IH); [now eexists | exact Hx].
    + intros H. destruct (H a (or_introl eq_refl)) as [b Hb]. rewrite Hb.
      cbn [bind].
      destruct (proj2 IH (fun x Hx => H x (or_intror Hx))) as [bs Hbs].
      rewrite Hbs. now eexists.
Qed.

Lemma mapM_Forall2 {A B : Type} (f : A -> result B) (l : list A) (l' : list B) :
  mapM f l = Ok l' -> Forall2 (fun a b => f a = Ok b) l l'.
Proof.
  revert l'. induction l as [| a l IH]; cbn [mapM]; intros l' H.
  - injection H as <-. constructor.
  - destruct (f a) as [b |] eqn:Ea; [| discriminate]. cbn [bind] in H.
    destruct (mapM f l) as [bs |]; [| discriminate]. cbn [bind] in H.
    injection H as <-. constructor; [exact Ea | now apply IH].
Qed.


Lemma Forall2_impl {A B : Type} (P Q : A -> B -> Prop) (l : list A) (l' : list B) :
  (forall a b, P a b -> Q a b) -> Forall2 P l l' -> Forall2 Q l l'.
Proof. intros H F. induction F; constructor; auto. Qed.

Lemma clean_record_inv (it it' : item) :
  clean_record it = Ok it' ->
  exists r r', it = IRecord r /\ it' = IRecord r' /\ clean_fields r [] = Ok r'.
Proof.
  unfold clean_record. destruct it as [r | v]; cbn [items_of bind]; [| discriminate].
  destruct (clean_fields r []) as [r' |] eqn:E; [| discriminate].
  cbn [bind]. intros [= <-]. now exists r, r'.
Qed.

(** X2: every record [clean_data] returns has distinct keys, each without
    surrounding whitespace, capital letters or space characters, and holds
    no NaN and no string that passes the digit test; the records come in
    the order given, one for one. *)
Theorem clean_data_normal_form (items : list item) :
  match clean_data (PList items) with
  | Ok (PList cleaned) =>
      Forall2 (fun it it' =>
                 exists r r',
                   it = IRecord r /\ it' = IRecord r'
                   /\ NoDup (dict_keys r')
                   /\ forall k v, In (k, v) r' -> normal_key k /\ normal_value v)
              items cleaned
  | Ok _ => False
  | Raise e => True
  end.
Proof.
  cbn [clean_data]. destruct (mapM clean_record items) as [cleaned |] eqn:E;
    cbn [bind]; [| exact I].
  apply mapM_Forall2 in E. revert E. apply Forall2_impl. intros it it' H.
  apply clean_record_inv in H. destruct H as [r [r' [-> [-> H]]]].
  destruct (clean_fields_invariant r [] r' H) as [N F]; [constructor | constructor |].
  rewrite Forall_forall in F.
  exists r, r'. split; [reflexivity |]. split; [reflexivity |].
  split; [exact N |]. intros k v Hin.
  exact (clean_entry_normal (k, v) (F _ Hin)).
Qed.

(** X3: when several fields of a record clean to the same key, the value of
    the last one is kept: a cleaned record maps each key to the cleaned value
    of the last source field with that cleaned key, holds no other key, and
    so never has more fields than its source. *)
Theorem clean_data_last_field_wins (items : list item) :
  match clean_data (PList items) with
  | Ok (PList cleaned) =>
      Forall2 (fun it it' =>
                 exists r r',
                   it = IRecord r /\ it' = IRecord r'
                   /\ List.length r' <= List.length r
                   /\ forall k,
                        match last_named k r with
                        | Some v => exists v', clean_value v = Ok v'
                                               /\ dict_get r' k = Some v'
                        | None => dict_get r' k = None
                        end)
              items cleaned
  | Ok _ => False
  | Raise e => True
  end.
Proof.
  cbn [clean_data]. destruct (mapM clean_record items) as [cleaned |] eqn:E;
    cbn [bind]; [| exact I].
  apply mapM_Forall2 in E. revert E. apply Forall2_impl. intros it it' H.
  apply clean_record_inv in H. destruct H as [r [r' [-> [-> H]]]].
  exists r, r'. repeat split; try reflexivity.
  - apply clean_fields_length in H. simpl in H. exact H.
  - intros k. pose proof (clean_fields_last r [] r' k H) as L.
    unfold last_named. destruct (fold_left _ r None) as [v |].
    + destruct L as [Hv Hm]. unfold dict_mem in Hm.
      destruct (dict_get r' k) as [v' |]; [| discriminate]. now exists v'.
    + exact L.
Qed.


Lemma clean_form_set (acc : record) (k : string) (v : value) :
  clean_record_form acc -> clean_key k = k -> clean_value v = Ok v ->
  clean_record_form (dict_set acc k v).
Proof.
  intros [N F] Hk Hv. split; [now apply dict_set_NoDup |].
  apply Forall_forall. intros kv Hin. apply dict_set_entries in Hin.
  destruct Hin as [[Ek Ev] | Hin].
  - split; congruence.
  - rewrite Forall_forall in F. now apply F.
Qed.

Lemma clean_entry_get (r : record) (k : string) (v : value) :
  Forall clean_entry r -> dict_get r k = Some v ->
  clean_key k = k /\ clean_value v = Ok v.
Proof.
  intros F H. apply dict_get_In in H. rewrite Forall_forall in F.
  exact (F _ H).
Qed.

Lemma copy_mapped_clean (fm : dict string) (r acc m : record) :
  (forall c, In c (map snd fm) -> clean_key c = c) ->
  Forall clean_entry r -> clean_record_form acc ->
  copy_mapped fm (IRecord r) acc = Ok m -> clean_record_form m.
Proof.
  intros Hfm Hr. revert acc. induction fm as [| [o c] fm IH]; intros acc Hacc H.
  - cbn [copy_mapped] in H. now injection H as <-.
  - cbn [copy_mapped contains_key getitem bind] in H. unfold dict_mem in H.
    destruct (dict_get r o) as [v |] eqn:Ho; cbn [bind] in H.
    + apply (IH (fun c' Hc' => Hfm c' (or_intror Hc')) _ (clean_form_set _ _ _ Hacc
              (Hfm c (or_introl eq_refl)) (proj2 (clean_entry_get _ _ _ Hr Ho))) H).
    + apply (IH (fun c' Hc' => Hfm c' (or_intror Hc')) _ Hacc H).
Qed.

Lemma copy_unmapped_clean (fm : dict string) (fields acc : record) :
  Forall clean_entry fields -> clean_record_form acc ->
  clean_record_form (copy_unmapped fm fields acc).
Proof.
  revert acc. induction fields as [| [k v] fields IH]; intros acc F Hacc;
    cbn [copy_unmapped]; [exact Hacc |].
  inversion F as [| ? ? [Hk Hv] F']; subst. apply IH; [exact F' |].
  destruct (dict_mem fm k); [exact Hacc | now apply clean_form_set].
Qed.

Lemma rebuilt_clean (fm : dict string) (r : record) :
  (forall c, In c (map snd fm) -> clean_key c = c) ->
  Forall clean_entry r -> clean_record_form (Spec.rebuilt fm r).
Proof.
  intros Hfm Hr. unfold Spec.rebuilt, normalize_item.
  destruct (copy_mapped_record fm r []) as [m [Hm _]]. rewrite Hm.
  cbn [bind items_of]. apply copy_unmapped_clean; [exact Hr |].
  apply (copy_mapped_clean fm r [] m Hfm Hr); [| exact Hm].
  split; constructor.
Qed.

Lemma build_mapping_values (keys : list string) (targets : dict (list string))
    (fm : dict string) (c : string) :
  In c (map snd (build_mapping keys targets fm)) ->
  In c (map snd fm) \/ In c (map fst targets).
Proof.
  revert fm. induction targets as [| [t names] targets IH]; intros fm H;
    cbn [build_mapping] in H; [now left |].
  apply IH in H. destruct H as [H | H]; [| right; now right].
  destruct (first_match keys names); [| now left].
  apply dict_set_values_incl in H. destruct H as [-> | H]; [right; now left | now left].
Qed.

Lemma detect_mapping_canonical (sample : record) (c : string) :
  In c (map snd (detect_mapping sample)) -> clean_key c = c.
Proof.
  intros H. apply build_mapping_values in H. destruct H as [[] | H].
  simpl in H. decompose [or] H; subst; try reflexivity. contradiction.
Qed.

Lemma clean_records_fixed (records : list record) :
  Forall clean_record_form records ->
  mapM clean_record (map IRecord records) = Ok (map IRecord records).
Proof.
  induction 1 as [| r records [N F] _ IH]; [reflexivity |].
  cbn [map mapM]. unfold clean_record at 1. cbn [items_of bind].
  rewrite (clean_fields_clean r []) by assumption.
  cbn [bind app]. now rewrite IH.
Qed.

Lemma cleaned_records (items cleaned : list item) :
  mapM clean_record items = Ok cleaned ->
  exists records,
    cleaned = map IRecord records
    /\ List.length records = List.length items
    /\ Forall clean_record_form records.
Proof.
  revert cleaned. induction items as [| it items IH]; cbn [mapM]; intros cleaned H.
  - injection H as <-. exists []. repeat split; constructor.
  - destruct (clean_record it) as [it' |] eqn:E; [| discriminate]. cbn [bind] in H.
    destruct (mapM clean_record items) as [rest |]; [| discriminate].
    cbn [bind] in H. injection H as <-.
    destruct (IH rest eq_refl) as [records [-> [L F]]].
    apply clean_record_inv in E. destruct E as [r [r' [-> [-> E]]]].
    destruct (clean_fields_invariant r [] r' E) as [N C];
      [constructor | constructor |].
    exists (r' :: records). split; [reflexivity |].
    split; [simpl; lia |]. constructor; [now split | exact F].
Qed.

(** X4: the two passes of the intake compose: on whatever [clean_data]
    returns, [detect_financial_structure] succeeds, keeps the number of
    records, and returns data that [clean_data] leaves unchanged, so the
    renaming to canonical keys never undoes the cleaning. *)
Theorem remap_keeps_data_clean (data : pydata) :
  match clean_data data with
  | Ok cleaned =>
      exists processed,
        detect_financial_structure cleaned = Ok processed
        /\ clean_data processed = Ok processed
        /\ match cleaned, processed with
           | PList before, PList after => List.length after = List.length before
           | _, _ => processed = cleaned
           end
  | Raise _ => True
  end.
Proof.
  destruct data as [items | r | v];
    [| eexists; repeat split; reflexivity | eexists; repeat split; reflexivity].
  cbn [clean_data]. destruct (mapM clean_record items) as [cleaned |] eqn:E;
    cbn [bind]; [| exact I].
  destruct (cleaned_records _ _ E) as [records [-> [_ F]]].
  destruct records as [| sample others].
  - exists (PList []). repeat split; reflexivity.
  - cbn [map detect_financial_structure items_of bind].
    change (IRecord sample :: map IRecord others)
      with (map IRecord (sample :: others)).
    destruct (Nat.ltb (List.length (detect_mapping sample)) 2).
    + eexists. split; [reflexivity |]. split; [| reflexivity].
      cbn [clean_data]. now rewrite (clean_records_fixed _ F).
    + rewrite normalize_records. cbn [bind]. eexists. split; [reflexivity |].
      split; [| now rewrite !length_map].
      cbn [clean_data]. rewrite clean_records_fixed; [reflexivity |].
      apply Forall_forall. intros r' Hr'. apply in_map_iff in Hr'.
      destruct Hr' as [r [<- Hr]]. rewrite Forall_forall in F.
      apply rebuilt_clean; [apply detect_mapping_canonical | exact (proj2 (F r Hr))].
Qed.

End CleanedFacts.

(** ** When the cleaner raises *)

Section CleanerErrors.

Import PyStr PyFloat DataProcessor Aux.

Ltac by_bits c :=
  destruct c as [[] [] [] [] [] [] [] []]; try reflexivity; try discriminate.

Lemma numeric_not_space (c : ascii) : numeric_char c = true -> is_space c = false.
Proof. by_bits c. Qed.



Lemma decimal_is_numeric (c : ascii) :
  is_decimal_char c = true -> numeric_char c = true.
Proof. by_bits c. Qed.


Lemma rstrip_numeric (s : string) : sall numeric_char s = true -> rstrip s = s.
Proof.
  induction s as [| c s IH]; [reflexivity |].
  cbn [sall rstrip]. intros H. apply andb_prop in H. destruct H as [Hc Hs].
  rewrite (IH Hs). destruct s; [now rewrite (numeric_not_space c Hc) | reflexivity].
Qed.

Lemma strip_numeric (s : string) : sall numeric_char s = true -> strip s = s.
Proof.
  intros H. unfold strip.
  assert (L : lstrip s = s).
  { destruct s as [| c s]; [reflexivity |]. cbn [sall] in H.
    apply andb_prop in H. cbn [lstrip]. now rewrite (numeric_not_space c (proj1 H)). }
  rewrite L. now apply rstrip_numeric.
Qed.





Lemma after_digits_start (s : string) : starts_decimal (after_digits s) = false.
Proof.
  induction s as [| c s IH]; [reflexivity |].
  cbn [after_digits]. destruct (is_decimal_char c) eqn:E; [exact IH |].
  cbn [starts_decimal]. exact E.
Qed.











Lemma count_digits_point : Spec.count_char is_digit_char "." = 0.
Proof. reflexivity. Qed.




Lemma clean_fields_Ok (fields clean_item : record) :
  (forall k v, In (k, v) fields -> exists v', clean_value v = Ok v') ->
  exists r, clean_fields fields clean_item = Ok r.
Proof.
  revert clean_item. induction fields as [| [k v] fields IH]; intros clean_item H;
    cbn [clean_fields]; [now eexists |].
  destruct (H k v (or_introl eq_refl)) as [v' Hv]. rewrite Hv. cbn [bind].
  apply IH. intros k' w Hin. apply (H k' w). now right.
Qed.


End CleanerErrors.

Example superscript_digit_raises :
  DataProcessor.clean_data
    (PList [IRecord [("area", VStr (String (ascii_of_N 53) (String (ascii_of_N 178) "")))]])
  = Raise ValueError
  /\ DataProcessor.clean_data (PList [IRecord [("area", VStr "5.")]])
     = Ok (PList [IRecord [("area", VFloat (PyFloat.of_Z 5))]])
  /\ DataProcessor.clean_data (PList [IScalar (VInt 5)]) = Raise AttributeError.
Proof. repeat split; vm_compute; reflexivity. Qed.

(** ** From the remap to the classifiers *)

Section CanonicalNames.

Import PyStr DataProcessor NlpAnalyzer.

Lemma dict_set_keeps {A : Type} (d : dict A) (k k' : string) (v : A) :
  dict_mem d k = true -> dict_mem (dict_set d k' v) k = true.
Proof.
  intros H. destruct (string_dec k' k) as [-> | N].
  - unfold dict_mem. now rewrite dict_get_set_same.
  - now rewrite dict_mem_set_other.
Qed.

Lemma copy_unmapped_keeps (fm : dict string) (fields acc : record) (k : string) :
  dict_mem acc k = true -> dict_mem (copy_unmapped fm fields acc) k = true.
Proof.
  revert acc. induction fields as [| [k' v] fields IH]; intros acc H;
    cbn [copy_unmapped]; [exact H |].
  apply IH. destruct (dict_mem fm k'); [exact H | now apply dict_set_keeps].
Qed.

Lemma build_mapping_keys (keys : list string) (targets : dict (list string))
    (fm : dict string) (o : string) :
  In o (dict_keys (build_mapping keys targets fm)) ->
  In o (dict_keys fm) \/ In o keys.
Proof.
  revert fm. induction targets as [| [t names] targets IH]; intros fm H;
    cbn [build_mapping] in H; [now left |].
  apply IH in H. destruct H as [H | H]; [| now right].
  unfold first_match in H.
  destruct (find _ keys) as [key |] eqn:E; [| now left].
  rewrite dict_keys_set in H. destruct (dict_mem fm key); [now left |].
  apply in_app_or in H. destruct H as [H | [<- | []]]; [now left |].
  right. apply find_some in E. tauto.
Qed.

Lemma rebuilt_has_canonical (sample : record) (c : string) :
  In c (map snd (detect_mapping sample)) ->
  In c (dict_keys (Spec.rebuilt (detect_mapping sample) sample)).
Proof.
  intros H. apply in_map_iff in H. destruct H as [[o c'] [Hc Hin]].
  cbn [snd] in Hc. subst c'.
  assert (Ho : In o (dict_keys sample)).
  { assert (K : In o (dict_keys (detect_mapping sample)))
      by (apply in_map_iff; now exists (o, c)).
    apply build_mapping_keys in K. now destruct K as [[] | K]. }
  destruct (dict_get sample o) as [v |] eqn:Ev;
    [| apply dict_get_None in Ev; contradiction].
  apply dict_mem_keys. unfold Spec.rebuilt, normalize_item.
  destruct (copy_mapped_record (detect_mapping sample) sample [])
    as [m [Hm [_ [Hset _]]]].
  rewrite Hm. cbn [bind items_of]. apply copy_unmapped_keeps.
  unfold dict_mem.
  now rewrite (Hset (proj2 (detect_mapping_NoDup sample)) o c v Hin Ev).
Qed.

(** X6: the remap and the classifiers agree on the canonical names: once a
    record set is remapped, a field renamed to [date] is among the date
    fields the analyzer identifies, and a field renamed to [category] among
    its category fields. *)
Theorem canonical_names_are_recognised (sample : record) (others : list record) :
  2 <= List.length (detect_mapping sample) ->
  exists processed date_fields category_fields,
    detect_financial_structure (Spec.records_data (sample :: others))
    = Ok (Spec.records_data processed)
    /\ List.length processed = List.length (sample :: others)
    /\ identify_date_fields (map IRecord processed) = Ok date_fields
    /\ identify_category_fields (map IRecord processed) = Ok category_fields
    /\ (In "date" (map snd (detect_mapping sample)) -> In "date" date_fields)
    /\ (In "category" (map snd (detect_mapping sample)) ->
        In "category" category_fields).
Proof.
  intros H.
  exists (map (Spec.rebuilt (detect_mapping sample)) (sample :: others)).
  eexists. eexists. split; [| split; [| split; [| split; [| split]]]].
  - unfold Spec.records_data. cbn [map detect_financial_structure items_of bind].
    replace (Nat.ltb (List.length (detect_mapping sample)) 2) with false
      by (symmetry; apply Nat.ltb_ge; exact H).
    change (IRecord sample :: map IRecord others)
      with (map IRecord (sample :: others)).
    rewrite normalize_records. reflexivity.
  - apply length_map.
  - reflexivity.
  - reflexivity.
  - intros Hd. apply filter_In. split; [| reflexivity].
    now apply rebuilt_has_canonical.
  - intros Hc. apply filter_In. split; [| reflexivity].
    now apply rebuilt_has_canonical.
Qed.

End CanonicalNames.

Lemma canonical_names_in_sales_and_date :
  2 <= List.length (DataProcessor.detect_mapping
                      [("Sales", VInt 10); ("order_date", VStr "2023-01");
                       ("units", VInt 3)])
  /\ exists processed date_fields category_fields,
      DataProcessor.detect_financial_structure
        (Spec.records_data ([("Sales", VInt 10); ("order_date", VStr "2023-01");
                             ("units", VInt 3)]
                            :: [ [("Sales", VInt 20); ("units", VInt 5)] ]))
      = Ok (Spec.records_data processed)
      /\ List.length processed = 2
      /\ NlpAnalyzer.identify_date_fields (map IRecord processed) = Ok date_fields
      /\ NlpAnalyzer.identify_category_fields (map IRecord processed)
         = Ok category_fields
      /\ (In "date" (map snd (DataProcessor.detect_mapping
                                [("Sales", VInt 10); ("order_date", VStr "2023-01");
                                 ("units", VInt 3)])) -> In "date" date_fields)
      /\ (In "category" (map snd (DataProcessor.detect_mapping
                                    [("Sales", VInt 10); ("order_date", VStr "2023-01");
                                     ("units", VInt 3)])) ->
          In "category" category_fields).
Proof.
  split; [vm_compute; lia |].
  apply (canonical_names_are_recognised
           [("Sales", VInt 10); ("order_date", VStr "2023-01"); ("units", VInt 3)]
           [ [("Sales", VInt 20); ("units", VInt 5)] ]).
  vm_compute. lia.
Defined.

(** ** The order of the fields after the remap *)

Section RemapOrder.

Import DataProcessor.

Lemma copy_mapped_order (fm : dict string) (r acc m : record) :
  NoDup (map snd fm) ->
  (forall c, In c (map snd fm) -> ~ In c (dict_keys acc)) ->
  copy_mapped fm (IRecord r) acc = Ok m ->
  dict_keys m
  = dict_keys acc ++ map snd (filter (fun oc => dict_mem r (fst oc)) fm).
Proof.
  revert acc. induction fm as [| [o c] fm IH]; intros acc N Hacc H.
  - cbn [copy_mapped] in H. injection H as <-. cbn. now rewrite app_nil_r.
  - cbn [map snd] in N. inversion N as [| ? ? Hc N']; subst.
    cbn [copy_mapped contains_key getitem bind] in H. cbn [filter fst].
    unfold dict_mem in H |- *.
    destruct (dict_get r o) as [v |]; cbn [bind] in H.
    + assert (Fresh : forall c', In c' (map snd fm) ->
                        ~ In c' (dict_keys (dict_set acc c v))).
      { intros c' Hc' Hin.
        rewrite (dict_set_fresh acc c v) in Hin by (apply Hacc; now left).
        unfold dict_keys in Hin. rewrite map_app in Hin.
        apply in_app_or in Hin. destruct Hin as [Hin | [<- | []]].
        - apply (Hacc c'); [now right | exact Hin].
        - contradiction. }
      rewrite (IH _ N' Fresh H).
      rewrite (dict_set_fresh acc c v) by (apply Hacc; now left).
      unfold dict_keys. rewrite map_app. cbn [map fst snd].
      now rewrite <- app_assoc.
    + apply (IH _ N'); [| exact H].
      intros c' Hc'. apply Hacc. now right.
Qed.

Lemma copy_unmapped_order (fm : dict string) (fields acc : record) :
  NoDup (dict_keys fields) ->
  (forall k, In k (dict_keys fields) -> dict_mem fm k = false ->
             ~ In k (dict_keys acc)) ->
  dict_keys (copy_unmapped fm fields acc)
  = dict_keys acc
    ++ filter (fun k => negb (dict_mem fm k)) (dict_keys fields).
Proof.
  revert acc. induction fields as [| [k v] fields IH]; intros acc N Hacc.
  - cbn. now rewrite app_nil_r.
  - change (dict_keys ((k, v) :: fields)) with (k :: dict_keys fields) in *.
    inversion N as [| ? ? Hk N']; subst.
    cbn [copy_unmapped filter].
    destruct (dict_mem fm k) eqn:E; cbn [negb].
    + apply IH; [exact N' |]. intros k' Hk' Hm. apply Hacc; [now right | exact Hm].
    + rewrite IH; [| exact N' |].
      * rewrite (dict_set_fresh acc k v) by (apply Hacc; [now left | exact E]).
        unfold dict_keys. rewrite map_app. cbn [map fst].
        now rewrite <- app_assoc.
      * intros k' Hk' Hm Hin.
        rewrite (dict_set_fresh acc k v) in Hin
          by (apply Hacc; [now left | exact E]).
        unfold dict_keys in Hin. rewrite map_app in Hin.
        apply in_app_or in Hin. destruct Hin as [Hin | [<- | []]].
        -- apply (Hacc k'); [now right | exact Hm | exact Hin].
        -- contradiction.
Qed.

(** X7: a remapped record lists the canonical names first, in the order of
    the mapping and for the mapped fields the record holds, then its
    unmapped fields in their original order, provided no unmapped field
    bears a canonical name in use: the remap changes the order of the
    columns, which the chart builders go by. *)
Theorem remap_key_order (sample r : record) :
  NoDup (dict_keys r) ->
  (forall k, In k (dict_keys r) -> dict_mem (detect_mapping sample) k = false ->
             ~ In k (map snd (detect_mapping sample))) ->
  dict_keys (Spec.rebuilt (detect_mapping sample) r)
  = map snd (filter (fun oc => dict_mem r (fst oc)) (detect_mapping sample))
    ++ filter (fun k => negb (dict_mem (detect_mapping sample) k)) (dict_keys r).
Proof.
  intros N H. unfold Spec.rebuilt, normalize_item.
  destruct (copy_mapped_record (detect_mapping sample) r []) as [m [Hm _]].
  rewrite Hm. cbn [bind items_of].
  pose proof (copy_mapped_order (detect_mapping sample) r [] m
                (proj2 (detect_mapping_NoDup sample)) (fun _ _ F => F) Hm) as K.
  cbn [dict_keys map app] in K. fold (dict_keys m) in K.
  rewrite copy_unmapped_order; [now rewrite K | exact N |].
  intros k Hk Hf Hin. rewrite K in Hin. apply in_map_iff in Hin.
  destruct Hin as [[o c] [Hc Hin]]. cbn [snd] in Hc. subst c.
  apply filter_In in Hin. apply (H k Hk Hf).
  apply in_map_iff. exists (o, k). split; [reflexivity | tauto].
Qed.

End RemapOrder.

Lemma remap_key_order_units_first :
  dict_keys (Spec.rebuilt
               (DataProcessor.detect_mapping
                  [("units", VInt 3); ("Sales", VInt 10); ("order_date", VStr "2023-01")])
               [("units", VInt 3); ("Sales", VInt 10); ("order_date", VStr "2023-01")])
  = map snd (filter (fun oc =>
                       dict_mem [("units", VInt 3); ("Sales", VInt 10);
                                 ("order_date", VStr "2023-01")] (fst oc))
                    (DataProcessor.detect_mapping
                       [("units", VInt 3); ("Sales", VInt 10);
                        ("order_date", VStr "2023-01")]))
    ++ filter (fun k =>
                 negb (dict_mem (DataProcessor.detect_mapping
                                   [("units", VInt 3); ("Sales", VInt 10);
                                    ("order_date", VStr "2023-01")]) k))
              (dict_keys [("units", VInt 3); ("Sales", VInt 10);
                          ("order_date", VStr "2023-01")]).
Proof.
  apply (remap_key_order
           [("units", VInt 3); ("Sales", VInt 10); ("order_date", VStr "2023-01")]
           [("units", VInt 3); ("Sales", VInt 10); ("order_date", VStr "2023-01")]).
  - repeat constructor; simpl; intuition discriminate.
  - simpl. intros k [<- | [<- | [<- | []]]] Hm; vm_compute in Hm |- *;
      try discriminate; intuition discriminate.
Defined.

Example remap_puts_canonical_names_first :
  dict_keys (Spec.rebuilt
               (DataProcessor.detect_mapping
                  [("units", VInt 3); ("Sales", VInt 10); ("order_date", VStr "2023-01")])
               [("units", VInt 3); ("Sales", VInt 10); ("order_date", VStr "2023-01")])
  = ["revenue"; "date"; "units"].
Proof. reflexivity. Qed.

(** ** The insight generators: what they emit *)

Section InsightFacts.

Import PyFloat Py NlpAnalyzer Aux.

Context {rt : Runtime}.

Variable P : string -> Prop.

Lemma emits_pure {A : Type} (a : A) : emits P 0 (pure a).
Proof. split; [constructor | simpl; lia]. Qed.

Lemma emits_lift {A : Type} (r : result A) : emits P 0 (lift r).
Proof. split; [constructor | simpl; lia]. Qed.

Lemma emits_emit (s : string) : P s -> emits P 1 (emit s).
Proof. intros H. split; [repeat constructor; exact H | simpl; lia]. Qed.

Lemma emits_bind {A B : Type} (m : emitter A) (k : A -> emitter B) (a b : nat) :
  emits P a m -> (forall x, emits P b (k x)) -> emits P (a + b) (bindE m k).
Proof.
  intros [Hm Lm] Hk. destruct m as [out [x | e]]; simpl in *.
  - destruct (Hk x) as [Hx Lx]. destruct (k x) as [out' r]. simpl in *.
    split; [apply Forall_app; now split | cbn [fst]; rewrite length_app; lia].
  - split; [exact Hm | cbn [fst]; lia].
Qed.

Lemma emits_when (b : bool) (m : emitter unit) (n : nat) :
  emits P n m -> emits P n (when b m).
Proof.
  intros H. destruct b; [exact H |]. split; [constructor | simpl; lia].
Qed.

Lemma emits_if {A : Type} (c : bool) (x y : emitter A) (a b : nat) :
  emits P a x -> emits P b y -> emits P (Nat.max a b) (if c then x else y).
Proof.
  intros [Hx Lx] [Hy Ly]. destruct c; (split; [assumption | lia]).
Qed.

Lemma emits_le {A : Type} (m : emitter A) (n n' : nat) :
  emits P n m -> n <= n' -> emits P n' m.
Proof. intros [H L] Hn. split; [exact H | lia]. Qed.


Ltac emits_step :=
  lazymatch goal with
  | |- emits _ _ (bindE _ _) => eapply emits_bind; [| intros]
  | |- emits _ _ (lift _) => apply emits_lift
  | |- emits _ _ (pure _) => apply emits_pure
  | |- emits _ _ (emit _) => apply emits_emit
  | |- emits _ _ (when _ _) => apply emits_when
  | |- emits _ _ (if _ then _ else _) => eapply emits_if
  | |- emits _ _ (let '(_, _) := ?p in _) => destruct p
  end.

Hypothesis P_T : forall s, opens_with_T s = true -> P s.

Ltac emits_solve :=
  repeat first [emits_step | apply P_T; reflexivity].

Lemma statistics_block_emits (field : string) (first : float) (rest : list float) :
  emits P 6 (statistics_block field first rest).
Proof.
  unfold statistics_block. cbv zeta.
  eapply emits_le; [emits_solve | simpl; lia].
Qed.

Lemma trend_block_emits (data : list item) (date_field numeric_field : string) :
  emits P 2 (trend_block data date_field numeric_field).
Proof.
  unfold trend_block. cbv zeta.
  eapply emits_le; [emits_solve | simpl; lia].
Qed.

Lemma dominant_emits (numeric_field : string) (total : float)
    (ranked : list (string * float)) :
  emits P 1 (dominant numeric_field total ranked).
Proof.
  induction ranked as [| [category avg] ranked IH]; cbn [dominant].
  - eapply emits_le; [apply emits_pure | lia].
  - eapply emits_le; [emits_solve; exact IH | simpl; lia].
Qed.

Lemma category_block_emits (data : list item)
    (category_field numeric_field : string) :
  emits P 5 (category_block data category_field numeric_field).
Proof.
  unfold category_block. cbv zeta.
  eapply emits_le;
    [repeat first [emits_step | apply P_T; reflexivity | apply dominant_emits]
    | simpl; lia].
Qed.

Lemma complex_block_emits (data : list item)
    (date_field category_field numeric_field : string) :
  emits P 3 (complex_block data date_field category_field numeric_field).
Proof.
  unfold complex_block. cbv zeta.
  eapply emits_le; [emits_solve | simpl; lia].
Qed.


Lemma blocks_emit (block : string -> emitter unit) (n : nat)
    (fields : list string) :
  (forall field, emits P n (block field)) ->
  Forall P (flat_map (fun field => try_except (block field)) fields)
  /\ List.length (flat_map (fun field => try_except (block field)) fields)
     <= n * List.length fields.
Proof.
  intros H. induction fields as [| field fields [IHP IHL]]; simpl.
  - split; [constructor | lia].
  - destruct (H field) as [HP HL]. unfold try_except at 1 3.
    split; [apply Forall_app; now split | rewrite length_app; lia].
Qed.

Lemma statistical_insights_emit (data : list item) (fields out : list string) :
  generate_statistical_insights data fields = Ok out ->
  Forall P out /\ List.length out <= 6 * List.length fields.
Proof.
  revert out. induction fields as [| field fields IH]; cbn [generate_statistical_insights];
    intros out H.
  - injection H as <-. split; [constructor | simpl; lia].
  - destruct (field_values data field) as [values | e]; [| discriminate].
    cbn [bind] in H.
    destruct (generate_statistical_insights data fields) as [later | e];
      [| discriminate].
    cbn [bind] in H. injection H as <-.
    destruct (IH later eq_refl) as [IHP IHL].
    assert (Here : Forall P match values with
                            | [] => []
                            | first :: rest =>
                                try_except (statistics_block field first rest)
                            end
                   /\ List.length match values with
                                  | [] => []
                                  | first :: rest =>
                                      try_except (statistics_block field first rest)
                                  end <= 6).
    { destruct values as [| first rest]; [split; [constructor | simpl; lia] |].
      exact (statistics_block_emits field first rest). }
    destruct Here as [HP HL].
    split; [apply Forall_app; now split | rewrite length_app; cbn [List.length]; lia].
Qed.

Lemma trend_insights_emit (data : list item) (date_fields fields : list string) :
  Forall P (generate_trend_insights data date_fields fields)
  /\ List.length (generate_trend_insights data date_fields fields)
     <= 2 * List.length fields.
Proof.
  unfold generate_trend_insights.
  destruct date_fields as [| date_field ?]; [split; [constructor | simpl; lia] |].
  apply (blocks_emit (trend_block data date_field)). intros. apply trend_block_emits.
Qed.

Lemma category_insights_emit (data : list item)
    (category_fields fields : list string) :
  Forall P (generate_category_insights data category_fields fields)
  /\ List.length (generate_category_insights data category_fields fields)
     <= 5 * List.length fields.
Proof.
  unfold generate_category_insights.
  destruct category_fields as [| category_field ?];
    [split; [constructor | simpl; lia] |].
  apply (blocks_emit (category_block data category_field)).
  intros. apply category_block_emits.
Qed.

Lemma complex_insights_emit (data : list item)
    (date_fields category_fields fields : list string) :
  Forall P (generate_complex_insights data date_fields category_fields fields)
  /\ List.length (generate_complex_insights data date_fields category_fields fields)
     <= 3 * List.length fields.
Proof.
  unfold generate_complex_insights.
  destruct date_fields as [| date_field ?]; [split; [constructor | simpl; lia] |].
  destruct category_fields as [| category_field ?];
    [split; [constructor | simpl; lia] |].
  apply (blocks_emit (complex_block data date_field category_field)).
  intros. apply complex_block_emits.
Qed.

Lemma gather_emits (data : list item) (fields insights : list string) :
  identify_numeric_fields data = Ok fields ->
  gather data = Ok insights ->
  Forall P insights /\ List.length insights <= 16 * List.length fields.
Proof.
  intros Hf H. unfold gather in H. rewrite Hf in H. cbn [bind] in H.
  destruct (identify_date_fields data) as [date_fields | e]; [| discriminate].
  destruct (identify_category_fields data) as [category_fields | e];
    [| discriminate].
  cbn [bind] in H.
  destruct (generate_statistical_insights data fields) as [statistical | e] eqn:Hs;
    [| discriminate].
  cbn [bind] in H. injection H as <-.
  destruct (statistical_insights_emit _ _ _ Hs) as [SP SL].
  destruct (trend_insights_emit data date_fields fields) as [TP TL].
  destruct (category_insights_emit data category_fields fields) as [CP CL].
  destruct (complex_insights_emit data date_fields category_fields fields)
    as [XP XL].
  split.
  - repeat (apply Forall_app; split); try assumption;
      repeat match goal with |- Forall _ (if ?c then _ else _) => destruct c end;
      try assumption; constructor.
  - rewrite !length_app.
    repeat match goal with
           | |- context [if ?c then _ else _] => destruct c
           end; cbn [List.length]; lia.
Qed.

End InsightFacts.

Section InsightTheorems.

Import PyFloat Py NlpAnalyzer Aux.

Context {rt : Runtime}.

Lemma verify_candidates_length (data : list item) (candidates fields : list string) :
  verify_candidates data candidates = Ok fields ->
  List.length fields <= List.length candidates.
Proof.
  revert fields. induction candidates as [| field candidates IH];
    cbn [verify_candidates]; intros fields H.
  - injection H as <-. simpl. lia.
  - destruct (numeric_count data field) as [count | e]; [| discriminate].
    cbn [bind] in H.
    destruct (coverage_ok count (List.length data)) as [ok | e]; [| discriminate].
    cbn [bind] in H.
    destruct (verify_candidates data candidates) as [rest | e]; [| discriminate].
    cbn [bind] in H. injection H as <-.
    specialize (IH rest eq_refl). destruct ok; cbn [List.length]; lia.
Qed.

Lemma numeric_fields_length (sample : record) (others : list item)
    (fields : list string) :
  identify_numeric_fields (IRecord sample :: others) = Ok fields ->
  List.length fields <= List.length sample.
Proof.
  unfold identify_numeric_fields. cbn [items_of bind]. intros H.
  apply verify_candidates_length in H. rewrite length_map in H.
  pose proof (filter_length_le (fun kv : string * value => is_numeric_value (snd kv))
                               sample).
  lia.
Qed.

Lemma recommendations_NoDup : NoDup generate_recommendations.
Proof.
  assert (H : nodup string_dec generate_recommendations = generate_recommendations)
    by (vm_compute; reflexivity).
  rewrite <- H. apply NoDup_nodup.
Qed.

Lemma recommendations_not_insights (s : string) :
  In s generate_recommendations -> opens_with_T s = false.
Proof.
  unfold generate_recommendations. simpl.
  intros [<- | [<- | [<- | [<- | [<- | []]]]]]; reflexivity.
Qed.

Lemma finish_NoDup (insights : list string) :
  Forall (fun s => opens_with_T s = true) insights -> NoDup (finish insights).
Proof.
  intros H. unfold finish.
  destruct (Nat.ltb (List.length (list_of_set insights)) 3); [| apply list_of_set_NoDup].
  apply NoDup_app; [apply list_of_set_NoDup | apply recommendations_NoDup |].
  intros s Hs Hr. apply (proj1 (list_of_set_In _ _)) in Hs.
  rewrite Forall_forall in H. specialize (H s Hs).
  apply recommendations_not_insights in Hr. congruence.
Qed.

Lemma finish_length (insights : list string) :
  List.length (finish insights) <= Nat.max 7 (List.length insights).
Proof.
  unfold finish.
  assert (L : List.length (list_of_set insights) <= List.length insights).
  { apply NoDup_incl_length; [apply list_of_set_NoDup |].
    intros s Hs. exact (proj1 (list_of_set_In _ _) Hs). }
  destruct (Nat.ltb (List.length (list_of_set insights)) 3) eqn:E.
  - apply Nat.ltb_lt in E. rewrite length_app.
    change (List.length generate_recommendations) with 5. lia.
  - lia.
Qed.

(** X8: the list [analyze_data] returns never holds the same string twice:
    the insights are deduplicated, and no recommendation can equal an
    insight, since every insight opens with a capital T and no
    recommendation does. *)
Theorem analyze_data_never_repeats (data : pydata) :
  NoDup (analyze_data data)
  /\ (forall items insights,
         gather items = Ok insights ->
         Forall (fun s => opens_with_T s = true) insights)
  /\ Forall (fun s => opens_with_T s = false) generate_recommendations.
Proof.
  assert (G : forall items insights,
             gather items = Ok insights ->
             Forall (fun s => opens_with_T s = true) insights).
  { intros items insights G.
    destruct (identify_numeric_fields items) as [fields | e] eqn:F.
    - exact (proj1 (gather_emits _ (fun s H => H) _ _ _ F G)).
    - unfold gather in G. rewrite F in G. discriminate. }
  split; [| split; [exact G | apply Forall_forall; exact recommendations_not_insights]].
  unfold analyze_data.
  destruct data as [[| first others] | r | v]; try (repeat constructor; simpl; tauto).
  destruct (gather (first :: others)) as [insights | e] eqn:E;
    [| repeat constructor; simpl; tauto].
  apply finish_NoDup. exact (G _ _ E).
Qed.

(** X9: the number of strings [analyze_data] returns is bounded by the
    number of fields of the first record, whatever the number of records:
    at most 16 per field (6 statistical, 2 trend, 5 category and 3 combined
    statements for each numeric field), or 7 when the recommendations are
    appended. *)
Theorem insights_bounded_by_fields (sample : record) (others : list item) :
  List.length (analyze_data (PList (IRecord sample :: others)))
  <= Nat.max 7 (16 * List.length sample)
  /\ (forall data fields out,
         generate_statistical_insights data fields = Ok out ->
         List.length out <= 6 * List.length fields)
  /\ (forall data date_fields fields,
         List.length (generate_trend_insights data date_fields fields)
         <= 2 * List.length fields)
  /\ (forall data category_fields fields,
         List.length (generate_category_insights data category_fields fields)
         <= 5 * List.length fields)
  /\ (forall data date_fields category_fields fields,
         List.length
           (generate_complex_insights data date_fields category_fields fields)
         <= 3 * List.length fields).
Proof.
  split; [| split; [| split; [| split]]].
  - unfold analyze_data.
    destruct (gather (IRecord sample :: others)) as [insights | e] eqn:G;
      [| cbn [List.length]; lia].
    destruct (identify_numeric_fields (IRecord sample :: others))
      as [fields | e] eqn:F.
    + pose proof (proj2 (gather_emits (fun _ => True) (fun _ _ => I) _ _ _ F G)) as L.
      pose proof (numeric_fields_length _ _ _ F).
      pose proof (finish_length insights). lia.
    + unfold gather in G. rewrite F in G. discriminate.
  - intros data fields out H.
    exact (proj2 (statistical_insights_emit (fun _ => True) (fun _ _ => I) _ _ _ H)).
  - intros. apply (trend_insights_emit (fun _ => True) (fun _ _ => I)).
  - intros. apply (category_insights_emit (fun _ => True) (fun _ _ => I)).
  - intros. apply (complex_insights_emit (fun _ => True) (fun _ _ => I)).
Qed.


Lemma field_values_records (records : list record) (field : string) :
  field_values (map IRecord records) field
  = mapM to_float (usable_values field records).
Proof.
  induction records as [| r records IH]; [reflexivity |].
  cbn [map field_values contains_key getitem bind usable_values flat_map].
  unfold dict_mem. fold (usable_values field records).
  destruct (dict_get r field) as [v |]; cbn [bind].
  - destruct (is_none v); cbn [negb app].
    + exact IH.
    + cbn [mapM]. destruct (to_float v); cbn [bind]; [| reflexivity].
      now rewrite IH.
  - exact IH.
Qed.

Lemma usable_values_In (field : string) (records : list record) (v : value) :
  In v (usable_values field records)
  <-> exists r, In r records /\ dict_get r field = Some v /\ v <> VNone.
Proof.
  unfold usable_values. rewrite in_flat_map. split.
  - intros [r [Hr Hv]]. exists r. split; [exact Hr |].
    destruct (dict_get r field) as [w |]; [| destruct Hv].
    destruct w; simpl in Hv; try contradiction;
      destruct Hv as [<- | []]; split; congruence.
  - intros [r [Hr [Hv Hn]]]. exists r. split; [exact Hr |]. rewrite Hv.
    destruct v; simpl; auto.
Qed.

Lemma statistical_insights_Ok_iff (data : list item) (fields : list string) :
  (exists out, generate_statistical_insights data fields = Ok out)
  <-> (forall field, In field fields -> exists values, field_values data field = Ok values).
Proof.
  induction fields as [| field fields IH]; cbn [generate_statistical_insights].
  - split; [intros _ f [] | intros _; now eexists].
  - split.
    + intros [out H] f [<- | Hf].
      * destruct (field_values data field); [now eexists | discriminate].
      * destruct (field_values data field); [| discriminate]. cbn [bind] in H.
        destruct (generate_statistical_insights data fields); [| discriminate].
        apply (proj1 IH); [now eexists | exact Hf].
    + intros H. destruct (H field (or_introl eq_refl)) as [values Hv]. rewrite Hv.
      cbn [bind].
      destruct (proj2 IH (fun f Hf => H f (or_intror Hf))) as [later Hl].
      rewrite Hl. now eexists.
Qed.

Lemma fields_named_records (indicators : list string) (sample : record)
    (others : list record) :
  exists fields, fields_named indicators (map IRecord (sample :: others)) = Ok fields.
Proof. now eexists. Qed.

Lemma finish_length_ge (insights : list string) : 3 <= List.length (finish insights).
Proof.
  unfold finish.
  destruct (Nat.ltb (List.length (list_of_set insights)) 3) eqn:E.
  - rewrite length_app. change (List.length generate_recommendations) with 5. lia.
  - apply Nat.ltb_ge in E. exact E.
Qed.

(** X10: on a non-empty list of records, [analyze_data] returns the error
    message exactly when some record holds, under a field classified numeric,
    a value other than [None] that [float] rejects: an integer too large for
    a float, or a string that is not a float literal. *)
Theorem analysis_error_iff (sample : record) (others : list record) :
  exists fields,
    identify_numeric_fields (map IRecord (sample :: others)) = Ok fields
    /\ (analyze_data (PList (map IRecord (sample :: others))) = [failure]
        <-> exists r field v,
              In r (sample :: others) /\ In field fields
              /\ dict_get r field = Some v /\ v <> VNone
              /\ exists e, to_float v = Raise e)
    /\ (forall v e, to_float v = Raise e ->
          v = VNone
          \/ (exists n, v = VInt n /\ is_inf (of_Z n) = true)
          \/ (exists s, v = VStr s /\ of_string s = None)).
Proof.
  set (records := sample :: others).
  assert (Hlen : 0 < List.length records) by (simpl; lia).
  destruct (identify_numeric_fields (map IRecord records)) as [fields | e] eqn:F.
  2:{ unfold identify_numeric_fields, records in F. cbn [map items_of bind] in F.
      change (IRecord sample :: map IRecord others)
        with (map IRecord (sample :: others)) in F.
      rewrite verify_candidates_records in F by exact Hlen. discriminate. }
  exists fields. split; [reflexivity |]. split.
  - assert (Gather : forall out,
               generate_statistical_insights (map IRecord records) fields = out ->
               match out with
               | Ok _ => exists insights, gather (map IRecord records) = Ok insights
               | Raise e => gather (map IRecord records) = Raise e
               end).
    { intros out Hout. unfold gather. rewrite F. cbn [bind].
      unfold identify_date_fields, identify_category_fields, records.
      cbn [map fields_named items_of bind].
      fold records.
      change (IRecord sample :: map IRecord others) with (map IRecord records).
      rewrite Hout. destruct out; cbn [bind]; [now eexists | reflexivity]. }
    assert (Fail : analyze_data (PList (map IRecord records)) = [failure]
                   <-> ~ exists out,
                         generate_statistical_insights (map IRecord records) fields
                         = Ok out).
    { specialize (Gather _ eq_refl). unfold analyze_data, records.
      cbn [map]. fold records.
      change (IRecord sample :: map IRecord others) with (map IRecord records).
      destruct (generate_statistical_insights (map IRecord records) fields)
        as [out | e'].
      - destruct Gather as [insights G]. rewrite G. split.
        + intros H. pose proof (finish_length_ge insights) as L.
          rewrite H in L. simpl in L. lia.
        + intros H. exfalso. apply H. now eexists.
      - rewrite Gather. split; [intros _ [out H]; discriminate | reflexivity]. }
    rewrite Fail, statistical_insights_Ok_iff. split.
    + intros H.
      destruct (existsb (fun field =>
                  existsb (fun v => match to_float v with Ok _ => false | Raise _ => true end)
                          (usable_values field records)) fields) eqn:E.
      * apply existsb_exists in E. destruct E as [field [Hf E]].
        apply existsb_exists in E. destruct E as [v [Hv E]].
        apply usable_values_In in Hv. destruct Hv as [r [Hr [Hg Hn]]].
        exists r, field, v. repeat split; try assumption.
        destruct (to_float v) as [x | e']; [discriminate | now exists e'].
      * exfalso. apply H. intros field Hf. rewrite field_values_records.
        apply mapM_Ok_iff. intros v Hv.
        destruct (to_float v) as [x | e'] eqn:Ev; [now eexists |].
        assert (Contra : existsb (fun field =>
                  existsb (fun v => match to_float v with Ok _ => false | Raise _ => true end)
                          (usable_values field records)) fields = true).
        { apply existsb_exists. exists field. split; [exact Hf |].
          apply existsb_exists. exists v. split; [exact Hv |]. now rewrite Ev. }
        congruence.
    + intros [r [field [v [Hr [Hf [Hg [Hn [e' He]]]]]]]] H.
      destruct (H field Hf) as [values Hv]. rewrite field_values_records in Hv.
      assert (Hin : In v (usable_values field records))
        by (apply usable_values_In; now exists r).
      destruct (proj1 (mapM_Ok_iff _ _) (ex_intro _ values Hv) v Hin) as [x Hx].
      congruence.
  - intros v e' H. destruct v as [| b | n | f | s]; simpl in H.
    + now left.
    + discriminate.
    + right; left. exists n. split; [reflexivity |].
      destruct (is_inf (of_Z n)); [reflexivity | discriminate].
    + discriminate.
    + right; right. exists s. split; [reflexivity |].
      unfold DataProcessor.float_of_str in H.
      destruct (of_string s); [discriminate | reflexivity].
Qed.


Lemma statistics_block_few (field : string) (first : float) (rest : list float) :
  List.length rest < 2 -> try_except (statistics_block field first rest) = [].
Proof.
  intros H. unfold statistics_block, try_except. cbv zeta.
  replace (3 <=? List.length (first :: rest))%nat with false
    by (symmetry; apply Nat.leb_gt; simpl; lia).
  destruct (div_len (sum (first :: rest)) (first :: rest)); reflexivity.
Qed.

(** X11: the statistical generator says nothing about a field with fewer than
    three usable values; with three or more it opens with the total, average,
    maximum and minimum statements, in that order, followed by at most two
    more; a value [float] rejects makes it raise. *)
Theorem statistics_need_three_values (data : list item) (field : string) :
  match field_values data field with
  | Raise e => generate_statistical_insights data [field] = Raise e
  | Ok values =>
      exists out,
        generate_statistical_insights data [field] = Ok out
        /\ (List.length values < 3 -> out = [])
        /\ (3 <= List.length values ->
            exists first rest average more,
              values = first :: rest
              /\ div_len (sum values) values = Ok average
              /\ out = Aux.basic_statements field (sum values) average
                        (max first rest) (min first rest) ++ more
              /\ List.length more <= 2)
  end.
Proof.
  cbn [generate_statistical_insights].
  destruct (field_values data field) as [values | e]; [| reflexivity].
  cbn [bind]. eexists. split; [reflexivity |]. rewrite app_nil_r. split.
  - intros H. destruct values as [| first rest]; [reflexivity |].
    apply statistics_block_few. simpl in H. lia.
  - intros H. destruct values as [| first rest]; [simpl in H; lia |].
    destruct (statistics_block_basics field first rest) as [average [more [Ha Hm]]];
      [simpl in H; lia |].
    exists first, rest, average, more. repeat split; try assumption.
    pose proof (proj2 (statistics_block_emits (fun _ => True) (fun _ _ => I)
                         field first rest)) as L.
    unfold try_except in Hm. rewrite Hm, length_app in L.
    unfold Aux.basic_statements in L. cbn [List.length] in L. lia.
Qed.

End InsightTheorems.

(** ** The segments of the trend generator *)

Section Segments.

Import PyFloat Py NlpAnalyzer Aux.

Lemma firstn_plus {A : Type} (a b : nat) (l : list A) :
  firstn (a + b) l = firstn a l ++ firstn b (skipn a l).
Proof.
  revert l. induction a as [| a IH]; intros l; [reflexivity |].
  destruct l as [| x l]; [simpl; now rewrite firstn_nil |].
  cbn [Nat.add firstn skipn app]. now rewrite IH.
Qed.

Lemma flat_map_same {A B : Type} (f g : A -> list B) (l : list A) :
  (forall a, In a l -> f a = g a) -> flat_map f l = flat_map g l.
Proof.
  induction l as [| a l IH]; intros H; [reflexivity |].
  cbn [flat_map]. rewrite (H a (or_introl eq_refl)), IH; [reflexivity |].
  intros x Hx. apply H. now right.
Qed.

Lemma windows_prefix {A : Type} (size j : nat) (l : list A) :
  flat_map (fun i => firstn size (skipn (i * size) l)) (seq 0 j)
  = firstn (j * size) l.
Proof.
  induction j as [| j IH]; [reflexivity |].
  rewrite seq_S, flat_map_app, IH. cbn [flat_map Nat.add].
  rewrite app_nil_r. replace (S j * size) with (j * size + size) by lia.
  symmetry. apply firstn_plus.
Qed.

Lemma segments_tile {A : Type} (points : list A) (segments : nat) :
  1 <= segments ->
  flat_map (segment points segments) (seq 0 segments) = points.
Proof.
  intros H. destruct segments as [| k]; [lia |]. clear H.
  rewrite seq_S, flat_map_app. cbn [flat_map Nat.add]. rewrite app_nil_r.
  set (size := List.length points / S k).
  rewrite (flat_map_same _ (fun i => firstn size (skipn (i * size) points))).
  - rewrite windows_prefix. unfold segment. fold size.
    replace (Nat.ltb k (S k - 1)) with false by (symmetry; apply Nat.ltb_ge; lia).
    unfold slice. rewrite (firstn_all2 (skipn (k * size) points)).
    + apply firstn_skipn.
    + rewrite length_skipn. lia.
  - intros i Hi. apply in_seq in Hi. unfold segment. fold size.
    replace (Nat.ltb i (S k - 1)) with true by (symmetry; apply Nat.ltb_lt; lia).
    unfold slice. f_equal. lia.
Qed.

Lemma segment_length {A : Type} (points : list A) (segments i : nat) :
  1 <= segments -> i < segments ->
  List.length points / segments <= List.length (segment points segments i).
Proof.
  intros Hs Hi. unfold segment, slice.
  set (size := List.length points / segments).
  assert (Hn : segments * size <= List.length points)
    by (apply Nat.Div0.mul_div_le).
  rewrite length_firstn, length_skipn.
  destruct (Nat.ltb i (segments - 1)) eqn:E.
  - apply Nat.ltb_lt in E.
    assert (i * size + size <= segments * size) by nia. lia.
  - apply Nat.ltb_ge in E. assert (i = segments - 1) by lia. subst i.
    assert ((segments - 1) * size + size = segments * size) by nia. lia.
Qed.

Lemma mapM_map {A B : Type} (f : A -> result B) (g : A -> B) (l : list A) :
  (forall a, In a l -> f a = Ok (g a)) -> mapM f l = Ok (map g l).
Proof.
  induction l as [| a l IH]; intros H; [reflexivity |].
  cbn [mapM map]. rewrite (H a (or_introl eq_refl)). cbn [bind].
  rewrite IH; [reflexivity |]. intros x Hx. apply H. now right.
Qed.

(** X12: with six data points or more the trend generator cuts them, in
    order, into three or four segments that tile the list: each point is in
    exactly one segment and every segment has at least [len // segments]
    points, so each average divides by a positive count and none is lost
    to an error. *)
Theorem trend_segments_tile (points : list (value * float)) :
  6 <= List.length points ->
  3 <= Nat.min 4 (List.length points / 2) <= 4
  /\ flat_map (segment points (Nat.min 4 (List.length points / 2)))
              (seq 0 (Nat.min 4 (List.length points / 2)))
     = points
  /\ (forall i, i < Nat.min 4 (List.length points / 2) ->
        1 <= List.length (segment points (Nat.min 4 (List.length points / 2)) i))
  /\ segment_averages points (Nat.min 4 (List.length points / 2))
     = Ok (map (fun i =>
                  let values :=
                    map snd (segment points (Nat.min 4 (List.length points / 2)) i) in
                  SFdiv prec emax (sum values)
                        (of_Z (Z.of_nat (List.length values))))
               (seq 0 (Nat.min 4 (List.length points / 2)))).
Proof.
  intros H. set (segments := Nat.min 4 (List.length points / 2)).
  assert (Hd : 3 <= List.length points / 2)
    by (apply Nat.div_le_lower_bound; lia).
  assert (Hs : 3 <= segments <= 4) by (unfold segments; lia).
  assert (Hsize : 1 <= List.length points / segments).
  { apply Nat.div_le_lower_bound; lia. }
  split; [exact Hs |]. split; [apply segments_tile; lia |].
  assert (Hlen : forall i, i < segments ->
                   1 <= List.length (segment points segments i)).
  { intros i Hi. pose proof (segment_length points segments i). lia. }
  split; [exact Hlen |].
  unfold segment_averages. apply mapM_map. intros i Hi. apply in_seq in Hi.
  fold (segment points segments i). cbv zeta.
  unfold div_len, div_int. rewrite length_map.
  specialize (Hlen i ltac:(lia)).
  replace (Z.of_nat (List.length (segment points segments i)) =? 0)%Z with false
    by (symmetry; apply Z.eqb_neq; lia).
  reflexivity.
Qed.

End Segments.

Lemma trend_segments_tile_six :
  6 <= List.length (map (fun n => (VInt n, PyFloat.of_Z n)) [1; 2; 3; 4; 5; 6]%Z)
  /\ flat_map (Aux.segment (map (fun n => (VInt n, PyFloat.of_Z n)) [1; 2; 3; 4; 5; 6]%Z) 3)
              [0; 1; 2]
     = map (fun n => (VInt n, PyFloat.of_Z n)) [1; 2; 3; 4; 5; 6]%Z.
Proof.
  split; [simpl; lia |].
  apply (trend_segments_tile
           (map (fun n => (VInt n, PyFloat.of_Z n)) [1; 2; 3; 4; 5; 6]%Z)).
  simpl. lia.
Defined.

(** ** The orders the sorts go by *)

Section OrderFacts.

Import PyFloat Py NlpAnalyzer Aux.

Lemma SFltb_irrefl (x : float) : ltb x x = false.
Proof.
  unfold ltb, SFltb. destruct x as [s | s | | s m e]; cbn [SFcompare];
    try (destruct s; reflexivity); try reflexivity.
  destruct s; rewrite Z.compare_refl, Pos.compare_cont_refl; reflexivity.
Qed.

Lemma SFltb_asym (x y : float) : ltb x y = true -> ltb y x = false.
Proof.
  unfold ltb, SFltb. rewrite (SFcompare_antisym x y).
  now destruct (SFcompare x y) as [[] |].
Qed.

Lemma Pos_compare_Lt_trans (a b c : positive) :
  Pos.compare a b = Lt -> Pos.compare b c = Lt -> Pos.compare a c = Lt.
Proof. rewrite !Pos.compare_lt_iff. apply Pos.lt_trans. Qed.

Lemma Pos_compare_Gt_trans (a b c : positive) :
  Pos.compare a b = Gt -> Pos.compare b c = Gt -> Pos.compare a c = Gt.
Proof. rewrite !Pos.compare_gt_iff. intros H1 H2. now apply Pos.lt_trans with b. Qed.

(** [<] on floats is transitive. *)
Lemma SFltb_trans (x y z : float) :
  ltb x y = true -> ltb y z = true -> ltb x z = true.
Proof.
  unfold ltb, SFltb.
  destruct x as [sx | sx | | sx mx ex], y as [sy | sy | | sy my ey],
           z as [sz | sz | | sz mz ez]; cbn [SFcompare];
    try discriminate;
    try (destruct sx; try discriminate; destruct sy; try discriminate;
         destruct sz; try discriminate; reflexivity);
    try (destruct sx; try discriminate; destruct sz; try discriminate; reflexivity);
    try (destruct sy; try discriminate; destruct sz; try discriminate; reflexivity);
    try (destruct sx; try discriminate; destruct sy; try discriminate; reflexivity).
  change (Pos.compare_cont Eq mx my) with (Pos.compare mx my).
  change (Pos.compare_cont Eq my mz) with (Pos.compare my mz).
  change (Pos.compare_cont Eq mx mz) with (Pos.compare mx mz).
  assert (Zc : forall a b : Z,
             ((a ?= b)%Z = Eq /\ a = b) \/ ((a ?= b)%Z = Lt /\ (a < b)%Z)
             \/ ((a ?= b)%Z = Gt /\ (b < a)%Z)).
  { intros a b. destruct (Z.compare_spec a b); auto. }
  destruct sx, sy, sz; try discriminate; try reflexivity;
    destruct (Zc ex ey) as [[-> E1] | [[-> L1] | [-> G1]]];
    destruct (Zc ey ez) as [[-> E2] | [[-> L2] | [-> G2]]];
    try discriminate; intros H1 H2;
    destruct (Zc ex ez) as [[-> E3] | [[-> L3] | [-> G3]]];
    try reflexivity; try lia.
  - destruct (Pos.compare mx my) eqn:C1; try discriminate.
    destruct (Pos.compare my mz) eqn:C2; try discriminate.
    now rewrite (Pos_compare_Gt_trans _ _ _ C1 C2).
  - destruct (Pos.compare mx my) eqn:C1; try discriminate.
    destruct (Pos.compare my mz) eqn:C2; try discriminate.
    now rewrite (Pos_compare_Lt_trans _ _ _ C1 C2).
Qed.

Lemma insert_desc_In {A : Type} (x y : A * float) (l : list (A * float)) :
  In y (insert_desc x l) -> y = x \/ In y l.
Proof.
  induction l as [| z l IH]; cbn [insert_desc].
  - intros [<- | []]. now left.
  - destruct (ltb (snd z) (snd x)).
    + intros [<- | H]; [now left | now right].
    + intros [<- | H]; [right; now left |].
      destruct (IH H) as [-> | H']; [now left | right; now right].
Qed.

Lemma insert_desc_descending {A : Type} (x : A * float) (l : list (A * float)) :
  descending l -> descending (insert_desc x l).
Proof.
  unfold descending. induction l as [| y l IH]; intros S; cbn [insert_desc].
  - repeat constructor.
  - inversion S as [| ? ? S' F]; subst.
    destruct (ltb (snd y) (snd x)) eqn:E.
    + constructor; [exact S |]. constructor; [now apply SFltb_asym |].
      rewrite Forall_forall in *. intros z Hz. specialize (F z Hz).
      destruct (ltb (snd x) (snd z)) eqn:Exz; [| reflexivity].
      now rewrite (SFltb_trans _ _ _ E Exz) in F.
    + constructor; [now apply IH |].
      rewrite Forall_forall in *. intros z Hz.
      destruct (insert_desc_In _ _ _ Hz) as [-> | Hz']; [exact E | now apply F].
Qed.

Lemma sort_desc_descending {A : Type} (l : list (A * float)) :
  descending (sort_desc l).
Proof.
  unfold sort_desc.
  assert (G : forall acc, descending acc ->
                descending (fold_left (fun acc x => insert_desc x acc) l acc)).
  { induction l as [| x l IH]; intros acc S; cbn [fold_left]; [exact S |].
    apply IH. now apply insert_desc_descending. }
  apply G. constructor.
Qed.

(** In a descending arrangement no key is above the first and none is below
    the last. *)
Lemma descending_ends {A : Type} (l : list (A * float)) (d x : A * float) :
  descending l -> In x l ->
  ltb (snd (hd d l)) (snd x) = false /\ ltb (snd x) (snd (last l d)) = false.
Proof.
  unfold descending. intros S. revert x.
  induction S as [| a l S IH F]; intros x Hx; [destruct Hx |].
  rewrite Forall_forall in F. split.
  - cbn [hd]. destruct Hx as [<- | Hx]; [apply SFltb_irrefl | now apply F].
  - destruct l as [| b l].
    + cbn [last]. destruct Hx as [<- | []]. apply SFltb_irrefl.
    + change (last (a :: b :: l) d) with (last (b :: l) d).
      destruct Hx as [<- | Hx]; [| now apply IH].
      apply F. destruct (exists_last (l := b :: l) ltac:(discriminate))
        as [l' [z E]]. rewrite E, last_last. apply in_or_app. right. now left.
Qed.

Context {rt : Runtime}.

Lemma sorted_reverse_Permutation {A : Type} (l : list (A * float)) :
  Permutation (sorted_reverse l) l.
Proof.
  unfold sorted_reverse. destruct (existsb _ l); [apply arrange_Permutation |].
  unfold sort_desc.
  assert (P : forall x (l : list (A * float)), Permutation (insert_desc x l) (x :: l)).
  { intros x l0. induction l0 as [| y l0 IH]; cbn [insert_desc]; [reflexivity |].
    destruct (ltb (snd y) (snd x)); [reflexivity |].
    rewrite IH. apply perm_swap. }
  assert (G : forall acc, Permutation (fold_left (fun acc x => insert_desc x acc) l acc)
                                      (acc ++ l)).
  { induction l as [| x l IH]; intros acc; cbn [fold_left].
    - now rewrite app_nil_r.
    - rewrite IH, P. apply Permutation_middle. }
  apply (G []).
Qed.

Lemma sorted_reverse_descending {A : Type} (l : list (A * float)) :
  existsb (fun x => is_nan (snd x)) l = false -> descending (sorted_reverse l).
Proof.
  unfold sorted_reverse. intros ->. apply sort_desc_descending.
Qed.

(** *** Sorting by value keys *)

Lemma str_ltb_asym (s t : string) : PyStr.ltb s t = true -> PyStr.ltb t s = false.
Proof.
  revert t. induction s as [| a s IH]; intros [| b t]; cbn [PyStr.ltb];
    try reflexivity; try discriminate.
  destruct (N.ltb_spec (PyStr.code a) (PyStr.code b)) as [L | G].
  - intros _. replace (PyStr.code b <? PyStr.code a)%N with false
      by (symmetry; apply N.ltb_ge; lia).
    now replace (PyStr.code b =? PyStr.code a)%N with false
      by (symmetry; apply N.eqb_neq; lia).
  - destruct (N.eqb_spec (PyStr.code a) (PyStr.code b)) as [E | N]; [| discriminate].
    intros H. rewrite <- E, N.ltb_irrefl, N.eqb_refl. now apply IH.
Qed.

(** [<=] on strings is transitive. *)
Lemma str_le_trans (s t u : string) :
  PyStr.ltb t s = false -> PyStr.ltb u t = false -> PyStr.ltb u s = false.
Proof.
  revert t u. induction s as [| a s IH]; intros t u.
  - destruct u; reflexivity.
  - destruct t as [| b t]; [discriminate |].
    destruct u as [| c u]; [discriminate |].
    cbn [PyStr.ltb].
    destruct (N.ltb_spec (PyStr.code b) (PyStr.code a)) as [L1 | G1]; [discriminate |].
    destruct (N.ltb_spec (PyStr.code c) (PyStr.code b)) as [L2 | G2]; [discriminate |].
    destruct (N.eqb_spec (PyStr.code b) (PyStr.code a)) as [E1 | N1];
      destruct (N.eqb_spec (PyStr.code c) (PyStr.code b)) as [E2 | N2];
      intros H1 H2.
    + rewrite E2, E1, N.ltb_irrefl, N.eqb_refl. now apply (IH t u).
    + replace (PyStr.code c <? PyStr.code a)%N with false
        by (symmetry; apply N.ltb_ge; lia).
      now replace (PyStr.code c =? PyStr.code a)%N with false
        by (symmetry; apply N.eqb_neq; lia).
    + replace (PyStr.code c <? PyStr.code a)%N with false
        by (symmetry; apply N.ltb_ge; lia).
      now replace (PyStr.code c =? PyStr.code a)%N with false
        by (symmetry; apply N.eqb_neq; lia).
    + replace (PyStr.code c <? PyStr.code a)%N with false
        by (symmetry; apply N.ltb_ge; lia).
      now replace (PyStr.code c =? PyStr.code a)%N with false
        by (symmetry; apply N.eqb_neq; lia).
Qed.

Lemma lt_asym (a b : value) : lt a b = Ok true -> lt b a = Ok false.
Proof.
  destruct a as [| x | x | x | s], b as [| y | y | y | t];
    cbn [lt as_number]; try discriminate;
    try (match goal with
         | |- context [number_compare ?p ?q] =>
             rewrite (number_compare_antisym p q);
             destruct (number_compare p q) as [[] |]; cbn [option_map CompOpp];
             intros H; try discriminate H; reflexivity
         end).
  intros [= H]. f_equal. now apply str_ltb_asym.
Qed.

Lemma insert_Sorted {A : Type} (key : A -> value) (x : A) (l l' : list A) :
  insert (fun a b => lt (key a) (key b)) x l = Ok l' ->
  Sorted (not_before key) l -> Sorted (not_before key) l'.
Proof.
  revert l'. induction l as [| y l IH]; intros l'; cbn [insert].
  - intros [= <-] _. repeat constructor.
  - destruct (lt (key x) (key y)) as [b |] eqn:E; [| discriminate]. cbn [bind].
    destruct b.
    + intros [= <-] S. constructor; [exact S |]. constructor.
      now apply lt_asym.
    + destruct (insert _ x l) as [l'' |] eqn:I; [| discriminate]. cbn [bind].
      intros [= <-] S. inversion S as [| ? ? S' H]; subst.
      constructor; [now apply (IH l'') |].
      destruct l as [| z l]; cbn [insert] in I.
      * injection I as <-. now constructor.
      * destruct (lt (key x) (key z)) as [b |]; [| discriminate]. cbn [bind] in I.
        destruct b; [injection I as <-; now constructor |].
        destruct (insert _ x l); [| discriminate]. cbn [bind] in I.
        injection I as <-. constructor. now inversion H.
Qed.

Lemma sort_Sorted {A : Type} (key : A -> value) (l ordered : list A) :
  sort (fun a b => lt (key a) (key b)) l = Ok ordered ->
  Sorted (not_before key) ordered.
Proof.
  unfold sort.
  assert (G : forall acc ordered,
             Sorted (not_before key) acc ->
             fold_left (fun acc x => s <- acc ;;
                                     insert (fun a b => lt (key a) (key b)) x s)
                       l (Ok acc) = Ok ordered ->
             Sorted (not_before key) ordered).
  { induction l as [| x l IH]; intros acc out S H; cbn [fold_left] in H.
    - now injection H as <-.
    - cbn [bind] in H.
      destruct (insert (fun a b => lt (key a) (key b)) x acc) as [acc' |] eqn:E.
      + apply (IH acc' out); [| exact H]. now apply (insert_Sorted key x acc).
      + exfalso. clear - H. induction l as [| y l IH]; [discriminate |].
        cbn [fold_left bind] in H. now apply IH. }
  apply G. constructor.
Qed.

Lemma insert_Permutation {A : Type} (before : A -> A -> result bool) (x : A)
    (l l' : list A) :
  insert before x l = Ok l' -> Permutation l' (x :: l).
Proof.
  revert l'. induction l as [| y l IH]; intros l'; cbn [insert].
  - now intros [= <-].
  - destruct (before x y) as [b |]; [| discriminate]. cbn [bind].
    destruct b; [now intros [= <-] |].
    destruct (insert before x l) as [l'' |]; [| discriminate]. cbn [bind].
    intros [= <-]. rewrite (IH l'' eq_refl). apply perm_swap.
Qed.

Lemma sort_Permutation {A : Type} (before : A -> A -> result bool)
    (l ordered : list A) :
  sort before l = Ok ordered -> Permutation ordered l.
Proof.
  unfold sort.
  assert (G : forall acc acc' out,
             acc = Ok acc' ->
             fold_left (fun acc x => s <- acc ;; insert before x s) l acc = Ok out ->
             Permutation out (acc' ++ l)).
  { induction l as [| x l IH]; intros acc acc' out Ha H; cbn [fold_left] in H.
    - rewrite app_nil_r. subst acc. now injection H as <-.
    - subst acc. cbn [bind] in H.
      destruct (insert before x acc') as [acc'' |] eqn:E.
      + rewrite (IH _ acc'' out eq_refl H).
        rewrite (insert_Permutation _ _ _ _ E). apply Permutation_middle.
      + exfalso. clear - H. induction l as [| y l IH]; [discriminate |].
        cbn [fold_left bind] in H. now apply IH. }
  intros H. exact (G (Ok []) [] ordered eq_refl H).
Qed.

(** What [sorted] returns is a rearrangement of the list; when no key is a
    NaN it is in order. *)
Lemma sorted_spec {A : Type} (key : A -> value) (l ordered : list A) :
  sorted key l = Ok ordered ->
  Permutation ordered l
  /\ (existsb (fun a => nan_key (key a)) l = false ->
      Sorted (not_before key) ordered).
Proof.
  unfold sorted.
  destruct (sort (fun a b => lt (key a) (key b)) l) as [s |] eqn:E; [| discriminate].
  cbn [bind]. intros [= <-].
  destruct (existsb (fun a => nan_key (key a)) l).
  - split; [apply arrange_Permutation | discriminate].
  - split; [exact (sort_Permutation _ _ _ E) | intros _; exact (sort_Sorted key l s E)].
Qed.

(** With text keys, as dates usually are, nothing in a sorted list is
    before its first element or after its last. *)
Lemma sorted_text_ends {A : Type} (key : A -> value) (l : list A) (d x : A) :
  Sorted (not_before key) l ->
  Forall (fun a => is_text (key a) = true) l ->
  In x l ->
  lt (key x) (key (hd d l)) = Ok false /\ lt (key (last l d)) (key x) = Ok false.
Proof.
  intros S T.
  assert (Tr : forall a b c, In a l -> In b l -> In c l ->
                 not_before key a b -> not_before key b c -> not_before key a c).
  { rewrite Forall_forall in T. intros a b c Ha Hb Hc.
    pose proof (T a Ha) as Ta. pose proof (T b Hb) as Tb. pose proof (T c Hc) as Tc.
    unfold not_before.
    destruct (key a) as [| | | | s]; try discriminate.
    destruct (key b) as [| | | | t]; try discriminate.
    destruct (key c) as [| | | | u]; try discriminate.
    cbn [lt]. intros [= H1] [= H2]. f_equal. now apply (str_le_trans s t u). }
  assert (Rf : forall a, In a l -> not_before key a a).
  { rewrite Forall_forall in T. intros a Ha. pose proof (T a Ha) as Ta.
    unfold not_before. destruct (key a) as [| | | | s]; try discriminate.
    cbn [lt]. f_equal. destruct (PyStr.ltb s s) eqn:E; [| reflexivity].
    now rewrite (str_ltb_asym s s E) in E. }
  assert (SS : forall l0, incl l0 l -> Sorted (not_before key) l0 ->
                 StronglySorted (not_before key) l0).
  { induction l0 as [| a l0 IH]; intros I S0; [constructor |].
    inversion S0 as [| ? ? S0' H0]; subst.
    assert (I' : incl l0 l) by (intros z Hz; apply I; now right).
    specialize (IH I' S0'). constructor; [exact IH |].
    destruct l0 as [| b l0]; [constructor |].
    inversion H0; subst. inversion IH as [| ? ? _ Fb]; subst.
    constructor; [assumption |]. rewrite Forall_forall in *. intros z Hz.
    apply (Tr a b z); [apply I; now left | apply I; right; now left
                      | apply I'; now right | assumption | now apply Fb]. }
  specialize (SS l (incl_refl l) S). clear S.
  revert x. induction SS as [| a l0 SS IH F]; intros x Hx; [destruct Hx |].
  assert (T' : Forall (fun a => is_text (key a) = true) l0) by now inversion T.
  assert (Tr' : forall a0 b c, In a0 l0 -> In b l0 -> In c l0 ->
                  not_before key a0 b -> not_before key b c -> not_before key a0 c).
  { intros a0 b c Ha Hb Hc. apply Tr; now right. }
  assert (Rf' : forall a0, In a0 l0 -> not_before key a0 a0)
    by (intros a0 Ha; apply Rf; now right).
  rewrite Forall_forall in F. split.
  - cbn [hd]. destruct Hx as [<- | Hx]; [apply Rf; now left | now apply F].
  - destruct l0 as [| b l0].
    + cbn [last]. destruct Hx as [<- | []]. apply Rf. now left.
    + change (last (a :: b :: l0) d) with (last (b :: l0) d).
      destruct Hx as [<- | Hx]; [| now apply (IH T' Tr' Rf')].
      apply F. destruct (exists_last (l := b :: l0) ltac:(discriminate))
        as [l' [z E]]. rewrite E, last_last. apply in_or_app. right. now left.
Qed.

End OrderFacts.

(** ** The generators: what they say first *)

Section GeneratorFacts.

Import PyFloat Py NlpAnalyzer Aux.

Context {rt : Runtime}.

Lemma fst_bindE {A B : Type} (m : emitter A) (k : A -> emitter B) :
  fst (bindE m k)
  = fst m ++ match snd m with
             | Ok a => fst (k a)
             | Raise _ => []
             end.
Proof.
  destruct m as [out [a | e]]; cbn [bindE fst snd].
  - now destruct (k a).
  - now rewrite app_nil_r.
Qed.

Lemma dict_append_form {A : Type} (d : dict (list A)) (k : string) (v : A) :
  NoDup (dict_keys d) -> Forall (fun kv => snd kv <> []) d ->
  NoDup (dict_keys (dict_append d k v))
  /\ Forall (fun kv => snd kv <> []) (dict_append d k v).
Proof.
  intros N F. unfold dict_append.
  destruct (dict_get d k) as [l |]; (split; [now apply dict_set_NoDup |]);
    apply Forall_forall; intros kv Hin; apply dict_set_entries in Hin;
    (destruct Hin as [[_ Hv] | Hin];
     [rewrite Hv; try discriminate; now destruct l
     | rewrite Forall_forall in F; now apply F]).
Qed.

Lemma group_by_category_form (data : list item)
    (category_field numeric_field : string) (acc category_data : dict (list float)) :
  group_by_category data category_field numeric_field acc = Ok category_data ->
  NoDup (dict_keys acc) -> Forall (fun kv => snd kv <> []) acc ->
  NoDup (dict_keys category_data)
  /\ Forall (fun kv => snd kv <> []) category_data.
Proof.
  revert acc. induction data as [| it data IH]; intros acc H N F.
  - cbn [group_by_category] in H. injection H as <-. now split.
  - cbn [group_by_category] in H.
    destruct (contains_key it category_field) as [has_cat |]; [| discriminate].
    cbn [bind] in H.
    destruct (if has_cat then contains_key it numeric_field else Ok false)
      as [has_num |]; [| discriminate].
    cbn [bind] in H.
    destruct (if has_num
              then c <- getitem it category_field ;; Ok (negb (is_none c))
              else Ok false) as [cat_ok |]; [| discriminate].
    cbn [bind] in H.
    destruct (if cat_ok
              then v <- getitem it numeric_field ;; Ok (negb (is_none v))
              else Ok false) as [num_ok |]; [| discriminate].
    cbn [bind] in H. destruct num_ok; [| now apply (IH acc)].
    destruct (getitem it category_field) as [c |]; [| discriminate].
    cbn [bind] in H.
    destruct (getitem it numeric_field) as [v |]; [| discriminate].
    cbn [bind] in H. destruct (to_float v) as [f |]; [| discriminate].
    cbn [bind] in H.
    destruct (dict_append_form acc (str c) f N F) as [N' F'].
    now apply (IH _ H).
Qed.

Lemma average_each_keys (category_data : dict (list float)) :
  Forall (fun kv => snd kv <> []) category_data ->
  exists averages,
    average_each category_data = Ok averages
    /\ map fst averages = dict_keys category_data.
Proof.
  induction 1 as [| [category values] rest Hv _ [averages [Ha Hk]]].
  - now exists [].
  - cbn [average_each]. cbn [snd] in Hv.
    destruct values as [| first values]; [congruence |].
    unfold div_len, div_int.
    replace (Z.of_nat (List.length (first :: values)) =? 0)%Z with false
      by (symmetry; apply Z.eqb_neq; simpl; lia).
    cbn [bind]. rewrite Ha. cbn [bind app]. eexists. split; [reflexivity |].
    cbn [map fst dict_keys]. now rewrite Hk.
Qed.

Lemma last_In {A : Type} (a : A) (l : list A) (d : A) : In (last (a :: l) d) (a :: l).
Proof.
  revert a. induction l as [| b l IH]; intros a; [now left |].
  right. apply (IH b).
Qed.

Lemma first_is_not_last {A : Type} (l : list (string * A)) (d : string * A) :
  NoDup (map fst l) -> 2 <= List.length l -> fst (hd d l) <> fst (last l d).
Proof.
  destruct l as [| a l]; [simpl; lia |]. destruct l as [| b l]; [simpl; lia |].
  intros N _. cbn [hd]. change (last (a :: b :: l) d) with (last (b :: l) d).
  cbn [map] in N. inversion N as [| ? ? Hn _]; subst. intros E. apply Hn.
  rewrite E. apply (in_map fst (b :: l)). apply last_In.
Qed.


(** X13: when two categories or more have values for a numeric field, the
    category generator opens with the best and the lowest performing
    category, which are two different categories, each with the average
    computed for it; unless an average is a NaN, no category has an average
    above the best one's or below the lowest one's.  With fewer than two
    categories, or when the grouping raises, it says nothing. *)
Theorem category_best_and_lowest (data : list item)
    (category_field numeric_field : string) :
  match group_by_category data category_field numeric_field [] with
  | Raise _ => try_except (category_block data category_field numeric_field) = []
  | Ok category_data =>
      (List.length category_data < 2 ->
       try_except (category_block data category_field numeric_field) = [])
      /\ (2 <= List.length category_data ->
          exists averages top top_avg bottom bottom_avg more,
            average_each category_data = Ok averages
            /\ map fst averages = dict_keys category_data
            /\ In (top, top_avg) averages /\ In (bottom, bottom_avg) averages
            /\ top <> bottom
            /\ (existsb (fun ca => is_nan (snd ca)) averages = false ->
                forall c a, In (c, a) averages ->
                  ltb top_avg a = false /\ ltb a bottom_avg = false)
            /\ try_except (category_block data category_field numeric_field)
               = ("The best performing category in terms of "
                  ++ label numeric_field ++ " is '" ++ top
                  ++ "' with an average of " ++ format_f 2 top_avg ++ ".")%string
                 :: ("The lowest performing category in terms of "
                     ++ label numeric_field ++ " is '" ++ bottom
                     ++ "' with an average of " ++ format_f 2 bottom_avg ++ ".")%string
                 :: more)
  end.
Proof.
  unfold try_except, category_block. rewrite fst_bindE. cbn [lift fst snd app].
  destruct (group_by_category data category_field numeric_field [])
    as [category_data | e] eqn:G; [| reflexivity].
  split.
  - intros H.
    now replace (Nat.ltb (List.length category_data) 2) with true
      by (symmetry; apply Nat.ltb_lt; exact H).
  - intros H.
    replace (Nat.ltb (List.length category_data) 2) with false
      by (symmetry; apply Nat.ltb_ge; exact H).
    destruct (group_by_category_form _ _ _ _ _ G) as [N F]; try constructor.
    destruct (average_each_keys category_data F) as [averages [Ha Hk]].
    rewrite fst_bindE, Ha. cbn [lift fst snd app]. cbv zeta.
    pose proof (sorted_reverse_Permutation averages) as P.
    assert (Ends : existsb (fun ca => is_nan (snd ca)) averages = false ->
                   forall x, In x averages ->
                     ltb (snd (hd (EmptyString, zero) (sorted_reverse averages)))
                         (snd x) = false
                     /\ ltb (snd x)
                            (snd (last (sorted_reverse averages) (EmptyString, zero)))
                        = false).
    { intros Hn x Hx. apply descending_ends.
      - now apply sorted_reverse_descending.
      - apply (Permutation_in _ (Permutation_sym P) Hx). }
    assert (L : List.length (sorted_reverse averages) = List.length category_data).
    { rewrite (Permutation_length P), <- (length_map fst), Hk.
      apply length_map. }
    assert (Ns : NoDup (map fst (sorted_reverse averages))).
    { apply (Permutation_NoDup (l := map fst averages));
        [symmetry; now apply Permutation_map | now rewrite Hk]. }
    pose proof (first_is_not_last (sorted_reverse averages) (EmptyString, zero) Ns
                  ltac:(lia)) as D.
    assert (Hhd : In (hd (EmptyString, zero) (sorted_reverse averages)) averages).
    { apply (Permutation_in _ P).
      destruct (sorted_reverse averages); [simpl in L; lia | now left]. }
    assert (Hlast : In (last (sorted_reverse averages) (EmptyString, zero)) averages).
    { apply (Permutation_in _ P).
      destruct (sorted_reverse averages) as [| a l]; [simpl in L; lia | apply last_In]. }
    rewrite fst_bindE.
    replace (Nat.leb 2 (List.length (sorted_reverse averages))) with true
      by (symmetry; apply Nat.leb_le; lia).
    cbn [when].
    destruct (hd (EmptyString, zero) (sorted_reverse averages)) as [top top_avg].
    destruct (last (sorted_reverse averages) (EmptyString, zero)) as [bottom bottom_avg].
    rewrite !fst_bindE_emit.
    exists averages, top, top_avg, bottom, bottom_avg. eexists.
    split; [reflexivity |]. split; [exact Hk |].
    split; [exact Hhd |]. split; [exact Hlast |]. split; [exact D |].
    split; [intros Hn c a Hin; exact (Ends Hn (c, a) Hin) |].
    cbn [app]. reflexivity.
Qed.






Lemma positive_not_zero (x : float) : gtb x zero = true -> is_zero x = false.
Proof. now destruct x as [[] | [] | | [] m e]. Qed.

(** X15: with three dated values or more that sort, the trend generator opens
    with exactly one statement on the overall trend: increasing when the
    change from the first to the last value in date order exceeds 10%,
    decreasing when it is below -10%, stable otherwise, the change being 0
    when the first value is not positive.  The sort keeps every point and,
    unless a date is a NaN, puts the points in date order: no point is
    followed by one of an earlier date, and when the dates are text no
    point is dated before the first or after the last.  With fewer than
    three points, or when a conversion or the sort raises, it says
    nothing. *)
Theorem trend_overall_statement (data : list item)
    (date_field numeric_field : string) :
  match collect (data_point date_field numeric_field) data with
  | Raise _ => try_except (trend_block data date_field numeric_field) = []
  | Ok data_points =>
      if Nat.ltb (List.length data_points) 3
      then try_except (trend_block data date_field numeric_field) = []
      else
        match sorted fst data_points with
        | Raise _ => try_except (trend_block data date_field numeric_field) = []
        | Ok ordered =>
            let first_value := snd (hd (VNone, zero) ordered) in
            let last_value := snd (last ordered (VNone, zero)) in
            let percent_change :=
              if gtb first_value zero
              then mul (SFdiv prec emax (sub last_value first_value) first_value)
                       (of_Z 100)
              else zero in
            Permutation ordered data_points
            /\ (existsb (fun p => nan_key (fst p)) data_points = false ->
                Sorted (not_before fst) ordered)
            /\ (Forall (fun p => is_text (fst p) = true) data_points ->
                forall p, In p data_points ->
                  lt (fst p) (fst (hd (VNone, zero) ordered)) = Ok false
                  /\ lt (fst (last ordered (VNone, zero))) (fst p) = Ok false)
            /\ exists more,
                 List.length more <= 1
                 /\ try_except (trend_block data date_field numeric_field)
                    = (if gtb percent_change (of_Z 10) then
                         ("The " ++ label numeric_field
                          ++ " shows an increasing trend of "
                          ++ format_f 1 percent_change
                          ++ "% over the analyzed period.")%string
                       else if ltb percent_change (of_Z (-10)) then
                         ("The " ++ label numeric_field
                          ++ " shows a decreasing trend of "
                          ++ format_f 1 (abs percent_change)
                          ++ "% over the analyzed period.")%string
                       else
                         ("The " ++ label numeric_field
                          ++ " remains relatively stable over the analyzed period (change: "
                          ++ format_f 1 percent_change ++ "%).")%string)
                      :: more
        end
  end.
Proof.
  pose proof (proj2 (trend_block_emits (fun _ => True) (fun _ _ => I)
                       data date_field numeric_field)) as Bound.
  unfold try_except. revert Bound.
  unfold trend_block. rewrite fst_bindE. cbn [lift fst snd app].
  destruct (collect (data_point date_field numeric_field) data)
    as [data_points | e]; [| reflexivity].
  destruct (Nat.ltb (List.length data_points) 3); [reflexivity |].
  rewrite fst_bindE. cbn [lift fst snd app].
  destruct (sorted fst data_points) as [ordered | e] eqn:S; [| reflexivity].
  cbv zeta. intros Bound.
  destruct (sorted_spec fst data_points ordered S) as [P Hs].
  split; [exact P |]. split; [exact Hs |]. split.
  { intros T p Hp.
    assert (N : existsb (fun p => nan_key (fst p)) data_points = false).
    { clear - T. induction T as [| [d f] l Hd _ IH]; [reflexivity |].
      cbn [existsb fst] in *. rewrite IH. now destruct d. }
    apply (sorted_text_ends fst ordered (VNone, zero) p (Hs N)).
    - rewrite Forall_forall in *. intros a Ha. apply T.
      apply (Permutation_in _ P Ha).
    - apply (Permutation_in _ (Permutation_sym P) Hp). }
  revert Bound. rewrite fst_bindE. cbn [lift fst].
  set (first_value := snd (hd (VNone, zero) ordered)).
  set (last_value := snd (last ordered (VNone, zero))).
  assert (Pc : (if gtb first_value zero
                then percent_of last_value first_value else Ok zero)
               = Ok (if gtb first_value zero
                     then mul (SFdiv prec emax (sub last_value first_value)
                                     first_value) (of_Z 100)
                     else zero)).
  { destruct (gtb first_value zero) eqn:G; [| reflexivity].
    unfold percent_of, div. now rewrite (positive_not_zero _ G). }
  rewrite Pc. cbn [lift snd app].
  set (percent_change := if gtb first_value zero
                         then mul (SFdiv prec emax (sub last_value first_value)
                                         first_value) (of_Z 100)
                         else zero).
  rewrite fst_bindE.
  destruct (gtb percent_change (of_Z 10));
    [| destruct (ltb percent_change (of_Z (-10)))];
    cbn [emit fst snd app]; intros Bound;
    (eexists; split; [| reflexivity]); cbn [List.length] in Bound; lia.
Qed.

End GeneratorFacts.

(** ** The chart builders: sizes and kinds *)

Section ChartSizes.

Import PyFloat Py Frame Visualizer Aux.

Context {pd : Pandas}.

Lemma time_series_kind (df : frame) (c : chart) :
  fst (create_time_series_chart df) = Some c ->
  chart_type c = "line"
  /\ map ds_label (datasets c) = firstn 3 (numeric_columns df).
Proof.
  unfold create_time_series_chart.
  destruct (date_columns df) as [| date_col dcs]; [discriminate |].
  destruct (numeric_columns df) as [| nc ncs]; [discriminate |].
  generalize (firstn 3 (nc :: ncs)). intros selected.
  destruct (existsb _ _); [discriminate |].
  cbn [fst]. intros [= <-]. cbn [chart_type datasets]. split; [reflexivity |].
  rewrite map_map. cbn [ds_label]. apply map_id.
Qed.

Lemma category_kind (df : frame) (c : chart) :
  create_category_comparison_chart df = Some c -> chart_type c = "bar".
Proof.
  unfold create_category_comparison_chart.
  destruct (ranked_sums df) as [[[cc nc] grouped] |]; [| discriminate].
  now intros [= <-].
Qed.

Lemma distribution_kind (df : frame) (c : chart) :
  create_distribution_chart df = Some c -> chart_type c = "bar".
Proof.
  unfold create_distribution_chart.
  destruct (numeric_columns df) as [| c1 [| c2 ncs]]; try discriminate.
  destruct (histograms _ _ _) as [[[edges h1] h2] | e]; [| discriminate].
  now intros [= <-].
Qed.

Lemma composition_kind (df : frame) (c : chart) :
  create_composition_chart df = Some c -> chart_type c = "pie".
Proof.
  unfold create_composition_chart.
  destruct (ranked_sums df) as [[[cc nc] grouped] |]; [| discriminate].
  now intros [= <-].
Qed.

Lemma correlation_kind (df : frame) (c : chart) :
  create_correlation_chart df = Some c -> chart_type c = "scatter".
Proof.
  unfold create_correlation_chart.
  destruct (numeric_columns df) as [| x [| y ncs]]; try discriminate.
  now intros [= <-].
Qed.

Lemma charts_of_kinds (df : frame) :
  List.length (charts_of df) <= 4
  /\ Forall (fun c => In (chart_type c) ["line"; "bar"; "pie"; "scatter"])
            (charts_of df)
  /\ (In "scatter" (map chart_type (charts_of df)) ->
      List.length (charts_of df) <= 2).
Proof.
  unfold charts_of.
  pose proof (time_series_kind df) as Ht.
  destruct (create_time_series_chart df) as [time_series df']. cbn [fst] in Ht.
  pose proof (category_kind df') as Hc.
  pose proof (distribution_kind df') as Hd.
  pose proof (composition_kind df') as Hp.
  pose proof (correlation_kind df') as Hs.
  destruct time_series as [c1 |];
    [destruct (Ht c1 eq_refl) as [Ht1 _] | ]; clear Ht;
    try (assert (Ht1 : True) by exact I);
    (destruct (create_category_comparison_chart df') as [c2 |];
       [specialize (Hc c2 eq_refl) | clear Hc; assert (Hc : True) by exact I]);
    (destruct (create_distribution_chart df') as [c3 |];
       [specialize (Hd c3 eq_refl) | clear Hd; assert (Hd : True) by exact I]);
    (destruct (create_composition_chart df') as [c4 |];
       [specialize (Hp c4 eq_refl) | clear Hp; assert (Hp : True) by exact I]);
    (destruct (create_correlation_chart df') as [c5 |];
       [specialize (Hs c5 eq_refl) | clear Hs; assert (Hs : True) by exact I]);
    cbn [as_list app List.length Nat.ltb Nat.leb map];
    (split; [lia |]);
    (split;
     [ repeat (apply Forall_cons;
                 [rewrite ?Ht1, ?Hc, ?Hd, ?Hp, ?Hs; simpl; auto 10 |]);
       apply Forall_nil
     | rewrite ?Ht1, ?Hc, ?Hd, ?Hp, ?Hs; simpl;
       intuition (try discriminate; try lia) ]).
Qed.

(** X16: [create_visualizations] returns at most four charts, so the report's
    [visualizations[:4]] drops none; each is a line, bar, pie or scatter
    chart, and the scatter chart appears only as a fallback, in a list of
    at most two. *)
Theorem at_most_four_charts (data : pydata) :
  List.length (create_visualizations data) <= 4
  /\ firstn 4 (create_visualizations data) = create_visualizations data
  /\ Forall (fun c => In (chart_type c) ["line"; "bar"; "pie"; "scatter"])
            (create_visualizations data)
  /\ (In "scatter" (map chart_type (create_visualizations data)) ->
      List.length (create_visualizations data) <= 2).
Proof.
  assert (H : List.length (create_visualizations data) <= 4
              /\ Forall (fun c => In (chart_type c) ["line"; "bar"; "pie"; "scatter"])
                        (create_visualizations data)
              /\ (In "scatter" (map chart_type (create_visualizations data)) ->
                  List.length (create_visualizations data) <= 2)).
  { unfold create_visualizations.
    destruct data as [[| first others] | r | v];
      try (simpl; repeat split; [lia | constructor | tauto]).
    destruct (records_of (first :: others)) as [records |];
      [apply charts_of_kinds | simpl; repeat split; [lia | constructor | tauto]]. }
  destruct H as [L [K S]]. repeat split; try assumption.
  now apply firstn_all2.
Qed.


Lemma records_of_records (records : list record) :
  records_of (map IRecord records) = Some records.
Proof.
  induction records as [| r records IH]; [reflexivity |].
  cbn [map records_of record_of]. now rewrite IH.
Qed.

(** X17: without a numeric column there is no chart: every builder needs at
    least one, so records whose values are all text, digit strings
    included, yield the empty list. *)
Theorem no_numeric_column_no_chart (records : list record) :
  numeric_columns (DataFrame records) = [] ->
  create_visualizations (PList (map IRecord records)) = [].
Proof.
  intros H. destruct records as [| r records]; [reflexivity |].
  unfold create_visualizations. cbn [map].
  change (IRecord r :: map IRecord records) with (map IRecord (r :: records)).
  rewrite records_of_records. unfold charts_of, create_time_series_chart.
  rewrite H. destruct (date_columns (DataFrame (r :: records)));
    unfold create_category_comparison_chart, create_composition_chart,
           create_distribution_chart, create_correlation_chart, ranked_sums;
    rewrite H; destruct (category_columns (DataFrame (r :: records)));
    reflexivity.
Qed.





Lemma set_column_columns (df : frame) (c : string) (cells : list cell) :
  In c (columns df) -> columns (set_column df c cells) = columns df.
Proof.
  intros H. unfold columns, set_column. cbn [cols]. rewrite dict_keys_set.
  apply dict_mem_keys in H. now rewrite H.
Qed.

Lemma set_column_other (df : frame) (c col : string) (cells : list cell) :
  c <> col -> column (set_column df c cells) col = column df col.
Proof.
  intros H. unfold column, set_column. cbn [cols].
  now rewrite dict_get_set_other.
Qed.

(** X20: the time-series builder writes to the shared frame, and only to its
    first date column: the frame the later builders see has the same rows,
    the same columns in the same order, and every other column unchanged;
    without a date column or a numeric column it is the same frame.  The
    chart, when there is one, is a line chart with one series for each of
    the first three numeric columns; there is none when the date column is
    itself one of these, a numeric year for instance. *)
Theorem time_series_touches_date_column_only (df : frame) :
  nrows (snd (create_time_series_chart df)) = nrows df
  /\ columns (snd (create_time_series_chart df)) = columns df
  /\ (forall col, hd_error (date_columns df) <> Some col ->
        column (snd (create_time_series_chart df)) col = column df col)
  /\ (date_columns df = [] \/ numeric_columns df = [] ->
      create_time_series_chart df = (None, df))
  /\ (forall c, fst (create_time_series_chart df) = Some c ->
        chart_type c = "line"
        /\ map ds_label (datasets c) = firstn 3 (numeric_columns df)
        /\ List.length (datasets c) <= 3)
  /\ (forall date_col,
        hd_error (date_columns df) = Some date_col ->
        In date_col (firstn 3 (numeric_columns df)) ->
        fst (create_time_series_chart df) = None).
Proof.
  assert (Hframe : nrows (snd (create_time_series_chart df)) = nrows df
                   /\ columns (snd (create_time_series_chart df)) = columns df
                   /\ (forall col, hd_error (date_columns df) <> Some col ->
                         column (snd (create_time_series_chart df)) col
                         = column df col)).
  { unfold create_time_series_chart.
    destruct (date_columns df) as [| date_col dcs] eqn:Ed; [now repeat split |].
    destruct (numeric_columns df) as [| nc ncs]; [now repeat split |].
    assert (Hin : In date_col (columns df)).
    { apply (columns_named_incl date_terms). fold (date_columns df).
      rewrite Ed. now left. }
    generalize (firstn 3 (nc :: ncs)). intros selected.
    assert (H : forall ch : option chart,
               nrows (snd (ch,
                           match to_datetime (column df date_col) with
                           | Some ts => set_column df date_col (map Time ts)
                           | None => df
                           end)) = nrows df
               /\ columns (snd (ch,
                           match to_datetime (column df date_col) with
                           | Some ts => set_column df date_col (map Time ts)
                           | None => df
                           end)) = columns df
               /\ (forall col, hd_error (date_col :: dcs) <> Some col ->
                     column (snd (ch,
                           match to_datetime (column df date_col) with
                           | Some ts => set_column df date_col (map Time ts)
                           | None => df
                           end)) col = column df col)).
    { intros ch. cbn [snd hd_error].
      destruct (to_datetime (column df date_col)) as [ts |]; [| now repeat split].
      split; [reflexivity |]. split; [now apply set_column_columns |].
      intros col Hc. apply set_column_other. congruence. }
    destruct (existsb (String.eqb date_col) selected); apply H. }
  destruct Hframe as [H1 [H2 H3]].
  split; [exact H1 |]. split; [exact H2 |]. split; [exact H3 |].
  split; [| split].
  - unfold create_time_series_chart. intros [H | H].
    + now rewrite H.
    + rewrite H. now destruct (date_columns df).
  - intros c Hc. destruct (time_series_kind df c Hc) as [K L].
    split; [exact K |]. split; [exact L |].
    rewrite <- (length_map ds_label), L. apply firstn_le_length.
  - intros date_col Hd Hin. unfold create_time_series_chart.
    destruct (date_columns df) as [| d dcs]; [discriminate |].
    injection Hd as ->.
    destruct (numeric_columns df) as [| nc ncs]; [reflexivity |].
    replace (existsb (String.eqb date_col) (firstn 3 (nc :: ncs))) with true;
      [reflexivity |].
    symmetry. apply existsb_exists. exists date_col.
    split; [exact Hin | apply String.eqb_refl].
Qed.


Lemma n_bins_range (df : frame) : 2 <= n_bins df <= 10.
Proof.
  unfold n_bins. destruct (Nat.ltb 10 (nrows df)) eqn:E; [| lia].
  apply Nat.ltb_lt in E.
  assert (2 <= nrows df / 5) by (apply Nat.div_le_lower_bound; lia).
  lia.
Qed.

(** X21: the distribution chart has between two and ten bins: five for ten
    rows or fewer, otherwise a fifth of the row count, capped at ten.  It
    has one label per bin and, for each of the first two numeric columns,
    one count per bin; there is none with fewer than two numeric columns. *)
Theorem distribution_chart_bins (df : frame) :
  2 <= n_bins df <= 10
  /\ (nrows df <= 10 -> n_bins df = 5)
  /\ (50 <= nrows df -> n_bins df = 10)
  /\ (List.length (numeric_columns df) < 2 -> create_distribution_chart df = None)
  /\ match create_distribution_chart df with
     | None => True
     | Some c =>
         List.length (labels c) = n_bins df
         /\ exists hist_counts1 hist_counts2,
              datasets c
              = [ {| ds_label := nth 0 (numeric_columns df) "";
                     ds_data := Values hist_counts1 |};
                  {| ds_label := nth 1 (numeric_columns df) "";
                     ds_data := Values hist_counts2 |} ]
              /\ List.length hist_counts1 = n_bins df
              /\ List.length hist_counts2 = n_bins df
     end.
Proof.
  split; [apply n_bins_range |]. split; [| split; [| split]].
  - intros H. unfold n_bins.
    now replace (Nat.ltb 10 (nrows df)) with false by (symmetry; apply Nat.ltb_ge; lia).
  - intros H. unfold n_bins.
    replace (Nat.ltb 10 (nrows df)) with true by (symmetry; apply Nat.ltb_lt; lia).
    assert (10 <= nrows df / 5) by (apply Nat.div_le_lower_bound; lia). lia.
  - unfold create_distribution_chart.
    destruct (numeric_columns df) as [| c1 [| c2 ncs]]; simpl; intros H;
      [reflexivity | reflexivity | lia].
  - unfold create_distribution_chart.
    destruct (numeric_columns df) as [| c1 [| c2 ncs]]; try exact I.
    destruct (histograms _ _ _) as [[[edges h1] h2] | e] eqn:E; [| exact I].
    destruct (histograms_lengths _ _ _ _ _ _ E) as [Le [L1 L2]].
    assert (Lc : List.length (combine edges (tl edges)) = n_bins df).
    { rewrite length_combine. destruct edges as [| e0 rest]; [discriminate |].
      cbn [tl List.length] in *. lia. }
    cbn [labels datasets nth]. split; [now rewrite length_map |].
    exists h1, h2. repeat split; congruence.
Qed.

End ChartSizes.

Lemma no_numeric_column_no_chart_names :
  Frame.numeric_columns (pd := toy_pandas)
    (Frame.DataFrame [ [("name", VStr "a"); ("amount", VStr "10")];
                       [("name", VStr "b"); ("amount", VStr "20")] ]) = []
  /\ Visualizer.create_visualizations (pd := toy_pandas)
       (PList (map IRecord [ [("name", VStr "a"); ("amount", VStr "10")];
                             [("name", VStr "b"); ("amount", VStr "20")] ]))
     = [].
Proof.
  split; [reflexivity |].
  apply (no_numeric_column_no_chart (pd := toy_pandas)
           [ [("name", VStr "a"); ("amount", VStr "10")];
             [("name", VStr "b"); ("amount", VStr "20")] ]).
  reflexivity.
Defined.
